(** * PowerGrid+ : the pipeline stages and the anomaly rule engine

    A shallow embedding of [powergrid/transform.py] ([_clean_types],
    [_clean_values], [_engineer_features], [_latest_raw_file]), of
    [powergrid/anomalies.py] ([_apply_rules], [_latest_processed]), of
    [powergrid/load.py] ([_latest_processed_file]), of
    [powergrid/export_gold.py] ([export_gold]) and of
    [powergrid/data_gen.py] ([_generate_timestamps]), with the properties of
    the specification stated and proved over it.

    Numbers are IEEE 754 binary64 values, as NumPy's [float64] columns hold
    them: the executable specification [spec_float] of the standard library
    at precision 53 and maximal exponent 1024, with its NaN, its two
    infinities and its two zeros.  A data frame is the list of its rows in
    frame order.

    The pandas operations are those of pandas 3: [to_datetime] reads a
    column with the one format it infers from the first cell and keeps one
    time zone per column, [rolling(...).mean()] is the loop of [roll_mean]
    with its compensated running sum, and [pct_change] fills nothing. *)

From Stdlib Require Import ZArith List Bool String Lia Sorted Permutation.
From Stdlib Require Import Floats.SpecFloat.
Import ListNotations.
Open Scope Z_scope.

(** ** Binary64 arithmetic *)

Module F64.

Definition float := spec_float.

Definition prec : Z := 53.
Definition emax : Z := 1024.

Definition nan : float := S754_nan.
Definition inf : float := S754_infinity false.
Definition zero : float := S754_zero false.

Definition add : float -> float -> float := SFadd prec emax.
Definition sub : float -> float -> float := SFsub prec emax.
Definition div : float -> float -> float := SFdiv prec emax.
Definition opp : float -> float := SFopp.

(** Python's [<], [>], [<=] and [==] on floats: all false on NaN. *)
Definition ltb : float -> float -> bool := SFltb.
Definition gtb (x y : float) : bool := SFltb y x.
Definition leb : float -> float -> bool := SFleb.
Definition eqb : float -> float -> bool := SFeqb.

Definition isna (x : float) : bool :=
  match x with S754_nan => true | _ => false end.
Definition notna (x : float) : bool := negb (isna x).

Definition is_inf (x : float) : bool :=
  match x with S754_infinity _ => true | _ => false end.

(** The float of an integer, rounded to nearest even. *)
Definition of_Z (z : Z) : float := binary_normalize prec emax z 0 false.

(** The float a decimal literal [n / 10^k] denotes: the quotient of two
    exactly representable integers, correctly rounded. *)
Definition decimal (n : Z) (k : nat) : float :=
  div (of_Z n) (of_Z (10 ^ Z.of_nat k)).

Definition one : float := of_Z 1.

End F64.

Import F64.

(** ** Records and frames *)

(** An instant is a count of nanoseconds since the epoch; [None] is NaT.
    It is what a datetime column is sorted and merged on. *)
Definition instant := option Z.

(** A value of a datetime column: its instant, and the offset of the
    column's wall clock from UTC at that instant, in nanoseconds.  A
    column without a time zone holds the wall clock itself, with an offset
    of 0.  The components [dt.hour] and [dt.minute] are read on the wall
    clock, the order and the equality of two values on their instants. *)
Record Timestamp := mkTimestamp {
  utc : Z;
  utcoffset : Z
}.

Definition datetime := option Timestamp.

Definition instant_of (t : datetime) : instant := option_map utc t.

Definition wall_clock (t : Timestamp) : Z := utc t + utcoffset t.

(** A value of a column without a time zone. *)
Definition naive (ns : Z) : datetime := Some (mkTimestamp ns 0).

(** One reading, after type normalisation. *)
Record Reading := mkReading {
  timestamp : datetime;
  meter_id : Z;
  region : string;
  voltage : float;
  current : float;
  power_kw : float;
  power_factor : float;
  temperature_c : float
}.

(** A reading with the three derived columns. *)
Record Enriched := mkEnriched {
  reading : Reading;
  hour_of_day : float;
  rolling_kw_1h : float;
  kw_pct_change : float
}.

(** An enriched reading with the two annotation columns. *)
Record Tagged := mkTagged {
  enriched : Enriched;
  anomaly_reason : option string;
  anomaly_flag : bool
}.

(** Cells of a raw frame, as [read_csv] or [read_parquet] leave them.  The
    parsers belong to the library, not to the repository, so a cell says
    what the library's parsers make of it. *)

(** What the date parser reads in a cell: an instant, and the offset from
    UTC the cell is written with, when it is written with one. *)
Record Parsed := mkParsed {
  parsed_utc : Z;
  parsed_offset : option Z
}.

(** A timestamp cell that is not empty.  [pd.to_datetime] reads a column
    with the format it infers from the first such cell, so a cell is known
    by three verdicts of the library: the format inferred from it, if any
    ([guess_datetime_format]; none for a cell that is no text and for a text
    of no known layout); what the cell reads as under a given format, if it
    matches it; and what the cell reads as when it is parsed on its own. *)
Record ts_value := mkTsValue {
  ts_text : string;
  ts_format : option string;
  ts_strptime : string -> option Parsed;
  ts_parse : option Parsed
}.

Inductive ts_cell :=
| TsMissing                    (* an empty cell *)
| TsValue (v : ts_value).      (* a text, a number or a datetime *)

Inductive id_cell :=
| IdValue (z : Z)              (* a cell that converts to the integer [z] *)
| IdGarbled (s : string).      (* a text [int] rejects *)

Inductive num_cell :=
| NumValue (f : float)         (* a number, or a text that denotes one *)
| NumGarbled (s : string).     (* a text that denotes no number *)

Record RawReading := mkRaw {
  raw_timestamp : ts_cell;
  raw_meter_id : id_cell;
  raw_region : string;
  raw_voltage : num_cell;
  raw_current : num_cell;
  raw_power_kw : num_cell;
  raw_power_factor : num_cell;
  raw_temperature_c : num_cell
}.

(** Exceptions, and computations that return or raise.  The date parser
    raises a [ValueError] on a cell that does not match the format of the
    column and on a column written with more than one offset, and its own
    [DateParseError] (a subclass of [ValueError]) on a cell it cannot read
    on its own; [int] raises a [ValueError] on a text that is no integer. *)
Inductive value_error :=
| TimeDataMismatch (text format : string)
| MixedTimezones
| InvalidLiteral (text : string).

Inductive exn :=
| DateParseError (text : string)
| ValueError (why : value_error).

Inductive result (A : Type) :=
| Ok (a : A)
| Raise (e : exn).
Arguments Ok {A} a.
Arguments Raise {A} e.

Definition bind {A B} (c : result A) (k : A -> result B) : result B :=
  match c with
  | Ok a => k a
  | Raise e => Raise e
  end.

Notation "x <- c ;; k" := (bind c (fun x => k))
  (at level 61, c at next level, right associativity).

Fixpoint mapM {A B} (f : A -> result B) (l : list A) : result (list B) :=
  match l with
  | [] => Ok []
  | a :: t => b <- f a ;; bs <- mapM f t ;; Ok (b :: bs)
  end.

(** ** The pandas operations the program calls *)

Module Pandas.

(** *** [pd.to_datetime(col)], with its default [errors="raise"] *)

(** The first cell of the column that is not empty, and the format
    inferred from it ([_guess_datetime_format_for_array]). *)
Fixpoint first_non_null (col : list ts_cell) : option ts_value :=
  match col with
  | [] => None
  | TsMissing :: t => first_non_null t
  | TsValue v :: _ => Some v
  end.

Definition column_format (col : list ts_cell) : option string :=
  match first_non_null col with
  | Some v => ts_format v
  | None => None
  end.

(** With an inferred format every cell is read with that format
    ([array_strptime]): an empty cell is NaT, a cell that does not match
    raises. *)
Definition strptime_cell (fmt : string) (c : ts_cell) : result (option Parsed) :=
  match c with
  | TsMissing => Ok None
  | TsValue v =>
      match ts_strptime v fmt with
      | Some p => Ok (Some p)
      | None => Raise (ValueError (TimeDataMismatch (ts_text v) fmt))
      end
  end.

(** Without one every cell is parsed on its own ([array_to_datetime]). *)
Definition parse_cell (c : ts_cell) : result (option Parsed) :=
  match c with
  | TsMissing => Ok None
  | TsValue v =>
      match ts_parse v with
      | Some p => Ok (Some p)
      | None => Raise (DateParseError (ts_text v))
      end
  end.

(** The offsets the cells of a column are written with, [None] for a cell
    written without one. *)
Definition offsets (ps : list (option Parsed)) : list (option Z) :=
  flat_map (fun p => match p with Some q => [parsed_offset q] | None => [] end) ps.

Definition offset_eqb (a b : option Z) : bool :=
  match a, b with
  | Some x, Some y => x =? y
  | None, None => true
  | _, _ => false
  end.

Definition same_offsets (os : list (option Z)) : bool :=
  match os with
  | [] => true
  | o :: rest => forallb (offset_eqb o) rest
  end.

Definition to_timestamp (q : Parsed) : Timestamp :=
  mkTimestamp (parsed_utc q)
              (match parsed_offset q with Some off => off | None => 0 end).

(** A column has one time zone: once every cell is read, cells written
    with different offsets, or some with and some without, raise. *)
Definition localize (ps : list (option Parsed)) : result (list datetime) :=
  if same_offsets (offsets ps)
  then Ok (map (option_map to_timestamp) ps)
  else Raise (ValueError MixedTimezones).

Definition to_datetime (col : list ts_cell) : result (list datetime) :=
  parsed <- match column_format col with
            | Some fmt => mapM (strptime_cell fmt) col
            | None => mapM parse_cell col
            end ;;
  localize parsed.

(** [col.astype(int)]. *)
Definition astype_int_cell (c : id_cell) : result Z :=
  match c with
  | IdValue z => Ok z
  | IdGarbled s => Raise (ValueError (InvalidLiteral s))
  end.

Definition astype_int (col : list id_cell) : result (list Z) :=
  mapM astype_int_cell col.

(** [pd.to_numeric(col, errors="coerce")]: what does not parse is NaN. *)
Definition to_numeric_coerce (c : num_cell) : float :=
  match c with
  | NumValue f => f
  | NumGarbled _ => nan
  end.

(** [df.loc[mask, col] = v], row by row. *)
Definition loc_set {R} (mask : R -> bool) (set : R -> R) (df : list R) : list R :=
  map (fun r => if mask r then set r else r) df.

(** [df.dropna(subset=cols)]: keep the rows where no listed column is
    missing. *)
Definition dropna {R} (subset : list (R -> float)) (df : list R) : list R :=
  filter (fun r => forallb (fun col => notna (col r)) subset) df.

(** [Series.fillna(v)]: only NaN is replaced, an infinity is a value. *)
Definition fillna (v : float) (xs : list float) : list float :=
  map (fun x => if isna x then v else x) xs.

(** [dt.hour] and [dt.minute]: components of the wall clock of the
    column, the local time of a column with a time zone. *)
Definition ns_per_minute : Z := 60 * 1000000000.
Definition ns_per_hour : Z := 60 * ns_per_minute.
Definition dt_hour (t : datetime) : float :=
  match t with
  | Some ts => of_Z ((wall_clock ts / ns_per_hour) mod 24)
  | None => nan
  end.
Definition dt_minute (t : datetime) : float :=
  match t with
  | Some ts => of_Z ((wall_clock ts / ns_per_minute) mod 60)
  | None => nan
  end.

(** *** [sort_values]: a stable sort, missing keys last *)

Fixpoint insert {R} (le : R -> R -> bool) (x : R) (l : list R) : list R :=
  match l with
  | [] => [x]
  | y :: t => if le x y then x :: l else y :: insert le x t
  end.

Definition sort_values {R} (le : R -> R -> bool) (df : list R) : list R :=
  fold_right (insert le) [] df.

(** Ascending instants, NaT after every instant. *)
Definition instant_leb (a b : instant) : bool :=
  match a, b with
  | Some x, Some y => x <=? y
  | Some _, None => true
  | None, Some _ => false
  | None, None => true
  end.

(** The order of [sort_values([k1, k2])] on an integer key and an
    instant key. *)
Definition lex_leb (a b : Z * instant) : bool :=
  (fst a <? fst b) || ((fst a =? fst b) && instant_leb (snd a) (snd b)).

(** *** The rolling mean *)

(** [values[a:b]]. *)
Definition slice {A} (a b : nat) (xs : list A) : list A :=
  skipn a (firstn b xs).

(** The bounds of the window of row [i], [start[i]] inclusive and
    [end[i]] exclusive, for a window of [w] rows
    ([FixedWindowIndexer.get_window_bounds]). *)
Definition window_start (w i : nat) : nat := i + 1 - w.
Definition window_end (i : nat) : nat := i + 1.

(** The variables of the loop of [roll_mean]: the number of observations
    in the window and how many of them have the sign bit set, the running
    sum with the two compensations of its Kahan summation, and the last
    value added with the number of times it was added in a row. *)
Record mean_state := mkMean {
  nobs : Z;
  neg_ct : Z;
  sum_x : float;
  compensation_add : float;
  compensation_remove : float;
  num_consecutive_same_value : Z;
  prev_value : float
}.

Definition signbit (x : float) : bool :=
  match x with
  | S754_zero s | S754_infinity s | S754_finite s _ _ => s
  | S754_nan => false
  end.

(** [add_mean]: a value enters the window.  A NaN is no observation. *)
Definition add_mean (st : mean_state) (val : float) : mean_state :=
  if eqb val val then
    let y := sub val (compensation_add st) in
    let t := add (sum_x st) y in
    mkMean (nobs st + 1)
           (if signbit val then neg_ct st + 1 else neg_ct st)
           t
           (sub (sub t (sum_x st)) y)
           (compensation_remove st)
           (if eqb val (prev_value st)
            then num_consecutive_same_value st + 1 else 1)
           val
  else st.

(** [remove_mean]: a value leaves the window. *)
Definition remove_mean (st : mean_state) (val : float) : mean_state :=
  if eqb val val then
    let y := sub (opp val) (compensation_remove st) in
    let t := add (sum_x st) y in
    mkMean (nobs st - 1)
           (if signbit val then neg_ct st - 1 else neg_ct st)
           t
           (compensation_add st)
           (sub (sub t (sum_x st)) y)
           (num_consecutive_same_value st)
           (prev_value st)
  else st.

(** [calc_mean]: the mean of the window from the variables.  A window of
    one repeated value has that value for mean, and the mean of values
    that are all positive, or all negative, is not left on the other side
    of zero by the rounding of the running sum. *)
Definition calc_mean (minp : Z) (st : mean_state) : float :=
  if (minp <=? nobs st) && (0 <? nobs st) then
    let result := div (sum_x st) (of_Z (nobs st)) in
    if nobs st <=? num_consecutive_same_value st then prev_value st
    else if (neg_ct st =? 0) && ltb result zero then zero
    else if (neg_ct st =? nobs st) && gtb result zero then zero
    else result
  else nan.

(** The variables at the start of a window that shares no row with the
    window before it. *)
Definition setup (first : float) : mean_state :=
  mkMean 0 0 zero zero zero 0 first.

(** One turn of the loop of [roll_mean], for row [i]: the first window is
    summed from nothing; a later window is the window before it, less the
    rows that leave, plus the rows that enter. *)
Definition roll_step (w : nat) (values : list float) (i : nat) (st : mean_state)
  : mean_state :=
  let s := window_start w i in
  let e := window_end i in
  if (i =? 0)%nat || (window_end (i - 1) <=? s)%nat then
    fold_left add_mean (slice s e values) (setup (nth s values nan))
  else
    let st := fold_left remove_mean (slice (window_start w (i - 1)) s values) st in
    fold_left add_mean (slice (window_end (i - 1)) e values) st.

Fixpoint roll_loop (w : nat) (minp : Z) (values : list float) (st : mean_state)
         (rows : list nat) : list float :=
  match rows with
  | [] => []
  | i :: rest =>
      let st := roll_step w values i st in
      calc_mean minp st :: roll_loop w minp values st rest
  end.

Definition roll_mean (w : nat) (minp : Z) (values : list float) : list float :=
  roll_loop w minp values (setup nan) (seq 0 (List.length values)).

(** What a rolling window does to its values before the loop
    ([_prep_values]): an infinity becomes NaN. *)
Definition prep_values (xs : list float) : list float :=
  map (fun x => if is_inf x then nan else x) xs.

(** [Series.rolling(window=w, min_periods=p).mean()].  Under [groupby]
    the loop runs once over the groups laid end to end; the first window of
    a group starts where the last window of the group before it ends, so
    it is summed from nothing, and the column of a group is the rolling
    mean of the group's own series. *)
Definition rolling_mean (w : nat) (min_periods : Z) (xs : list float)
  : list float :=
  roll_mean w min_periods (prep_values xs).

(** [Series.shift(1)]. *)
Definition shift (xs : list float) : list float :=
  match xs with
  | [] => []
  | _ :: _ => nan :: removelast xs
  end.

(** [Series.pct_change()]: [col / col.shift(1) - 1].  Nothing is filled
    before the division (pandas 3; the forward fill that pandas 2 applies
    by default changes no sample whose preceding sample is present). *)
Definition pct_change (xs : list float) : list float :=
  map (fun p => sub (div (fst p) (snd p)) one) (combine xs (shift xs)).

(** *** Group-wise transforms *)

Section GroupBy.
Context {R : Type}.
Variable key : R -> Z.
Variable col : R -> float.

(** The rows of one group, in frame order. *)
Definition group (k : Z) (df : list R) : list R :=
  filter (fun r => key r =? k) df.

(** [df.groupby(key)[col].f()] brought back to the rows of the frame:
    a row receives the entry of its group's series at the row's rank
    in the group. *)
Fixpoint transform_rows (f : list float -> list float)
         (df before rest : list R) : list float :=
  match rest with
  | [] => []
  | r :: rest' =>
      nth (List.length (group (key r) before))
          (f (map col (group (key r) df))) nan
      :: transform_rows f df (before ++ [r]) rest'
  end.

Definition groupby_transform (f : list float -> list float)
           (df : list R) : list float :=
  transform_rows f df [] df.
End GroupBy.

End Pandas.

Import Pandas.

(** ** powergrid/transform.py *)

Module Transform.

Definition set_voltage (v : float) (r : Reading) : Reading :=
  mkReading (timestamp r) (meter_id r) (region r) v (current r)
            (power_kw r) (power_factor r) (temperature_c r).
Definition set_current (v : float) (r : Reading) : Reading :=
  mkReading (timestamp r) (meter_id r) (region r) (voltage r) v
            (power_kw r) (power_factor r) (temperature_c r).
Definition set_power_kw (v : float) (r : Reading) : Reading :=
  mkReading (timestamp r) (meter_id r) (region r) (voltage r) (current r)
            v (power_factor r) (temperature_c r).
Definition set_power_factor (v : float) (r : Reading) : Reading :=
  mkReading (timestamp r) (meter_id r) (region r) (voltage r) (current r)
            (power_kw r) v (temperature_c r).

(** The rows of a frame from its columns. *)
Fixpoint typed_rows (df : list RawReading) (ts : list datetime) (ids : list Z)
  : list Reading :=
  match df, ts, ids with
  | r :: df', t :: ts', i :: ids' =>
      mkReading t i (raw_region r)
                (to_numeric_coerce (raw_voltage r))
                (to_numeric_coerce (raw_current r))
                (to_numeric_coerce (raw_power_kw r))
                (to_numeric_coerce (raw_power_factor r))
                (to_numeric_coerce (raw_temperature_c r))
      :: typed_rows df' ts' ids'
  | _, _, _ => []
  end.

(** [_clean_types]: the timestamp column is converted first, then the
    meter identifiers, then the five numeric columns are coerced. *)
Definition _clean_types (df : list RawReading) : result (list Reading) :=
  ts <- to_datetime (map raw_timestamp df) ;;
  ids <- astype_int (map raw_meter_id df) ;;
  Ok (typed_rows df ts ids).

(** [_clean_values]: five masked assignments, then the rows that miss a
    core field are dropped. *)
Definition _clean_values (df : list Reading) : list Reading :=
  let df := loc_set (fun r => ltb (voltage r) (of_Z 50)) (set_voltage nan) df in
  let df := loc_set (fun r => ltb (current r) (of_Z 0)) (set_current nan) df in
  let df := loc_set (fun r => ltb (power_kw r) (of_Z 0)) (set_power_kw nan) df in
  let df := loc_set (fun r => gtb (power_factor r) (decimal 10 1))
                    (set_power_factor (decimal 10 1)) df in
  let df := loc_set (fun r => ltb (power_factor r) (decimal 0 1))
                    (set_power_factor nan) df in
  dropna [voltage; current; power_kw] df.

(** [timestamp.dt.hour + timestamp.dt.minute / 60.0]. *)
Definition hour_of (t : datetime) : float :=
  add (dt_hour t) (div (dt_minute t) (decimal 600 1)).

(** The sort key of [sort_values(["meter_id", "timestamp"])]. *)
Definition sort_key (r : Reading) : Z * instant :=
  (meter_id r, instant_of (timestamp r)).

Definition row_leb (a b : Reading * float) : bool :=
  lex_leb (sort_key (fst a)) (sort_key (fst b)).

Fixpoint with_features (df : list (Reading * float)) (rolling pct : list float)
  : list Enriched :=
  match df, rolling, pct with
  | (r, h) :: df', x :: rolling', p :: pct' =>
      mkEnriched r h x p :: with_features df' rolling' pct'
  | _, _, _ => []
  end.

(** [_engineer_features]: the hour of the day is computed on the frame as
    it comes, the frame is sorted, and the two group-wise columns are
    computed on the sorted frame. *)
Definition _engineer_features (df : list Reading) : list Enriched :=
  let df := map (fun r => (r, hour_of (timestamp r))) df in
  let df := sort_values row_leb df in
  let rolling :=
    groupby_transform (fun p => meter_id (fst p)) (fun p => power_kw (fst p))
                      (rolling_mean 4 1) df in
  let pct :=
    fillna zero
      (groupby_transform (fun p => meter_id (fst p)) (fun p => power_kw (fst p))
                         pct_change df) in
  with_features df rolling pct.

End Transform.

(** ** powergrid/anomalies.py *)

Module Anomalies.

(** The five conditions of [_apply_rules], in the order it tests them. *)
Definition voltage_rule (row : Enriched) : bool :=
  ltb (voltage (reading row)) (of_Z 180) || gtb (voltage (reading row)) (of_Z 250).
Definition current_rule (row : Enriched) : bool :=
  ltb (current (reading row)) (of_Z 0) || gtb (current (reading row)) (of_Z 50).
Definition spike_rule (row : Enriched) : bool :=
  gtb (kw_pct_change row) (decimal 15 1).
Definition drop_rule (row : Enriched) : bool :=
  ltb (kw_pct_change row) (opp (decimal 8 1)).
Definition zero_power_rule (row : Enriched) : bool :=
  eqb (power_kw (reading row)) (of_Z 0)
  && gtb (voltage (reading row)) (of_Z 150)
  && gtb (current (reading row)) (decimal 1 1).

(** [r.append(name)] under a condition. *)
Definition append_if (c : bool) (name : string) (r : list string) : list string :=
  if c then r ++ [name] else r.

(** The list [r] a row ends the loop body with. *)
Definition row_reasons (row : Enriched) : list string :=
  let r := [] in
  let r := append_if (voltage_rule row) "voltage_out_of_range" r in
  let r := append_if (current_rule row) "current_out_of_range" r in
  let r := append_if (spike_rule row) "sudden_spike" r in
  let r := append_if (drop_rule row) "sudden_drop" r in
  let r := append_if (zero_power_rule row) "zero_power_but_active_line" r in
  r.

(** What the loop appends to [reasons] for a row. *)
Definition reason_of (row : Enriched) : option string :=
  match row_reasons row with
  | [] => None
  | r => Some (String.concat "," r)
  end.

(** [notna] on the reason column. *)
Definition reason_notna (reason : option string) : bool :=
  match reason with Some _ => true | None => false end.

(** [_apply_rules]: the reasons are collected row by row, then both
    columns are attached. *)
Definition _apply_rules (df : list Enriched) : list Tagged :=
  let reasons := map reason_of df in
  map (fun p => mkTagged (fst p) (snd p) (reason_notna (snd p)))
      (combine df reasons).

End Anomalies.

Import Transform Anomalies.

(** ** The vocabulary of the specification *)

(** A meter's own subsequence of a frame, in frame order. *)
Definition meter_readings (m : Z) (df : list Reading) : list Reading :=
  filter (fun r => meter_id r =? m) df.

Definition meter_samples (m : Z) (df : list Enriched) : list Enriched :=
  filter (fun e => meter_id (reading e) =? m) df.

(** The order of the sort on readings, and a meter's readings in time
    order. *)
Definition reading_leb (a b : Reading) : bool :=
  lex_leb (sort_key a) (sort_key b).

Definition time_ordered (m : Z) (df : list Reading) : list Reading :=
  sort_values reading_leb (meter_readings m df).

(** A frame is ordered when every row is below the rows after it. *)
Definition ordered {R} (le : R -> R -> bool) (df : list R) : Prop :=
  StronglySorted (fun a b => le a b = true) df.


(** The three derived columns of a row. *)
Definition derived (e : Enriched) : float * float * float :=
  (hour_of_day e, rolling_kw_1h e, kw_pct_change e).





(** The rule table of the specification, in its declared order. *)
Definition rule_table : list (string * (Enriched -> bool)) :=
  [ ("voltage_out_of_range"%string, voltage_rule);
    ("current_out_of_range"%string, current_rule);
    ("sudden_spike"%string, spike_rule);
    ("sudden_drop"%string, drop_rule);
    ("zero_power_but_active_line"%string, zero_power_rule) ].

(** The names of the rules that trigger on a row, in table order. *)
Definition triggered_names (row : Enriched) : list string :=
  map fst (filter (fun rule => snd rule row) rule_table).

(** At least one rule of the table triggers on the row. *)
Definition any_rule (row : Enriched) : bool :=
  existsb (fun rule => snd rule row) rule_table.

(** What a timestamp cell reads as in a column of a given inferred
    format, if it does; a cell converts when it is empty or reads as a
    point in time. *)
Definition cell_parsed (fmt : option string) (c : ts_cell) : option Parsed :=
  match c with
  | TsMissing => None
  | TsValue v =>
      match fmt with
      | Some f => ts_strptime v f
      | None => ts_parse v
      end
  end.

Definition cell_converts (fmt : option string) (c : ts_cell) : bool :=
  match c with
  | TsMissing => true
  | TsValue _ =>
      match cell_parsed fmt c with Some _ => true | None => false end
  end.

(** The value [to_datetime] gives a cell: NaT for an empty cell. *)
Definition cell_datetime (fmt : option string) (c : ts_cell) : datetime :=
  option_map to_timestamp (cell_parsed fmt c).

(** The cells of a column all convert, and they are written with one
    offset, or all without. *)
Definition cells_convert (col : list ts_cell) : bool :=
  forallb (cell_converts (column_format col)) col.

Definition one_offset (col : list ts_cell) : bool :=
  same_offsets (offsets (map (cell_parsed (column_format col)) col)).

Definition timestamps_convert (col : list ts_cell) : bool :=
  cells_convert col && one_offset col.

(** A meter identifier that does not convert. *)
Definition garbled_id (c : id_cell) : bool :=
  match c with IdGarbled _ => true | _ => false end.

(** Timestamp cells for the samples: a text in the layout
    [%Y-%m-%d %H:%M:%S], one in the same layout followed by an offset, one
    with the day first, and a text that is no date.  Each matches its own
    format only. *)
Definition in_format (fmt : string) (p : Parsed) (f : string) : option Parsed :=
  if String.eqb f fmt then Some p else None.

Definition iso_text (s : string) (ns : Z) : ts_cell :=
  TsValue (mkTsValue s (Some "%Y-%m-%d %H:%M:%S"%string)
                     (in_format "%Y-%m-%d %H:%M:%S" (mkParsed ns None))
                     (Some (mkParsed ns None))).

Definition offset_text (s : string) (ns off : Z) : ts_cell :=
  TsValue (mkTsValue s (Some "%Y-%m-%d %H:%M:%S%z"%string)
                     (in_format "%Y-%m-%d %H:%M:%S%z" (mkParsed ns (Some off)))
                     (Some (mkParsed ns (Some off)))).

Definition day_first_text (s : string) (ns : Z) : ts_cell :=
  TsValue (mkTsValue s (Some "%d/%m/%Y %H:%M"%string)
                     (in_format "%d/%m/%Y %H:%M" (mkParsed ns None))
                     (Some (mkParsed ns None))).

Definition garbled_text (s : string) : ts_cell :=
  TsValue (mkTsValue s None (fun _ => None) None).

(** ** The Feature Engineer in steps *)

(** The intermediate frames of [_engineer_features]: a reading with its
    hour of the day, and the columns of a sorted frame. *)
Definition attach_hour (r : Reading) : Reading * float :=
  (r, hour_of (timestamp r)).

Definition features (rows : list (Reading * float)) : list Enriched :=
  with_features rows
    (groupby_transform (fun p => meter_id (fst p)) (fun p => power_kw (fst p))
                       (rolling_mean 4 1) rows)
    (fillna zero
       (groupby_transform (fun p => meter_id (fst p)) (fun p => power_kw (fst p))
                          pct_change rows)).

(** The power column of a frame. *)
Definition powers (rows : list (Reading * float)) : list float :=
  map (fun p => power_kw (fst p)) rows.

(** The enriched rows of a frame that holds one meter only. *)
Definition meter_series (rows : list (Reading * float)) : list Enriched :=
  with_features rows (rolling_mean 4 1 (powers rows))
                (fillna zero (pct_change (powers rows))).

(** The entries of a column at the rows that satisfy [p]. *)
Fixpoint pick {R A} (p : R -> bool) (rows : list R) (vals : list A) : list A :=
  match rows, vals with
  | r :: rows', v :: vals' =>
      if p r then v :: pick p rows' vals' else pick p rows' vals'
  | _, _ => []
  end.

(** The percent change by a single pass that carries the value before. *)
Fixpoint pct_from (prev : float) (xs : list float) : list float :=
  match xs with
  | [] => []
  | x :: t => sub (div x prev) one :: pct_from x t
  end.

(** ** Sample frames *)

(** Three readings: a power factor above one, a voltage below 50 and a
    negative current; and the first of them with its power factor
    clamped. *)
Definition sample_dirty : list Reading :=
  [ mkReading (naive 0) 1 "North" (of_Z 230) (of_Z 4) (of_Z 1) (decimal 12 1) (of_Z 20);
    mkReading (naive 0) 2 "South" (of_Z 40) (of_Z 4) (of_Z 1) (decimal 9 1) (of_Z 20);
    mkReading (naive 0) 3 "East" (of_Z 230) (of_Z (-4)) (of_Z 1) (decimal 9 1) (of_Z 20) ].

Definition sample_clamped : Reading :=
  mkReading (naive 0) 1 "North" (of_Z 230) (of_Z 4) (of_Z 1) (decimal 10 1) (of_Z 20).

(** A raw reading whose timestamp text is no date. *)
Definition sample_garbled_row : RawReading :=
  mkRaw (garbled_text "not-a-date") (IdValue 1) "North" (NumValue (of_Z 230))
        (NumValue (of_Z 4)) (NumValue (of_Z 1)) (NumValue (decimal 9 1))
        (NumValue (of_Z 20)).

Definition sample_garbled : list RawReading := [sample_garbled_row].

(** Two raw readings that convert: one with an instant, one with an empty
    timestamp cell and a power text that is no number. *)
Definition sample_raw : list RawReading :=
  [ mkRaw (iso_text "1970-01-01 00:15:00" 900000000000) (IdValue 1) "North" (NumValue (of_Z 230))
          (NumValue (of_Z 4)) (NumValue (of_Z 1)) (NumValue (decimal 9 1))
          (NumValue (of_Z 20));
    mkRaw TsMissing (IdValue 2) "South" (NumValue (of_Z 230))
          (NumValue (of_Z 4)) (NumGarbled "n/a") (NumValue (decimal 9 1))
          (NumValue (of_Z 20)) ].

(** An enriched row from the fields the rules read. *)
Definition row_of (v c p pct : float) : Enriched :=
  mkEnriched (mkReading (naive 0) 1 "North" v c p (decimal 9 1) (of_Z 20))
             (of_Z 0) p pct.

(** A row with a voltage of 300, a current of 60, a change of 2.0 and
    a power of 18 kW. *)
Definition sample_overload : Enriched :=
  row_of (of_Z 300) (of_Z 60) (of_Z 18) (decimal 20 1).

(** A row where every field the rules read is missing. *)
Definition sample_blank : Enriched := row_of nan nan nan nan.

(** A reading of a meter at an instant with a power, the other fields
    nominal; instants a quarter of an hour apart. *)
Definition quarter : Z := 15 * ns_per_minute.

Definition reading_at (m : Z) (slot : Z) (p : float) : Reading :=
  mkReading (naive (slot * quarter)) m "North" (of_Z 230) (of_Z 4) p
            (decimal 9 1) (of_Z 20).

(** Two frames that hold the same readings of meter 1, in a different
    frame order and among different readings of other meters. *)
Definition sample_two_meters : list Reading :=
  [ reading_at 2 0 (of_Z 7); reading_at 1 1 (of_Z 3); reading_at 1 0 (of_Z 2);
    reading_at 2 1 (of_Z 9); reading_at 1 2 (of_Z 4) ].

Definition sample_three_meters : list Reading :=
  [ reading_at 1 2 (of_Z 4); reading_at 3 0 (of_Z 0); reading_at 1 0 (of_Z 2);
    reading_at 0 5 (of_Z 100); reading_at 1 1 (of_Z 3); reading_at 3 1 nan ].

(** Five readings of meter 1, out of time order, among readings of
    meter 2. *)
Definition sample_five : list Reading :=
  [ reading_at 1 3 (of_Z 4); reading_at 2 0 (of_Z 50); reading_at 1 0 (of_Z 1);
    reading_at 1 4 (of_Z 5); reading_at 1 1 (of_Z 2); reading_at 2 1 (of_Z 60);
    reading_at 1 2 (of_Z 3) ].

(** The first and the fifth sample of meter 1 in the output for
    [sample_five]: hours 0.0 and 1.0, rolling means 1.0 and 3.5, changes 0.0
    and 0.25. *)
Definition sample_first : Enriched :=
  mkEnriched (reading_at 1 0 (of_Z 1)) (of_Z 0) (of_Z 1) zero.

Definition sample_fifth : Enriched :=
  mkEnriched (reading_at 1 4 (of_Z 5)) (of_Z 1) (decimal 35 1) (decimal 25 2).

(** A meter whose power goes from 0 to 5 kW, and one whose power stays
    at 0, with the two samples of the latter in the output. *)
Definition sample_restart : list Reading :=
  [ reading_at 1 0 (of_Z 0); reading_at 1 1 (of_Z 5) ].




(** ** Further vocabulary: the sanitizer as a filter and a clamp *)

(** The three core fields of a reading are present and within their
    bounds: the voltage is not below 50, the current and the power are not
    negative. *)
Definition core_ok (r : Reading) : bool :=
  notna (voltage r) && negb (ltb (voltage r) (of_Z 50))
  && notna (current r) && negb (ltb (current r) (of_Z 0))
  && notna (power_kw r) && negb (ltb (power_kw r) (of_Z 0)).

(** A power factor above 1.0 becomes 1.0, one below 0.0 becomes missing. *)
Definition clamp_factor (f : float) : float :=
  if gtb f (decimal 10 1) then decimal 10 1
  else if ltb f (decimal 0 1) then nan else f.

Definition clamp_row (r : Reading) : Reading :=
  set_power_factor (clamp_factor (power_factor r)) r.

(** A raw frame with a meter identifier that is no integer. *)
Definition sample_bad_id : list RawReading :=
  [ mkRaw (iso_text "1970-01-01 00:00:00" 0) (IdValue 7) "North" (NumValue (of_Z 230))
          (NumValue (of_Z 4)) (NumValue (of_Z 1)) (NumValue (decimal 9 1))
          (NumValue (of_Z 20));
    mkRaw TsMissing (IdGarbled "seven") "South" (NumValue (of_Z 230))
          (NumValue (of_Z 4)) (NumValue (of_Z 1)) (NumValue (decimal 9 1))
          (NumValue (of_Z 20)) ].

(** The wall-clock check of an hour of the day: a number from 0
    inclusive to 24 exclusive. *)
Definition hour_in_day (x : float) : bool :=
  leb (of_Z 0) x && ltb x (of_Z 24).

(** The hour of the day from the hour and the minute. *)
Definition hour_minute (h m : Z) : float :=
  add (of_Z h) (div (of_Z m) (decimal 600 1)).

(** The same readings of two meters in two frame orders. *)
Definition sample_shuffled_a : list Reading :=
  [ reading_at 2 0 (of_Z 7); reading_at 1 1 (of_Z 3); reading_at 1 0 (of_Z 2) ].

Definition sample_shuffled_b : list Reading :=
  [ reading_at 1 0 (of_Z 2); reading_at 2 0 (of_Z 7); reading_at 1 1 (of_Z 3) ].

(** A meter whose power falls from 10 kW to 0, and its second sample in
    the output. *)
Definition sample_outage : list Reading :=
  [ reading_at 1 0 (of_Z 10); reading_at 1 1 (of_Z 0) ].

Definition sample_outage_first : Enriched :=
  mkEnriched (reading_at 1 0 (of_Z 10)) (of_Z 0) (of_Z 10) zero.

Definition sample_outage_second : Enriched :=
  mkEnriched (reading_at 1 1 (of_Z 0)) (decimal 25 2) (of_Z 5) (opp (of_Z 1)).

(** The two samples of [sample_restart] in the output. *)
Definition sample_restart_first : Enriched :=
  mkEnriched (reading_at 1 0 (of_Z 0)) (of_Z 0) zero zero.

Definition sample_restart_second : Enriched :=
  mkEnriched (reading_at 1 1 (of_Z 5)) (decimal 25 2) (decimal 25 1) inf.

(** A row on every threshold at once. *)
Definition sample_on_thresholds : Enriched :=
  row_of (of_Z 250) (of_Z 50) (of_Z 3) (decimal 15 1).

(** ** The files the stages pick, and the transform as a whole *)

Module Files.

(** A directory entry: its name, and the modification time of the file
    the name leads to, a float as [stat().st_mtime] is.  A name can lead
    to no file: a symbolic link whose target is gone is listed by the
    directory and has no modification time. *)
Record Path := mkPath {
  path_name : string;
  mtime : option float
}.

Inductive located (A : Type) :=
| Found (a : A)
| FileNotFoundError (msg : string).
Arguments Found {A} a.
Arguments FileNotFoundError {A} msg.

(** The message of a [stat] that finds no file. *)
Definition errno_message (p : Path) : string :=
  "[Errno 2] No such file or directory: '" ++ path_name p ++ "'".

(** [p.stat().st_mtime]: [stat] raises on a name that leads to no file. *)
Definition st_mtime (p : Path) : located float :=
  match mtime p with
  | Some t => Found t
  | None => FileNotFoundError (errno_message p)
  end.

(** [dir.glob(prefix + "*")]: the entries whose name starts with the
    prefix, in the order the directory lists them. *)
Definition glob (name_prefix : string) (dir : list Path) : list Path :=
  filter (fun p => prefix name_prefix (path_name p)) dir.

(** Python's [max(items, key=key)] after its first item: the key of every
    item is computed in turn, and the running maximum is replaced by an
    item whose key is strictly greater.  A key that raises ends the
    call. *)
Fixpoint max_from {A} (key : A -> located float) (best : A) (kbest : float)
         (rest : list A) : located A :=
  match rest with
  | [] => Found best
  | x :: t =>
      match key x with
      | FileNotFoundError msg => FileNotFoundError msg
      | Found kx =>
          if gtb kx kbest then max_from key x kx t else max_from key best kbest t
      end
  end.

(** The shape the three functions share: raise on an empty list, else the
    entry with the latest modification time. *)
Definition latest_of (msg : string) (files : list Path) : located Path :=
  match files with
  | [] => FileNotFoundError msg
  | f :: rest =>
      match st_mtime f with
      | FileNotFoundError m => FileNotFoundError m
      | Found k => max_from st_mtime f k rest
      end
  end.

(** The messages of the three functions. *)
Definition no_raw_files : string :=
  "No raw input files found in data/raw/. Run `powergrid generate` first.".
Definition no_processed_files : string :=
  "No processed files found. Run `powergrid etl` first.".
Definition no_parquet_files : string :=
  "No processed/anomaly-tagged parquet files found.".

(** transform.py, [_latest_raw_file]. *)
Definition _latest_raw_file (raw_dir : list Path) : located Path :=
  let files := glob "raw_energy_" raw_dir in
  latest_of no_raw_files files.

(** anomalies.py, [_latest_processed]. *)
Definition _latest_processed (processed_dir : list Path) : located Path :=
  let files := glob "processed_energy_" processed_dir in
  latest_of no_processed_files files.

(** load.py, [_latest_processed_file]: the processed files, then the
    tagged files, in one list. *)
Definition _latest_processed_file (processed_dir : list Path) : located Path :=
  let files := glob "processed_energy_" processed_dir
               ++ glob "anomaly_tagged_" processed_dir in
  latest_of no_parquet_files files.

(** The first of the items with the greatest key, for a key that does
    not raise. *)
Fixpoint first_max {A} (key : A -> float) (best : A) (rest : list A) : A :=
  match rest with
  | [] => best
  | x :: t =>
      if gtb (key x) (key best) then first_max key x t else first_max key best t
  end.

(** The modification time of an entry that has one. *)
Definition mtime_of (p : Path) : float :=
  match mtime p with Some t => t | None => nan end.

(** Both entries have a modification time, and the first is strictly
    older than the second; or is not newer than it. *)
Definition older (p r : Path) : bool :=
  match mtime p, mtime r with
  | Some a, Some b => ltb a b
  | _, _ => false
  end.

Definition no_newer (p r : Path) : bool :=
  match mtime p, mtime r with
  | Some a, Some b => negb (gtb a b)
  | _, _ => false
  end.

(** An entry whose name leads to no file. *)
Definition dangling (p : Path) : bool :=
  match mtime p with Some _ => false | None => true end.

End Files.

Import Files.

(** transform.py, [transform_data], between the load of the raw frame
    and the save of the processed frame: the three stages in a row. *)
Definition transform_frame (df : list RawReading) : result (list Enriched) :=
  df <- _clean_types df ;;
  let df := _clean_values df in
  let df := _engineer_features df in
  Ok df.

(** A processed directory after one run of the pipeline on a file system
    that stamps both files with the same second, and after one whose
    tagged file is stamped a second later. *)
Definition sample_dir_tie : list Path :=
  [ mkPath "anomaly_tagged_20240101T000000.parquet" (Some (of_Z 1704067200));
    mkPath "processed_energy_20240101T000000.parquet" (Some (of_Z 1704067200));
    mkPath "notes.txt" (Some (of_Z 1704069999)) ].

Definition sample_dir_later : list Path :=
  [ mkPath "processed_energy_20240101T000000.parquet" (Some (of_Z 1704067200));
    mkPath "anomaly_tagged_20240101T000001.parquet" (Some (of_Z 1704067201));
    mkPath "processed_energy_20231231T000000.parquet" (Some (of_Z 1703980800)) ].

(** A raw directory with a file and a link whose target is gone. *)
Definition sample_dir_dangling : list Path :=
  [ mkPath "raw_energy_20240101T000000.csv" (Some (of_Z 1704067200));
    mkPath "raw_energy_latest.csv" None ].

(** What the Type Normalizer returns for [sample_raw]. *)
Definition sample_typed : list Reading :=
  typed_rows sample_raw [naive 900000000000; None] [1; 2].

(** ** export_gold.py *)

Module ExportGold.

(** A row of the gold frame: a processed row with the two annotation
    columns of the tagged frame, missing when no tagged row matches. *)
Record Gold := mkGold {
  gold_row : Enriched;
  gold_flag : option bool;
  gold_reason : option string
}.

(** The key of the merge, [on=["timestamp", "meter_id"]]; two missing
    timestamps match each other, as pandas matches null keys. *)
Definition merge_key (e : Enriched) : Z * instant := sort_key (reading e).

Definition key_eqb (a b : Z * instant) : bool :=
  (fst a =? fst b)
  && match snd a, snd b with
     | Some x, Some y => x =? y
     | None, None => true
     | _, _ => false
     end.

(** [left.merge(right[[keys, anomaly_flag, anomaly_reason]], on=keys,
    how="left")]: the left rows in their order, each once for every right
    row with its key, in the order of the right frame, and once with
    missing annotations when there is none. *)
Definition merge_left (left : list Enriched) (right : list Tagged) : list Gold :=
  flat_map
    (fun l =>
       match filter (fun t => key_eqb (merge_key l) (merge_key (enriched t))) right with
       | [] => [mkGold l None None]
       | matches =>
           map (fun t => mkGold l (Some (anomaly_flag t)) (anomaly_reason t)) matches
       end)
    left.

(** [sorted(paths)[-1]] on the files a glob returns, each with the frame
    [read_parquet] reads from it. *)
Definition name_leb {C} (a b : string * C) : bool := String.leb (fst a) (fst b).

Definition last_sorted {C} (files : list (string * C)) : option (string * C) :=
  match rev (sort_values name_leb files) with
  | [] => None
  | f :: _ => Some f
  end.

(** [export_gold]: the frame it writes, or [None] when it returns early
    for want of a file. *)
Definition export_gold (processed : list (string * list Enriched))
           (anomalies : list (string * list Tagged)) : option (list Gold) :=
  match last_sorted processed, last_sorted anomalies with
  | Some p, Some a => Some (merge_left (snd p) (snd a))
  | _, _ => None
  end.

(** The gold row of a tagged row. *)
Definition gold_of (t : Tagged) : Gold :=
  mkGold (enriched t) (Some (anomaly_flag t)) (anomaly_reason t).

(** How many rows of a frame have the key of a row. *)
Definition key_count (df : list Enriched) (l : Enriched) : nat :=
  List.length (filter (fun r => key_eqb (merge_key l) (merge_key r)) df).

End ExportGold.

Import ExportGold.

(** A processed frame with two rows of the same meter and timestamp, and
    one without. *)
Definition sample_duplicates : list Enriched :=
  [ sample_first; sample_first; sample_fifth ].

Definition sample_unique : list Enriched := [ sample_first; sample_fifth ].

(** Two processed files and two tagged files, listed out of name order;
    the tagged files tag other frames than the last processed file. *)
Definition sample_processed_files : list (string * list Enriched) :=
  [ ("processed_energy_20240102T000000.parquet"%string, sample_unique);
    ("processed_energy_20240101T000000.parquet"%string, sample_duplicates) ].

Definition sample_tagged_files : list (string * list Tagged) :=
  [ ("anomaly_tagged_20240101T235959.parquet"%string, _apply_rules sample_duplicates);
    ("anomaly_tagged_20240101T000000.parquet"%string, []) ].

(** ** data_gen.py: the timestamps of the synthetic readings *)

Module DataGen.

(** A [datetime] is a count of microseconds since the epoch, between
    [datetime.min] (year 1) and [datetime.max] (year 9999). *)
Definition us_per_minute : Z := 60 * 1000000.
Definition us_per_day : Z := 24 * 60 * us_per_minute.
Definition datetime_min : Z := -62135596800000000.
Definition datetime_max : Z := 253402300799999999.

Definition datetime_ok (us : Z) : bool :=
  (datetime_min <=? us) && (us <=? datetime_max).

Inductive gen_error :=
| ZeroDivisionError
| OverflowError.

Inductive generated (A : Type) :=
| Generated (a : A)
| GenRaise (e : gen_error).
Arguments Generated {A} a.
Arguments GenRaise {A} e.

(** [range(n)]. *)
Definition range (n : Z) : list Z := map Z.of_nat (seq 0 (Z.to_nat n)).

(** A [datetime] moved by a number of microseconds: out of the range of
    [datetime] the arithmetic raises. *)
Definition shifted (t delta : Z) : generated Z :=
  if datetime_ok (t + delta) then Generated (t + delta) else GenRaise OverflowError.

Fixpoint collect {A B} (f : A -> generated B) (l : list A) : generated (list B) :=
  match l with
  | [] => Generated []
  | a :: t =>
      match f a with
      | GenRaise e => GenRaise e
      | Generated b =>
          match collect f t with
          | GenRaise e => GenRaise e
          | Generated bs => Generated (b :: bs)
          end
      end
  end.

(** [_generate_timestamps(days, interval_min)], with [datetime.now()] as
    [now].  The floor division comes first and raises on a zero interval;
    the start is [now] less the days; the list holds the start moved by
    [i * interval_min] minutes for [i] in [range(steps)]. *)
Definition _generate_timestamps (now days interval_min : Z) : generated (list Z) :=
  let total_minutes := days * 24 * 60 in
  if interval_min =? 0 then GenRaise ZeroDivisionError
  else
    let steps := total_minutes / interval_min in
    match shifted now (- (days * us_per_day)) with
    | GenRaise e => GenRaise e
    | Generated start =>
        collect (fun i => shifted start (i * interval_min * us_per_minute))
                (range steps)
    end.

End DataGen.

Import DataGen.

(** Noon on 1 March 2024. *)
Definition sample_now : Z := 1709294400000000.


(** The one record the transform returns for [sample_raw]: the second
    raw record has no power and is dropped. *)
Definition sample_transformed : Enriched :=
  mkEnriched (mkReading (naive 900000000000) 1 "North" (of_Z 230) (of_Z 4)
                        (of_Z 1) (decimal 9 1) (of_Z 20))
             (decimal 25 2) (of_Z 1) zero.

(** ** Further sample frames for the Type Normalizer *)

(** A raw reading with a timestamp cell, the other fields nominal. *)
Definition raw_at (c : ts_cell) : RawReading :=
  mkRaw c (IdValue 1) "North" (NumValue (of_Z 230)) (NumValue (of_Z 4))
        (NumValue (of_Z 1)) (NumValue (decimal 9 1)) (NumValue (of_Z 20)).

(** Two timestamps that each read as a point in time on their own, in two
    layouts; and a well-formed timestamp followed by a text that is no
    date. *)
Definition sample_two_layouts : list RawReading :=
  [ raw_at (iso_text "2024-01-01 00:15:00" 1704068100000000000);
    raw_at (day_first_text "01/01/2024 00:30" 1704069000000000000) ].

Definition sample_late_garbled : list RawReading :=
  [ raw_at (iso_text "2024-01-01 00:15:00" 1704068100000000000);
    raw_at (garbled_text "not-a-date") ].

(** Two timestamps written with two offsets, and a frame of one timestamp
    written five hours and a half ahead of UTC: a quarter past midnight
    UTC is a quarter to six on the wall clock. *)
Definition half_past_five : Z := (5 * 60 + 30) * ns_per_minute.

Definition sample_two_offsets : list RawReading :=
  [ raw_at (offset_text "2024-01-01 05:45:00+05:30" 1704068100000000000
                        half_past_five);
    raw_at (offset_text "2024-01-01 01:15:00+01:00" 1704068100000000000
                        ns_per_hour) ].

Definition sample_ahead : list Reading :=
  [ mkReading (Some (mkTimestamp 1704068100000000000 half_past_five)) 1 "North"
              (of_Z 230) (of_Z 4) (of_Z 1) (decimal 9 1) (of_Z 20) ].

Definition sample_ahead_row : Enriched :=
  mkEnriched (mkReading (Some (mkTimestamp 1704068100000000000 half_past_five))
                        1 "North" (of_Z 230) (of_Z 4) (of_Z 1) (decimal 9 1)
                        (of_Z 20))
             (decimal 575 2) (of_Z 1) zero.

(** How the parser reads a cell of a column: with the format of the
    column when one is inferred, on its own when none is; and the error it
    raises on a cell it cannot read. *)
Definition read_cell (fmt : option string) : ts_cell -> result (option Parsed) :=
  match fmt with
  | Some f => strptime_cell f
  | None => parse_cell
  end.

Definition time_error (fmt : option string) (v : ts_value) : exn :=
  match fmt with
  | Some f => ValueError (TimeDataMismatch (ts_text v) f)
  | None => DateParseError (ts_text v)
  end.

(** ** Further vocabulary: time order and the rolling mean *)

(** The timestamp of the first reading is not after the timestamp of the
    second: it is the same instant or an earlier one; a missing timestamp
    is after every instant. *)
Definition not_after (a b : Reading) : bool :=
  instant_leb (instant_of (timestamp a)) (instant_of (timestamp b)).

(** The variables of the loop of [roll_mean] after the turn of row [k]. *)
Definition state_at (w : nat) (values : list float) (k : nat) : mean_state :=
  fold_left (fun st i => roll_step w values i st) (seq 0 (S k)) (setup nan).





(** The zero with the sign bit set. *)
Definition negative_zero : float := S754_zero true.




(** A raw frame with a garbled meter identifier in a row whose timestamp
    is written in another layout than the first. *)
Definition sample_bad_layout : list RawReading :=
  [ raw_at (iso_text "2024-01-01 00:15:00" 1704068100000000000);
    mkRaw (day_first_text "01/01/2024 00:30" 1704069000000000000)
          (IdGarbled "seven") "South" (NumValue (of_Z 230))
          (NumValue (of_Z 4)) (NumValue (of_Z 1)) (NumValue (decimal 9 1))
          (NumValue (of_Z 20)) ].

(** A meter on an overloaded line whose power triples from 6 to 18 kW
    within a quarter of an hour, and its second sample in the output. *)
Definition sample_tripled : list Reading :=
  [ mkReading (naive 0) 1 "North" (of_Z 300) (of_Z 60) (of_Z 6)
              (decimal 9 1) (of_Z 20);
    mkReading (naive quarter) 1 "North" (of_Z 300) (of_Z 60) (of_Z 18)
              (decimal 9 1) (of_Z 20) ].

Definition sample_tripled_second : Enriched :=
  mkEnriched (mkReading (naive quarter) 1 "North" (of_Z 300) (of_Z 60) (of_Z 18)
                        (decimal 9 1) (of_Z 20))
             (decimal 25 2) (of_Z 12) (decimal 20 1).

(** * Properties *)

(** ** Comparisons of binary64 values *)

Lemma compare_antisym (x y : float) :
  SFcompare y x = option_map CompOpp (SFcompare x y).
Proof.
  destruct x as [sx|sx| |sx mx ex], y as [sy|sy| |sy my ey]; cbn;
    try reflexivity;
    try (destruct sx; reflexivity); try (destruct sy; reflexivity);
    try (destruct sx, sy; reflexivity).
  fold (Pos.compare mx my) (Pos.compare my mx).
  rewrite (Z.compare_antisym ex ey), (Pos.compare_antisym mx my).
  destruct sx, sy, (ex ?= ey), (mx ?= my)%positive; reflexivity.
Qed.

Lemma compare_notna (x y : float) :
  notna x = true -> notna y = true -> SFcompare x y <> None.
Proof.
  destruct x as [sx|sx| |sx mx ex], y as [sy|sy| |sy my ey]; cbn;
    intros; congruence.
Qed.

Lemma not_ltb_leb (x y : float) :
  notna x = true -> notna y = true -> ltb x y = false -> leb y x = true.
Proof.
  intros Hx Hy. unfold ltb, leb, SFltb, SFleb. rewrite (compare_antisym x y).
  pose proof (compare_notna x y Hx Hy) as Hc.
  destruct (SFcompare x y) as [[| |]|]; cbn; congruence.
Qed.

Lemma isna_nan (x : float) : isna x = true -> x = nan.
Proof. destruct x; cbn; intros H; (reflexivity || discriminate H). Qed.

Lemma notna_isna (x : float) : notna x = true <-> isna x = false.
Proof. unfold notna. destruct (isna x); cbn; split; congruence. Qed.

(** ** The Value Sanitizer *)

Ltac row_fields :=
  cbn [timestamp meter_id region voltage current power_kw power_factor
       temperature_c set_voltage set_current set_power_kw set_power_factor] in *.

(** What [_clean_values] makes of one row before the rows with a missing
    core field are dropped. *)
Lemma clean_values_rows (df : list Reading) (r : Reading) :
  In r (_clean_values df) ->
  exists r0, In r0 df /\
    voltage r = (if ltb (voltage r0) (of_Z 50) then nan else voltage r0) /\
    current r = (if ltb (current r0) (of_Z 0) then nan else current r0) /\
    power_kw r = (if ltb (power_kw r0) (of_Z 0) then nan else power_kw r0) /\
    power_factor r =
      (if gtb (power_factor r0) (decimal 10 1) then decimal 10 1
       else if ltb (power_factor r0) (decimal 0 1) then nan
            else power_factor r0) /\
    notna (voltage r) = true /\ notna (current r) = true /\
    notna (power_kw r) = true.
Proof.
  unfold _clean_values, dropna, loc_set. intros H.
  apply filter_In in H. destruct H as [Hin Hkeep].
  rewrite !map_map in Hin. apply in_map_iff in Hin.
  destruct Hin as [r0 [<- Hin]]. exists r0. split; [exact Hin|].
  cbn [forallb] in Hkeep. rewrite !andb_true_iff in Hkeep.
  destruct Hkeep as [Hv [Hc [Hp _]]].
  destruct r0 as [t m g v c p f tc]. row_fields.
  destruct (ltb v (of_Z 50)) eqn:Ev; row_fields;
    destruct (ltb c (of_Z 0)) eqn:Ec; row_fields;
    destruct (ltb p (of_Z 0)) eqn:Ep; row_fields;
    destruct (gtb f (decimal 10 1)) eqn:Ef; row_fields;
    try change (ltb (decimal 10 1) (decimal 0 1)) with false in *; row_fields;
    destruct (ltb f (decimal 0 1)) eqn:Ef'; row_fields;
    repeat split; try reflexivity; assumption.
Qed.

(** C3. Every record the Value Sanitizer emits has [power_kw >= 0],
    [current >= 0], [voltage >= 50], none of the three missing, and a
    [power_factor] that is missing or within [0, 1], whatever the input
    values are. *)
Theorem clean_values_bounds (df : list Reading) (r : Reading) :
  In r (_clean_values df) ->
  leb (of_Z 0) (power_kw r) = true /\
  leb (of_Z 0) (current r) = true /\
  leb (of_Z 50) (voltage r) = true /\
  notna (voltage r) = true /\ notna (current r) = true /\
  notna (power_kw r) = true /\
  (isna (power_factor r) = true \/
   leb (of_Z 0) (power_factor r) = true /\ leb (power_factor r) (of_Z 1) = true).
Proof.
  intros H. apply clean_values_rows in H.
  destruct H as [r0 [_ [Hv [Hc [Hp [Hf [Nv [Nc Np]]]]]]]].
  repeat split; try assumption.
  - rewrite Hp in *. destruct (ltb (power_kw r0) (of_Z 0)) eqn:E; [discriminate Np|].
    apply not_ltb_leb; [exact Np|reflexivity|exact E].
  - rewrite Hc in *. destruct (ltb (current r0) (of_Z 0)) eqn:E; [discriminate Nc|].
    apply not_ltb_leb; [exact Nc|reflexivity|exact E].
  - rewrite Hv in *. destruct (ltb (voltage r0) (of_Z 50)) eqn:E; [discriminate Nv|].
    apply not_ltb_leb; [exact Nv|reflexivity|exact E].
  - rewrite Hf. destruct (gtb (power_factor r0) (decimal 10 1)) eqn:E1.
    + right. split; reflexivity.
    + destruct (ltb (power_factor r0) (decimal 0 1)) eqn:E2; [left; reflexivity|].
      destruct (isna (power_factor r0)) eqn:En; [left; reflexivity|right].
      apply notna_isna in En. split.
      * change (of_Z 0) with (decimal 0 1).
        apply not_ltb_leb; [exact En|reflexivity|exact E2].
      * change (of_Z 1) with (decimal 10 1).
        apply not_ltb_leb; [reflexivity|exact En|exact E1].
Qed.

Lemma clean_values_bounds_witness :
  In sample_clamped (_clean_values sample_dirty) /\
  leb (of_Z 0) (power_kw sample_clamped) = true /\
  leb (of_Z 0) (current sample_clamped) = true /\
  leb (of_Z 50) (voltage sample_clamped) = true /\
  notna (voltage sample_clamped) = true /\ notna (current sample_clamped) = true /\
  notna (power_kw sample_clamped) = true /\
  (isna (power_factor sample_clamped) = true \/
   leb (of_Z 0) (power_factor sample_clamped) = true /\
   leb (power_factor sample_clamped) (of_Z 1) = true).
Proof.
  split; [vm_compute; left; reflexivity|].
  apply (clean_values_bounds sample_dirty sample_clamped).
  vm_compute. left. reflexivity.
Defined.

(** ** The Type Normalizer *)

Lemma mapM_raise {A B} (f : A -> result B) (l : list A) (a : A) (e : exn) :
  In a l -> f a = Raise e ->
  exists a' e', In a' l /\ f a' = Raise e' /\ mapM f l = Raise e'.
Proof.
  induction l as [|x t IH]; cbn; [intros []|].
  intros Hin Hf. destruct (f x) as [b|e0] eqn:E.
  - destruct Hin as [->|Hin]; [congruence|].
    destruct (IH Hin Hf) as [a' [e' [Ha' [Hf' ->]]]]. cbn. eauto 6.
  - cbn. exists x, e0. auto.
Qed.

Lemma mapM_ok {A B} (f : A -> result B) (g : A -> B) (l : list A) :
  (forall a, In a l -> f a = Ok (g a)) -> mapM f l = Ok (map g l).
Proof.
  induction l as [|x t IH]; cbn; [reflexivity|].
  intros H. rewrite (H x) by (left; reflexivity). cbn.
  rewrite IH by (intros a Ha; apply H; right; exact Ha). reflexivity.
Qed.

Lemma mapM_inv {A B} (f : A -> result B) (l : list A) (bs : list B) :
  mapM f l = Ok bs -> Forall2 (fun a b => f a = Ok b) l bs.
Proof.
  revert bs. induction l as [|a t IH]; cbn; intros bs H.
  - injection H as <-. constructor.
  - destruct (f a) as [b|e] eqn:E; cbn in H; [|discriminate H].
    destruct (mapM f t) as [bs'|e]; cbn in H; [|discriminate H].
    injection H as <-. constructor; [exact E|]. apply IH. reflexivity.
Qed.

Lemma mapM_raise_inv {A B} (f : A -> result B) (l : list A) (e : exn) :
  mapM f l = Raise e -> exists a, In a l /\ f a = Raise e.
Proof.
  induction l as [|x t IH]; cbn; [discriminate|].
  destruct (f x) as [b|e0] eqn:E; cbn.
  - destruct (mapM f t) as [bs|e1]; cbn; [discriminate|].
    intros H. injection H as <-. destruct (IH eq_refl) as [a [Ha Hf]].
    exists a. split; [right; exact Ha|exact Hf].
  - intros H. injection H as <-. exists x. split; [left; reflexivity|exact E].
Qed.

Lemma typed_rows_timestamps (df : list RawReading)
      (f : RawReading -> datetime) (g : RawReading -> Z) :
  map timestamp (typed_rows df (map f df) (map g df)) = map f df.
Proof. induction df as [|r t IH]; cbn; [|rewrite IH]; reflexivity. Qed.

Lemma typed_rows_length (df : list RawReading)
      (f : RawReading -> datetime) (g : RawReading -> Z) :
  List.length (typed_rows df (map f df) (map g df)) = List.length df.
Proof. induction df as [|r t IH]; cbn; [|rewrite IH]; reflexivity. Qed.

Lemma to_datetime_unfold (col : list ts_cell) :
  to_datetime col
  = (parsed <- mapM (read_cell (column_format col)) col ;; localize parsed).
Proof. unfold to_datetime, read_cell. destruct (column_format col); reflexivity. Qed.

Lemma read_cell_converts (fmt : option string) (c : ts_cell) :
  cell_converts fmt c = true -> read_cell fmt c = Ok (cell_parsed fmt c).
Proof.
  destruct fmt as [f|], c as [|v]; cbn; try reflexivity.
  - destruct (ts_strptime v f); [reflexivity|discriminate].
  - destruct (ts_parse v); [reflexivity|discriminate].
Qed.

Lemma read_cell_raise (fmt : option string) (c : ts_cell) (e : exn) :
  read_cell fmt c = Raise e ->
  exists v, c = TsValue v /\ cell_converts fmt c = false /\ e = time_error fmt v.
Proof.
  destruct fmt as [f|], c as [|v]; cbn; try discriminate.
  - destruct (ts_strptime v f); [discriminate|].
    intros H. injection H as <-. exists v. repeat split.
  - destruct (ts_parse v); [discriminate|].
    intros H. injection H as <-. exists v. repeat split.
Qed.

Lemma read_cell_fails (fmt : option string) (c : ts_cell) :
  cell_converts fmt c = false ->
  exists v, c = TsValue v /\ read_cell fmt c = Raise (time_error fmt v).
Proof.
  destruct fmt as [f|], c as [|v]; cbn; try discriminate.
  - destruct (ts_strptime v f); [discriminate|]. intros _. exists v. split; reflexivity.
  - destruct (ts_parse v); [discriminate|]. intros _. exists v. split; reflexivity.
Qed.

(** The three outcomes of [to_datetime]. *)
Lemma to_datetime_cell_raises (col : list ts_cell) (c : ts_cell) :
  In c col -> cell_converts (column_format col) c = false ->
  exists v, In (TsValue v) col /\
    cell_converts (column_format col) (TsValue v) = false /\
    to_datetime col = Raise (time_error (column_format col) v).
Proof.
  intros Hin Hc. rewrite to_datetime_unfold.
  destruct (read_cell_fails _ _ Hc) as [v0 [-> Hf]].
  destruct (mapM_raise _ _ _ _ Hin Hf) as [a [e [Ha [Hfa ->]]]].
  destruct (read_cell_raise _ _ _ Hfa) as [v [-> [Hv ->]]].
  exists v. repeat split; assumption.
Qed.

Lemma to_datetime_parsed (col : list ts_cell) :
  cells_convert col = true ->
  mapM (read_cell (column_format col)) col
  = Ok (map (cell_parsed (column_format col)) col).
Proof.
  unfold cells_convert. rewrite forallb_forall. intros H.
  apply mapM_ok. intros c Hc. apply read_cell_converts, H, Hc.
Qed.

Lemma to_datetime_mixed (col : list ts_cell) :
  cells_convert col = true -> one_offset col = false ->
  to_datetime col = Raise (ValueError MixedTimezones).
Proof.
  intros Hc Ho. rewrite to_datetime_unfold, to_datetime_parsed by exact Hc.
  cbn [bind]. unfold localize. unfold one_offset in Ho. rewrite Ho. reflexivity.
Qed.

Lemma to_datetime_returns (col : list ts_cell) :
  timestamps_convert col = true ->
  to_datetime col = Ok (map (cell_datetime (column_format col)) col).
Proof.
  unfold timestamps_convert. rewrite andb_true_iff. intros [Hc Ho].
  rewrite to_datetime_unfold, to_datetime_parsed by exact Hc.
  cbn [bind]. unfold localize. unfold one_offset in Ho. rewrite Ho, map_map.
  reflexivity.
Qed.

Lemma to_datetime_raise_inv (col : list ts_cell) (e : exn) :
  to_datetime col = Raise e ->
  timestamps_convert col = false /\
  (e = ValueError MixedTimezones \/
   exists v, In (TsValue v) col /\ e = time_error (column_format col) v).
Proof.
  intros H. split.
  - destruct (timestamps_convert col) eqn:E; [|reflexivity].
    rewrite (to_datetime_returns _ E) in H. discriminate H.
  - rewrite to_datetime_unfold in H.
    destruct (mapM (read_cell (column_format col)) col) as [ps|e0] eqn:Em;
      cbn [bind] in H.
    + unfold localize in H. destruct (same_offsets (offsets ps)); [discriminate H|].
      injection H as <-. left. reflexivity.
    + injection H as <-. right.
      destruct (mapM_raise_inv _ _ _ Em) as [c [Hc Hf]].
      destruct (read_cell_raise _ _ _ Hf) as [v [-> [_ ->]]].
      exists v. split; [exact Hc|reflexivity].
Qed.

Lemma to_datetime_inv (col : list ts_cell) (ts : list datetime) :
  to_datetime col = Ok ts ->
  timestamps_convert col = true /\
  ts = map (cell_datetime (column_format col)) col.
Proof.
  intros H.
  destruct (timestamps_convert col) eqn:E.
  - rewrite (to_datetime_returns _ E) in H. injection H as <-. split; reflexivity.
  - exfalso. unfold timestamps_convert in E. apply andb_false_iff in E.
    destruct (cells_convert col) eqn:Ec.
    + destruct E as [E|E]; [discriminate E|].
      rewrite (to_datetime_mixed _ Ec E) in H. discriminate H.
    + unfold cells_convert in Ec.
      assert (Hex : exists c, In c col /\ cell_converts (column_format col) c = false).
      { clear - Ec. induction col as [|c t IH]; [discriminate Ec|].
        cbn [forallb] in Ec. apply andb_false_iff in Ec.
        set (fmt := column_format (c :: t)) in *. clearbody fmt.
        destruct (cell_converts fmt c) eqn:Ecc.
        - destruct Ec as [Ec|Ec]; [discriminate Ec|].
          assert (Hex : exists c', In c' t /\ cell_converts fmt c' = false).
          { clear - Ec. induction t as [|a t IH]; [discriminate Ec|].
            cbn [forallb] in Ec. apply andb_false_iff in Ec.
            destruct (cell_converts fmt a) eqn:Ea.
            - destruct Ec as [Ec|Ec]; [discriminate Ec|].
              destruct (IH Ec) as [c' [Hc' Hf]]. exists c'. split; [right; exact Hc'|exact Hf].
            - exists a. split; [left; reflexivity|exact Ea]. }
          destruct Hex as [c' [Hc' Hf]]. exists c'. split; [right; exact Hc'|exact Hf].
        - exists c. split; [left; reflexivity|exact Ecc]. }
      destruct Hex as [c [Hc Hf]].
      destruct (to_datetime_cell_raises _ _ Hc Hf) as [v [_ [_ Hr]]].
      rewrite Hr in H. discriminate H.
Qed.

(** C2, as the code has it.  The timestamp column is read with the
    format inferred from its first cell that is not empty, or cell by cell
    when no format is inferred.  A cell that does not read as a point in
    time makes [_clean_types] raise the parser's error on a cell of the
    column, and so do cells written with different offsets: no record set
    is returned and no timestamp is made null.  When every cell reads,
    with one offset, and no meter identifier is garbled, the function
    returns, one record per input record, an empty timestamp cell read as
    NaT. *)
Theorem clean_types_timestamp (df : list RawReading) :
  let col := map raw_timestamp df in
  let fmt := column_format col in
  (forall r, In r df -> cell_converts fmt (raw_timestamp r) = false ->
     exists v, In (TsValue v) col /\ cell_converts fmt (TsValue v) = false /\
               _clean_types df = Raise (time_error fmt v)) /\
  (cells_convert col = true -> one_offset col = false ->
   _clean_types df = Raise (ValueError MixedTimezones)) /\
  (timestamps_convert col = true ->
   (forall r, In r df -> garbled_id (raw_meter_id r) = false) ->
   exists out, _clean_types df = Ok out /\
     List.length out = List.length df /\
     map timestamp out = map (fun r => cell_datetime fmt (raw_timestamp r)) df /\
     forall r, In r df -> raw_timestamp r = TsMissing ->
               cell_datetime fmt (raw_timestamp r) = None).
Proof.
  intros col fmt. split; [|split].
  - intros r Hin Hc.
    destruct (to_datetime_cell_raises col (raw_timestamp r)) as [v [Hv [Hcv Hr]]].
    + apply in_map. exact Hin.
    + exact Hc.
    + exists v. split; [exact Hv|]. split; [exact Hcv|].
      unfold _clean_types. fold col. rewrite Hr. reflexivity.
  - intros Hc Ho. unfold _clean_types. fold col.
    rewrite (to_datetime_mixed col Hc Ho). reflexivity.
  - intros Hc Hall. unfold _clean_types, astype_int. fold col.
    rewrite (to_datetime_returns col Hc). cbn [bind].
    rewrite (mapM_ok astype_int_cell
                     (fun c => match c with IdValue z => z | IdGarbled _ => 0 end)).
    2:{ intros c Hin. apply in_map_iff in Hin. destruct Hin as [r [<- Hr]].
        specialize (Hall r Hr).
        destruct (raw_meter_id r); [reflexivity|discriminate Hall]. }
    cbn [bind]. eexists. split; [reflexivity|].
    unfold col. rewrite !map_map. fold col. fold fmt. split; [|split].
    + apply (typed_rows_length df (fun r => cell_datetime fmt (raw_timestamp r))).
    + apply (typed_rows_timestamps df (fun r => cell_datetime fmt (raw_timestamp r))).
    + intros r _ ->. reflexivity.
Qed.

Lemma clean_types_timestamp_witness :
  (exists v, In (TsValue v) (map raw_timestamp sample_two_layouts) /\
     _clean_types sample_two_layouts
     = Raise (ValueError (TimeDataMismatch (ts_text v) "%Y-%m-%d %H:%M:%S"))) /\
  _clean_types sample_two_offsets = Raise (ValueError MixedTimezones) /\
  (exists out, _clean_types sample_raw = Ok out /\
     List.length out = List.length sample_raw /\
     map timestamp out = [naive 900000000000; None]).
Proof.
  split; [|split].
  - destruct (proj1 (clean_types_timestamp sample_two_layouts)
                    (raw_at (day_first_text "01/01/2024 00:30" 1704069000000000000))
                    (or_intror (or_introl eq_refl)) eq_refl)
      as [v [Hv [_ Hr]]].
    exists v. split; [exact Hv|exact Hr].
  - apply (proj1 (proj2 (clean_types_timestamp sample_two_offsets)));
      reflexivity.
  - destruct (proj2 (proj2 (clean_types_timestamp sample_raw)) eq_refl)
      as [out [Ho [Hl [Ht _]]]].
    + intros r [<-|[<-|[]]]; reflexivity.
    + exists out. split; [exact Ho|]. split; [exact Hl|exact Ht].
Defined.

(** C2 as stated fails: an unparseable timestamp is not mapped to null,
    the function raises the parser's error, whether the text comes first
    in the column or after a well-formed one. *)
Lemma clean_types_raises :
  _clean_types sample_garbled = Raise (DateParseError "not-a-date") /\
  _clean_types sample_late_garbled
  = Raise (ValueError (TimeDataMismatch "not-a-date" "%Y-%m-%d %H:%M:%S")) /\
  ~ (exists out, _clean_types sample_garbled = Ok out) /\
  ~ (exists out, _clean_types sample_late_garbled = Ok out).
Proof.
  split; [reflexivity|]. split; [reflexivity|].
  split; intros [out H]; discriminate H.
Qed.

(** ** The Anomaly Rule Engine *)

Lemma combine_map_r {A B} (f : A -> B) (l : list A) :
  combine l (map f l) = map (fun a => (a, f a)) l.
Proof. induction l as [|a t IH]; cbn; [|rewrite IH]; reflexivity. Qed.

(** [_apply_rules] tags each row on its own. *)
Lemma apply_rules_rowwise (df : list Enriched) :
  _apply_rules df
  = map (fun e => mkTagged e (reason_of e) (reason_notna (reason_of e))) df.
Proof.
  unfold _apply_rules. rewrite combine_map_r, map_map. reflexivity.
Qed.

(** The list the loop body builds is the table filtered by its
    conditions. *)
Lemma row_reasons_table (row : Enriched) : row_reasons row = triggered_names row.
Proof.
  unfold row_reasons, triggered_names, rule_table, append_if.
  cbn [filter map fst snd].
  destruct (voltage_rule row), (current_rule row), (spike_rule row),
    (drop_rule row), (zero_power_rule row); reflexivity.
Qed.

Lemma reason_none_iff (row : Enriched) :
  reason_of row = None <-> any_rule row = false.
Proof.
  unfold reason_of. rewrite row_reasons_table.
  unfold triggered_names, any_rule, rule_table. cbn [filter map existsb fst snd].
  destruct (voltage_rule row), (current_rule row), (spike_rule row),
    (drop_rule row), (zero_power_rule row); cbn; split; congruence.
Qed.

Lemma flag_any_rule (row : Enriched) :
  reason_notna (reason_of row) = any_rule row.
Proof.
  destruct (any_rule row) eqn:E.
  - destruct (reason_of row) eqn:R; [reflexivity|].
    apply reason_none_iff in R. congruence.
  - apply reason_none_iff in E. rewrite E. reflexivity.
Qed.

(** C6. [_apply_rules] returns the input rows, one output record for each
    and in the same order, each with a flag that is true exactly when one
    of the five rules triggered on it, and with a reason that is null
    exactly when none did. *)
Theorem apply_rules_one_per_row (df : list Enriched) :
  map enriched (_apply_rules df) = df /\
  List.length (_apply_rules df) = List.length df /\
  Forall (fun t =>
            anomaly_flag t = any_rule (enriched t) /\
            (anomaly_reason t = None <-> any_rule (enriched t) = false) /\
            (anomaly_reason t <> None <-> any_rule (enriched t) = true))
         (_apply_rules df).
Proof.
  rewrite apply_rules_rowwise. split; [|split].
  - rewrite map_map. cbn [enriched]. apply map_id.
  - apply length_map.
  - apply Forall_map, Forall_forall. intros e _. cbn [enriched anomaly_flag anomaly_reason].
    split; [apply flag_any_rule|]. split; [apply reason_none_iff|].
    rewrite reason_none_iff. destruct (any_rule e); split; congruence.
Qed.

(** C10. A comparison with a missing value is false, so a rule that reads
    a missing field does not trigger, and a row where every field the
    rules read is missing gets a false flag and a null reason.
    [_apply_rules] is a total function: it returns on every frame. *)
Theorem rules_on_missing (row : Enriched) :
  (forall x y, isna x = true ->
     ltb x y = false /\ ltb y x = false /\ gtb x y = false /\
     gtb y x = false /\ eqb x y = false /\ eqb y x = false) /\
  (isna (voltage (reading row)) = true ->
     voltage_rule row = false /\ zero_power_rule row = false) /\
  (isna (current (reading row)) = true ->
     current_rule row = false /\ zero_power_rule row = false) /\
  (isna (kw_pct_change row) = true ->
     spike_rule row = false /\ drop_rule row = false) /\
  (isna (power_kw (reading row)) = true -> zero_power_rule row = false) /\
  (isna (voltage (reading row)) = true -> isna (current (reading row)) = true ->
   isna (power_kw (reading row)) = true -> isna (kw_pct_change row) = true ->
   _apply_rules [row] = [mkTagged row None false]).
Proof.
  assert (Hcmp : forall x y, isna x = true ->
     ltb x y = false /\ ltb y x = false /\ gtb x y = false /\
     gtb y x = false /\ eqb x y = false /\ eqb y x = false).
  { intros x y Hx. apply isna_nan in Hx. subst x. unfold gtb.
    repeat split; try reflexivity; destruct y; reflexivity. }
  split; [exact Hcmp|].
  unfold voltage_rule, current_rule, spike_rule, drop_rule, zero_power_rule.
  split; [|split; [|split; [|split]]].
  - intros H. destruct (Hcmp _ (of_Z 180) H) as [-> _].
    destruct (Hcmp _ (of_Z 250) H) as [_ [_ [-> _]]].
    destruct (Hcmp _ (of_Z 150) H) as [_ [_ [-> _]]].
    rewrite andb_false_r. split; reflexivity.
  - intros H. destruct (Hcmp _ (of_Z 0) H) as [-> _].
    destruct (Hcmp _ (of_Z 50) H) as [_ [_ [-> _]]].
    destruct (Hcmp _ (decimal 1 1) H) as [_ [_ [-> _]]].
    rewrite andb_false_r. split; reflexivity.
  - intros H. destruct (Hcmp _ (decimal 15 1) H) as [_ [_ [-> _]]].
    destruct (Hcmp _ (opp (decimal 8 1)) H) as [-> _]. split; reflexivity.
  - intros H. destruct (Hcmp _ (of_Z 0) H) as [_ [_ [_ [_ [-> _]]]]]. reflexivity.
  - intros H Hc Hp Hk. destruct row as [[t m g v c p f tc] h x pct].
    cbn [reading voltage current power_kw kw_pct_change] in H, Hc, Hp, Hk.
    apply isna_nan in H, Hc, Hp, Hk. subst. reflexivity.
Qed.

Lemma rules_on_missing_witness :
  voltage_rule sample_blank = false /\
  current_rule sample_blank = false /\
  spike_rule sample_blank = false /\
  zero_power_rule sample_blank = false /\
  _apply_rules [sample_blank] = [mkTagged sample_blank None false].
Proof.
  pose proof (rules_on_missing sample_blank) as [_ [Hv [Hc [Hp [Hz Hall]]]]].
  split; [apply (proj1 (Hv eq_refl))|].
  split; [apply (proj1 (Hc eq_refl))|].
  split; [apply (proj1 (Hp eq_refl))|].
  split; [apply (Hz eq_refl)|].
  apply (Hall eq_refl eq_refl eq_refl eq_refl).
Defined.

(** ** The stable sort *)

Section Sorting.
Context {R : Type}.
Variable le : R -> R -> bool.
Hypothesis le_total : forall a b, le a b = true \/ le b a = true.
Hypothesis le_trans : forall a b c, le a b = true -> le b c = true -> le a c = true.

Lemma sort_values_cons (x : R) (l : list R) :
  sort_values le (x :: l) = insert le x (sort_values le l).
Proof. reflexivity. Qed.

Lemma insert_In (x y : R) (l : list R) :
  In y (insert le x l) <-> y = x \/ In y l.
Proof.
  induction l as [|z t IH]; cbn.
  - intuition congruence.
  - destruct (le x z); cbn; [intuition congruence|].
    rewrite IH. intuition congruence.
Qed.

Lemma insert_ordered (x : R) (l : list R) :
  ordered le l -> ordered le (insert le x l).
Proof.
  induction 1 as [|z t Ht IH Hz]; cbn.
  - constructor; constructor.
  - destruct (le x z) eqn:E.
    + constructor; [constructor; assumption|].
      constructor; [exact E|].
      eapply Forall_impl; [|exact Hz]. intros c Hc. eapply le_trans; eassumption.
    + constructor; [exact IH|].
      apply Forall_forall. intros c Hc. apply insert_In in Hc.
      destruct Hc as [->|Hc].
      * destruct (le_total x z) as [H|H]; [congruence|exact H].
      * rewrite Forall_forall in Hz. apply Hz. exact Hc.
Qed.

Lemma sort_values_ordered (l : list R) : ordered le (sort_values le l).
Proof.
  induction l as [|x t IH]; [constructor|].
  rewrite sort_values_cons. apply insert_ordered. exact IH.
Qed.

Lemma insert_least (x : R) (l : list R) :
  Forall (fun z => le x z = true) l -> insert le x l = x :: l.
Proof.
  destruct l as [|z t]; cbn; [reflexivity|].
  intros H. inversion H as [|? ? Hz _]; subst. rewrite Hz. reflexivity.
Qed.

(** Sorting a sorted frame leaves it as it is. *)
Lemma sort_values_fixed (l : list R) : ordered le l -> sort_values le l = l.
Proof.
  induction 1 as [|z t Ht IH Hz]; [reflexivity|].
  rewrite sort_values_cons, IH. apply insert_least. exact Hz.
Qed.

Lemma filter_insert (p : R -> bool) (x : R) (l : list R) :
  ordered le l ->
  filter p (insert le x l)
  = if p x then insert le x (filter p l) else filter p l.
Proof.
  induction 1 as [|z t Ht IH Hz]; cbn.
  - destruct (p x); reflexivity.
  - destruct (le x z) eqn:E.
    + cbn. destruct (p x) eqn:Px; [|reflexivity].
      symmetry. apply insert_least.
      assert (Hall : Forall (fun c => le x c = true) (z :: t)).
      { constructor; [exact E|].
        eapply Forall_impl; [|exact Hz]. intros c Hc. eapply le_trans; eassumption. }
      apply Forall_forall. intros c Hc.
      change (if p z then z :: filter p t else filter p t) with (filter p (z :: t)) in Hc.
      apply filter_In in Hc. rewrite Forall_forall in Hall. apply Hall, Hc.
    + cbn. rewrite IH. destruct (p z), (p x); cbn; try rewrite E; reflexivity.
Qed.

(** The sort is stable, so it commutes with the selection of a group:
    the rows of a group come out of the sort in the order the sort gives
    to the group alone. *)
Lemma filter_sort_values (p : R -> bool) (l : list R) :
  filter p (sort_values le l) = sort_values le (filter p l).
Proof.
  induction l as [|x t IH]; [reflexivity|].
  rewrite sort_values_cons, filter_insert by apply sort_values_ordered.
  rewrite IH. cbn [filter]. destruct (p x); reflexivity.
Qed.

End Sorting.

Lemma insert_Permutation {R} (le : R -> R -> bool) (x : R) (l : list R) :
  Permutation (insert le x l) (x :: l).
Proof.
  induction l as [|y t IH]; cbn; [reflexivity|].
  destruct (le x y); [reflexivity|].
  rewrite IH. apply perm_swap.
Qed.

Lemma sort_values_Permutation {R} (le : R -> R -> bool) (l : list R) :
  Permutation (sort_values le l) l.
Proof.
  induction l as [|x t IH]; [reflexivity|].
  rewrite sort_values_cons, insert_Permutation, IH. reflexivity.
Qed.

Lemma lex_leb_total (a b : Z * instant) :
  lex_leb a b = true \/ lex_leb b a = true.
Proof.
  destruct a as [m1 [t1|]], b as [m2 [t2|]]; unfold lex_leb; cbn;
    rewrite !orb_true_iff, !andb_true_iff, ?Z.ltb_lt, ?Z.eqb_eq, ?Z.leb_le;
    try lia;
    destruct (Z.lt_trichotomy m1 m2) as [H|[H|H]]; intuition (try lia; try congruence).
Qed.

Lemma lex_leb_trans (a b c : Z * instant) :
  lex_leb a b = true -> lex_leb b c = true -> lex_leb a c = true.
Proof.
  destruct a as [m1 [t1|]], b as [m2 [t2|]], c as [m3 [t3|]]; unfold lex_leb; cbn;
    rewrite !orb_true_iff, !andb_true_iff, ?Z.ltb_lt, ?Z.eqb_eq, ?Z.leb_le;
    intuition (try lia; try congruence).
Qed.

Lemma row_leb_total (a b : Reading * float) :
  row_leb a b = true \/ row_leb b a = true.
Proof. apply lex_leb_total. Qed.

Lemma row_leb_trans (a b c : Reading * float) :
  row_leb a b = true -> row_leb b c = true -> row_leb a c = true.
Proof. apply lex_leb_trans. Qed.

(** ** Group-wise columns *)

Lemma map_nth_seq {A} (l : list A) (d : A) :
  map (fun i => nth i l d) (seq 0 (List.length l)) = l.
Proof.
  induction l as [|a t IH]; cbn; [reflexivity|].
  rewrite <- seq_shift, map_map. cbn. rewrite IH. reflexivity.
Qed.

Lemma pick_map {R A B} (p : R -> bool) (h : A -> B) (rows : list R) (vals : list A) :
  pick p rows (map h vals) = map h (pick p rows vals).
Proof.
  revert vals. induction rows as [|r t IH]; intros [|v vals]; cbn; try reflexivity.
  destruct (p r); cbn; rewrite IH; reflexivity.
Qed.

Section GroupLemmas.
Context {R : Type}.
Variable key : R -> Z.
Variable col : R -> float.
Variable f : list float -> list float.
Hypothesis f_length : forall xs, List.length (f xs) = List.length xs.

Lemma transform_rows_length (df before rest : list R) :
  List.length (transform_rows key col f df before rest) = List.length rest.
Proof.
  revert before. induction rest as [|r t IH]; intros before; cbn; [reflexivity|].
  rewrite IH. reflexivity.
Qed.

Lemma groupby_transform_length (df : list R) :
  List.length (groupby_transform key col f df) = List.length df.
Proof. apply transform_rows_length. Qed.

Lemma pick_transform_rows (m : Z) (df before rest : list R) :
  pick (fun r => key r =? m) rest (transform_rows key col f df before rest)
  = map (fun i => nth i (f (map col (group key m df))) nan)
        (seq (List.length (group key m before)) (List.length (group key m rest))).
Proof.
  revert before. induction rest as [|r t IH]; intros before; [reflexivity|].
  cbn [transform_rows pick]. rewrite IH.
  assert (Hsnoc : List.length (group key m (before ++ [r]))
                  = (List.length (group key m before)
                     + if (key r =? m)%Z then 1 else 0)%nat).
  { unfold group. rewrite filter_app, length_app. cbn [filter].
    destruct (key r =? m); reflexivity. }
  assert (Hcons : List.length (group key m (r :: t))
                  = ((if (key r =? m)%Z then 1 else 0)
                     + List.length (group key m t))%nat).
  { unfold group. cbn [filter]. destruct (key r =? m); reflexivity. }
  rewrite Hsnoc, Hcons.
  destruct (key r =? m) eqn:E.
  - apply Z.eqb_eq in E. rewrite E, Nat.add_1_r. reflexivity.
  - rewrite Nat.add_0_r. reflexivity.
Qed.

(** The entries of a group-wise column at the rows of a group are the
    group's own series. *)
Lemma pick_groupby_transform (m : Z) (df : list R) :
  pick (fun r => key r =? m) df (groupby_transform key col f df)
  = f (map col (group key m df)).
Proof.
  unfold groupby_transform. rewrite pick_transform_rows.
  cbn [group filter List.length].
  rewrite <- (length_map col), <- f_length. apply map_nth_seq.
Qed.

End GroupLemmas.

Lemma roll_loop_length (w : nat) (minp : Z) (values : list float)
      (st : mean_state) (rows : list nat) :
  List.length (roll_loop w minp values st rows) = List.length rows.
Proof.
  revert st. induction rows as [|i t IH]; intros st; cbn; [|rewrite IH]; reflexivity.
Qed.

Lemma rolling_mean_length (w : nat) (p : Z) (xs : list float) :
  List.length (rolling_mean w p xs) = List.length xs.
Proof.
  unfold rolling_mean, roll_mean, prep_values.
  rewrite roll_loop_length, length_seq, length_map. reflexivity.
Qed.

Lemma removelast_cons_length {A} (x : A) (t : list A) :
  List.length (removelast (x :: t)) = List.length t.
Proof.
  revert x. induction t as [|y t IH]; intros x; [reflexivity|].
  change (removelast (x :: y :: t)) with (x :: removelast (y :: t)).
  cbn [List.length]. rewrite IH. reflexivity.
Qed.

Lemma shift_length (xs : list float) : List.length (shift xs) = List.length xs.
Proof.
  destruct xs as [|x t]; [reflexivity|].
  unfold shift. cbn [List.length]. rewrite removelast_cons_length. reflexivity.
Qed.

Lemma pct_change_length (xs : list float) :
  List.length (pct_change xs) = List.length xs.
Proof.
  unfold pct_change.
  rewrite length_map, length_combine, shift_length.
  apply Nat.min_id.
Qed.

(** ** The Feature Engineer, one meter at a time *)

Lemma meter_samples_with_features (m : Z) (rows : list (Reading * float))
      (xs ps : list float) :
  List.length xs = List.length rows -> List.length ps = List.length rows ->
  meter_samples m (with_features rows xs ps)
  = with_features (group (fun p => meter_id (fst p)) m rows)
                  (pick (fun p => meter_id (fst p) =? m) rows xs)
                  (pick (fun p => meter_id (fst p) =? m) rows ps).
Proof.
  revert xs ps. induction rows as [|[r h] t IH]; intros [|x xs] [|p ps] Hx Hp;
    try discriminate; [reflexivity|].
  cbn [with_features meter_samples filter group pick reading fst].
  cbn in Hx, Hp. injection Hx as Hx. injection Hp as Hp.
  fold (meter_samples m (with_features t xs ps)). rewrite (IH xs ps Hx Hp).
  destruct (meter_id r =? m); reflexivity.
Qed.

Lemma engineer_features_unfold (df : list Reading) :
  _engineer_features df = features (sort_values row_leb (map attach_hour df)).
Proof. reflexivity. Qed.

Lemma fillna_length (v : float) (xs : list float) :
  List.length (fillna v xs) = List.length xs.
Proof. apply length_map. Qed.

Lemma group_attach_hour (m : Z) (df : list Reading) :
  group (fun p => meter_id (fst p)) m (map attach_hour df)
  = map attach_hour (meter_readings m df).
Proof.
  induction df as [|r t IH]; [reflexivity|].
  unfold group, meter_readings in *. cbn [map filter attach_hour fst].
  rewrite IH. destruct (meter_id r =? m); reflexivity.
Qed.

(** The rows of one meter in the output are the enriched rows of that
    meter's readings, sorted and taken alone. *)
Lemma meter_view (m : Z) (df : list Reading) :
  meter_samples m (_engineer_features df)
  = meter_series (sort_values row_leb (map attach_hour (meter_readings m df))).
Proof.
  rewrite engineer_features_unfold. unfold features.
  set (rows := sort_values row_leb (map attach_hour df)).
  rewrite meter_samples_with_features.
  2:{ apply groupby_transform_length. }
  2:{ rewrite fillna_length. apply groupby_transform_length. }
  unfold fillna at 1. rewrite pick_map.
  rewrite !pick_groupby_transform
    by (intros; first [apply rolling_mean_length | apply pct_change_length]).
  assert (Hg : group (fun p => meter_id (fst p)) m rows
               = sort_values row_leb (map attach_hour (meter_readings m df))).
  { unfold rows, group.
    rewrite filter_sort_values by (first [apply row_leb_total | apply row_leb_trans]).
    f_equal. apply group_attach_hour. }
  rewrite Hg. reflexivity.
Qed.

Lemma insert_map {A B} (le1 : A -> A -> bool) (le2 : B -> B -> bool) (h : A -> B) :
  (forall a b, le2 (h a) (h b) = le1 a b) ->
  forall x l, insert le2 (h x) (map h l) = map h (insert le1 x l).
Proof.
  intros Hle x l. induction l as [|y t IH]; cbn; [reflexivity|].
  rewrite Hle. destruct (le1 x y); cbn; [|rewrite IH]; reflexivity.
Qed.

Lemma sort_values_map {A B} (le1 : A -> A -> bool) (le2 : B -> B -> bool) (h : A -> B) :
  (forall a b, le2 (h a) (h b) = le1 a b) ->
  forall l, sort_values le2 (map h l) = map h (sort_values le1 l).
Proof.
  intros Hle l. induction l as [|x t IH]; [reflexivity|].
  cbn [map]. rewrite !sort_values_cons, IH. apply insert_map. exact Hle.
Qed.

Lemma sort_attach_hour (l : list Reading) :
  sort_values row_leb (map attach_hour l)
  = map attach_hour (sort_values reading_leb l).
Proof. apply sort_values_map. reflexivity. Qed.

Lemma meter_view_ordered (m : Z) (df : list Reading) :
  meter_samples m (_engineer_features df)
  = meter_series (map attach_hour (time_ordered m df)).
Proof. rewrite meter_view, sort_attach_hour. reflexivity. Qed.

(** ** Non-interference between meters *)

(** C4. The derived fields of a meter's records depend on that meter's
    records only: two inputs that agree on the records of a meter, in
    order, give the same enriched records for that meter, whatever the
    records of the other meters are. *)
Theorem features_within_meter (m : Z) (df1 df2 : list Reading) :
  time_ordered m df1 = time_ordered m df2 ->
  meter_samples m (_engineer_features df1)
  = meter_samples m (_engineer_features df2) /\
  map derived (meter_samples m (_engineer_features df1))
  = map derived (meter_samples m (_engineer_features df2)).
Proof.
  intros H. rewrite !meter_view_ordered, H. split; reflexivity.
Qed.

Lemma features_within_meter_witness :
  time_ordered 1 sample_two_meters = time_ordered 1 sample_three_meters /\
  map derived (meter_samples 1 (_engineer_features sample_two_meters))
  = map derived (meter_samples 1 (_engineer_features sample_three_meters)).
Proof.
  split; [vm_compute; reflexivity|].
  apply (proj2 (features_within_meter 1 sample_two_meters sample_three_meters
                  eq_refl)).
Defined.

(** ** Running the Feature Engineer twice *)

Lemma with_features_readings (rows : list (Reading * float)) (xs ps : list float) :
  List.length xs = List.length rows -> List.length ps = List.length rows ->
  map reading (with_features rows xs ps) = map fst rows.
Proof.
  revert xs ps. induction rows as [|[r h] t IH]; intros [|x xs] [|p ps] Hx Hp;
    try discriminate; [reflexivity|].
  cbn in Hx, Hp. injection Hx as Hx. injection Hp as Hp.
  cbn [with_features map reading fst]. rewrite (IH xs ps Hx Hp). reflexivity.
Qed.

Lemma features_readings (rows : list (Reading * float)) :
  map reading (features rows) = map fst rows.
Proof.
  unfold features. apply with_features_readings.
  - apply groupby_transform_length.
  - rewrite fillna_length. apply groupby_transform_length.
Qed.

Lemma reading_leb_total (a b : Reading) :
  reading_leb a b = true \/ reading_leb b a = true.
Proof. apply lex_leb_total. Qed.

Lemma reading_leb_trans (a b c : Reading) :
  reading_leb a b = true -> reading_leb b c = true -> reading_leb a c = true.
Proof. apply lex_leb_trans. Qed.

(** C9. A second run of the Feature Engineer on the records of its own
    output, the derived columns of the first run set aside, gives the
    output of the first run again: the same records in the same order
    with the same [hour_of_day], [rolling_kw_1h] and [kw_pct_change]. *)
Theorem engineer_features_idempotent (df : list Reading) :
  _engineer_features (map reading (_engineer_features df))
  = _engineer_features df /\
  map derived (_engineer_features (map reading (_engineer_features df)))
  = map derived (_engineer_features df).
Proof.
  assert (H : _engineer_features (map reading (_engineer_features df))
              = _engineer_features df); [|rewrite H; split; reflexivity].
  rewrite !engineer_features_unfold, features_readings.
  rewrite !sort_attach_hour, map_map. cbn [attach_hour fst]. rewrite map_id.
  rewrite (sort_values_fixed reading_leb (sort_values reading_leb df)).
  - reflexivity.
  - apply sort_values_ordered; [apply reading_leb_total|apply reading_leb_trans].
Qed.

(** ** The samples of a meter, by position *)

Lemma with_features_nth (rows : list (Reading * float)) (xs ps : list float)
      (k : nat) (e : Enriched) :
  nth_error (with_features rows xs ps) k = Some e ->
  nth_error rows k = Some (reading e, hour_of_day e) /\
  nth_error xs k = Some (rolling_kw_1h e) /\
  nth_error ps k = Some (kw_pct_change e).
Proof.
  revert xs ps k. induction rows as [|[r h] t IH]; intros [|x xs] [|p ps] k;
    try (destruct k; discriminate).
  destruct k as [|k]; cbn [with_features nth_error].
  - intros H. injection H as <-. repeat split.
  - apply IH.
Qed.


Lemma sample_power (rows : list (Reading * float)) (k : nat) (e : Enriched) :
  nth_error (meter_series rows) k = Some e ->
  nth_error (powers rows) k = Some (power_kw (reading e)).
Proof.
  intros H. apply with_features_nth in H. destruct H as [Hr _].
  unfold powers. rewrite nth_error_map, Hr. reflexivity.
Qed.



(** ** The samples of a meter in time order *)

Lemma instant_leb_refl (t : instant) : instant_leb t t = true.
Proof. destruct t; cbn; [apply Z.leb_refl|reflexivity]. Qed.

Lemma not_after_refl (r : Reading) : not_after r r = true.
Proof. apply instant_leb_refl. Qed.

Lemma reading_leb_same_meter (a b : Reading) :
  meter_id a = meter_id b -> reading_leb a b = not_after a b.
Proof.
  intros H. unfold reading_leb, lex_leb, sort_key, not_after. cbn [fst snd].
  rewrite H, Z.ltb_irrefl, Z.eqb_refl. reflexivity.
Qed.

Lemma ordered_among {R} (le le' : R -> R -> bool) (l : list R) :
  (forall a b, In a l -> In b l -> le a b = true -> le' a b = true) ->
  ordered le l -> ordered le' l.
Proof.
  intros H Ho. induction Ho as [|x t Ht IH Hx]; [constructor|].
  constructor.
  - apply IH. intros a b Ha Hb. apply H; right; assumption.
  - rewrite Forall_forall in *. intros b Hb.
    apply H; [left; reflexivity|right; exact Hb|apply Hx, Hb].
Qed.

Lemma ordered_nth {R} (le : R -> R -> bool) (l : list R) (i j : nat) (a b : R) :
  ordered le l -> (i < j)%nat ->
  nth_error l i = Some a -> nth_error l j = Some b -> le a b = true.
Proof.
  intros Ho. revert i j. induction Ho as [|x t Ht IH Hx]; intros i j Hij Ha Hb;
    [destruct i; discriminate Ha|].
  destruct j as [|j]; [lia|]. cbn [nth_error] in Hb.
  destruct i as [|i].
  - cbn in Ha. injection Ha as <-. rewrite Forall_forall in Hx.
    eapply Hx, nth_error_In, Hb.
  - cbn [nth_error] in Ha. apply (IH i j); [lia|assumption|assumption].
Qed.

Lemma time_ordered_In (m : Z) (df : list Reading) (r : Reading) :
  In r (time_ordered m df) <-> In r df /\ meter_id r = m.
Proof.
  unfold time_ordered, meter_readings. split.
  - intros H. apply (Permutation_in _ (sort_values_Permutation _ _)) in H.
    apply filter_In in H. rewrite Z.eqb_eq in H. exact H.
  - intros [H Hm].
    apply (Permutation_in _ (Permutation_sym (sort_values_Permutation _ _))).
    apply filter_In. rewrite Z.eqb_eq. split; assumption.
Qed.

Lemma time_ordered_ordered (m : Z) (df : list Reading) :
  ordered not_after (time_ordered m df).
Proof.
  apply (ordered_among reading_leb).
  - intros a b Ha Hb. apply time_ordered_In in Ha, Hb.
    rewrite reading_leb_same_meter by (destruct Ha, Hb; congruence). tauto.
  - apply sort_values_ordered; [apply reading_leb_total|apply reading_leb_trans].
Qed.

(** The rows of a meter in the output are the readings of the meter, each
    once, in time order. *)
Lemma meter_samples_readings (m : Z) (df : list Reading) :
  map reading (meter_samples m (_engineer_features df)) = time_ordered m df.
Proof.
  rewrite meter_view_ordered. unfold meter_series.
  rewrite with_features_readings, map_map.
  - cbn [attach_hour fst]. apply map_id.
  - rewrite rolling_mean_length. apply length_map.
  - rewrite fillna_length, pct_change_length. apply length_map.
Qed.

Lemma sample_reading (samples : list Enriched) (k : nat) (e : Enriched) :
  nth_error samples k = Some e ->
  nth_error (map reading samples) k = Some (reading e).
Proof. intros H. rewrite nth_error_map, H. reflexivity. Qed.

Lemma meter_sample_In (m : Z) (df : list Reading) (k : nat) (e : Enriched) :
  nth_error (meter_samples m (_engineer_features df)) k = Some e ->
  In (reading e) df /\ meter_id (reading e) = m.
Proof.
  intros H. apply sample_reading in H. rewrite meter_samples_readings in H.
  apply nth_error_In, time_ordered_In in H. exact H.
Qed.

(** The first row of a meter is a reading of the meter that no reading of
    the meter is before. *)
Lemma meter_first_earliest (m : Z) (df : list Reading) (e : Enriched) :
  nth_error (meter_samples m (_engineer_features df)) 0 = Some e ->
  forall r, In r df -> meter_id r = m -> not_after (reading e) r = true.
Proof.
  intros H r Hr Hm. apply sample_reading in H.
  rewrite meter_samples_readings in H.
  assert (Hin : In r (time_ordered m df)) by (apply time_ordered_In; tauto).
  apply In_nth_error in Hin. destruct Hin as [j Hj].
  destruct j as [|j].
  - rewrite H in Hj. injection Hj as <-. apply not_after_refl.
  - apply (ordered_nth not_after (time_ordered m df) 0 (S j));
      [apply time_ordered_ordered|lia|exact H|exact Hj].
Qed.


(** ** Rounding a number that needs none *)



(** ** Whole numbers in binary64 *)

















(** ** The loop of the rolling mean *)

Lemma roll_loop_nth (w : nat) (minp : Z) (values : list float) (st : mean_state)
      (a n j : nat) (v : float) :
  nth_error (roll_loop w minp values st (seq a n)) j = Some v ->
  v = calc_mean minp
        (fold_left (fun st i => roll_step w values i st) (seq a (S j)) st).
Proof.
  revert st a j. induction n as [|n IH]; intros st a j H.
  - destruct j; discriminate H.
  - cbn [seq roll_loop] in H. destruct j as [|j].
    + cbn in H. injection H as <-. reflexivity.
    + cbn [nth_error] in H. apply IH in H. exact H.
Qed.

Lemma rolling_mean_nth (w : nat) (p : Z) (xs : list float) (k : nat) (v : float) :
  nth_error (rolling_mean w p xs) k = Some v ->
  v = calc_mean p (state_at w (prep_values xs) k).
Proof. apply roll_loop_nth. Qed.

Lemma state_at_S (w : nat) (values : list float) (k : nat) :
  state_at w values (S k) = roll_step w values (S k) (state_at w values k).
Proof.
  unfold state_at. rewrite (seq_S (S k)), fold_left_app. reflexivity.
Qed.






(** ** The binary64 numbers of whole numbers *)













(** ** Windows of a list *)




















Lemma Forall_firstn_part {A} (P : A -> Prop) (n : nat) (l : list A) :
  Forall P l -> Forall P (firstn n l).
Proof.
  revert l. induction n as [|n IH]; intros [|x t] H; cbn; try constructor.
  - inversion H; assumption.
  - apply IH. inversion H; assumption.
Qed.

Lemma Forall_skipn_part {A} (P : A -> Prop) (n : nat) (l : list A) :
  Forall P l -> Forall P (skipn n l).
Proof.
  revert l. induction n as [|n IH]; intros [|x t] H; cbn; try assumption.
  apply IH. inversion H; assumption.
Qed.






(** ** The quotient of two whole numbers that divide *)









(** ** The first row of a rolling mean *)




(** ** The sign of a rolling mean *)

Lemma signbit_not_ltb (x : float) : signbit x = false -> ltb x zero = false.
Proof.
  destruct x as [s|s| |s m e]; cbn [signbit]; intros H; subst; reflexivity.
Qed.

Lemma add_mean_neg_ct (st : mean_state) (v : float) :
  signbit v = false -> neg_ct st = 0 -> ltb (prev_value st) zero = false ->
  neg_ct (add_mean st v) = 0 /\ ltb (prev_value (add_mean st v)) zero = false.
Proof.
  intros Hv Hn Hp. unfold add_mean.
  destruct (eqb v v); [|split; assumption].
  cbn [neg_ct prev_value]. rewrite Hv.
  split; [exact Hn|apply signbit_not_ltb, Hv].
Qed.

Lemma remove_mean_neg_ct (st : mean_state) (v : float) :
  signbit v = false -> neg_ct st = 0 -> ltb (prev_value st) zero = false ->
  neg_ct (remove_mean st v) = 0 /\
  ltb (prev_value (remove_mean st v)) zero = false.
Proof.
  intros Hv Hn Hp. unfold remove_mean.
  destruct (eqb v v); [|split; assumption].
  cbn [neg_ct prev_value]. rewrite Hv. split; assumption.
Qed.

Lemma fold_add_mean_neg_ct (vs : list float) (st : mean_state) :
  Forall (fun v => signbit v = false) vs ->
  neg_ct st = 0 -> ltb (prev_value st) zero = false ->
  neg_ct (fold_left add_mean vs st) = 0 /\
  ltb (prev_value (fold_left add_mean vs st)) zero = false.
Proof.
  intros H. revert st. induction H as [|v t Hv _ IH]; intros st Hn Hp;
    [split; assumption|].
  cbn [fold_left]. destruct (add_mean_neg_ct st v Hv Hn Hp). apply IH; assumption.
Qed.

Lemma fold_remove_mean_neg_ct (vs : list float) (st : mean_state) :
  Forall (fun v => signbit v = false) vs ->
  neg_ct st = 0 -> ltb (prev_value st) zero = false ->
  neg_ct (fold_left remove_mean vs st) = 0 /\
  ltb (prev_value (fold_left remove_mean vs st)) zero = false.
Proof.
  intros H. revert st. induction H as [|v t Hv _ IH]; intros st Hn Hp;
    [split; assumption|].
  cbn [fold_left]. destruct (remove_mean_neg_ct st v Hv Hn Hp).
  apply IH; assumption.
Qed.

Lemma slice_Forall {A} (P : A -> Prop) (a b : nat) (xs : list A) :
  Forall P xs -> Forall P (slice a b xs).
Proof. intros H. apply Forall_skipn_part, Forall_firstn_part, H. Qed.

Lemma roll_step_neg_ct (w : nat) (vs : list float) (i : nat) (st : mean_state) :
  Forall (fun v => signbit v = false) vs ->
  neg_ct st = 0 -> ltb (prev_value st) zero = false ->
  neg_ct (roll_step w vs i st) = 0 /\
  ltb (prev_value (roll_step w vs i st)) zero = false.
Proof.
  intros H Hn Hp. unfold roll_step.
  destruct ((i =? 0)%nat || (window_end (i - 1) <=? window_start w i)%nat).
  - apply fold_add_mean_neg_ct; [apply slice_Forall, H|reflexivity|].
    cbn [setup prev_value]. apply signbit_not_ltb.
    destruct (nth_in_or_default (window_start w i) vs nan) as [Hin| ->];
      [|reflexivity].
    rewrite Forall_forall in H. apply H, Hin.
  - destruct (fold_remove_mean_neg_ct
                (slice (window_start w (i - 1)) (window_start w i) vs) st
                (slice_Forall _ _ _ _ H) Hn Hp) as [Hn' Hp'].
    apply fold_add_mean_neg_ct; [apply slice_Forall, H|assumption|assumption].
Qed.

Lemma state_at_neg_ct (w : nat) (vs : list float) (k : nat) :
  Forall (fun v => signbit v = false) vs ->
  neg_ct (state_at w vs k) = 0 /\ ltb (prev_value (state_at w vs k)) zero = false.
Proof.
  intros H. induction k as [|k [Hn Hp]].
  - unfold state_at. cbn [seq fold_left].
    apply roll_step_neg_ct; [exact H|reflexivity|reflexivity].
  - rewrite state_at_S. apply roll_step_neg_ct; assumption.
Qed.

Lemma calc_mean_not_negative (minp : Z) (st : mean_state) :
  neg_ct st = 0 -> ltb (prev_value st) zero = false ->
  ltb (calc_mean minp st) zero = false.
Proof.
  intros Hn Hp. unfold calc_mean. rewrite Hn.
  destruct ((minp <=? nobs st) && (0 <? nobs st)); [|reflexivity].
  destruct (nobs st <=? num_consecutive_same_value st); [exact Hp|].
  rewrite Z.eqb_refl. cbn [andb].
  destruct (ltb (div (sum_x st) (of_Z (nobs st))) zero) eqn:E; [reflexivity|].
  destruct ((0 =? nobs st)
            && gtb (div (sum_x st) (of_Z (nobs st))) zero); [reflexivity|exact E].
Qed.

Lemma prep_values_signbit (xs : list float) :
  Forall (fun v => signbit v = false) xs ->
  Forall (fun v => signbit v = false) (prep_values xs).
Proof.
  intros H. unfold prep_values. apply Forall_map.
  eapply Forall_impl; [|exact H]. intros v Hv.
  destruct (is_inf v); [reflexivity|exact Hv].
Qed.

(** The rolling mean of numbers without a sign bit is never below
    zero. *)
Lemma rolling_mean_not_negative (xs : list float) (k : nat) (v : float) :
  Forall (fun x => signbit x = false) xs ->
  nth_error (rolling_mean 4 1 xs) k = Some v -> ltb v zero = false.
Proof.
  intros H Hv. apply rolling_mean_nth in Hv. subst v.
  destruct (state_at_neg_ct 4 _ k (prep_values_signbit xs H)).
  apply calc_mean_not_negative; assumption.
Qed.

(** ** The rolling mean of a meter *)




(** ** The percent change *)

Lemma pct_from_pairs (v : float) (t : list float) :
  map (fun p => sub (div (fst p) (snd p)) one) (combine t (removelast (v :: t)))
  = pct_from v t.
Proof.
  revert v. induction t as [|y t IH]; intros v; [reflexivity|].
  change (removelast (v :: y :: t)) with (v :: removelast (y :: t)).
  cbn [combine map fst snd pct_from]. rewrite IH. reflexivity.
Qed.

Lemma pct_change_from (xs : list float) : pct_change xs = pct_from nan xs.
Proof.
  destruct xs as [|x t]; [reflexivity|].
  unfold pct_change, shift. cbn [combine map fst snd pct_from].
  rewrite pct_from_pairs. reflexivity.
Qed.

Lemma div_nan_r (x : float) : div x nan = nan.
Proof. destruct x; reflexivity. Qed.

(** The first entry of a percent-change column is missing. *)
Lemma pct_change_first (xs : list float) (v : float) :
  nth_error (pct_change xs) 0 = Some v -> v = nan.
Proof.
  rewrite pct_change_from. destruct xs as [|x t]; [discriminate|].
  cbn [pct_from nth_error]. intros H. injection H as <-.
  rewrite div_nan_r. reflexivity.
Qed.

(** A later entry is computed from the value before it. *)
Lemma pct_from_next (prev : float) (xs : list float) (k : nat) (a b v : float) :
  nth_error xs k = Some a ->
  nth_error xs (S k) = Some b ->
  nth_error (pct_from prev xs) (S k) = Some v ->
  v = sub (div b a) one.
Proof.
  revert prev k. induction xs as [|x t IH]; intros prev k Ha Hb Hv;
    [destruct k; discriminate|].
  destruct k as [|k].
  - cbn in Ha. injection Ha as ->.
    destruct t as [|y t]; [discriminate|].
    cbn in Hb. injection Hb as ->.
    cbn [pct_from nth_error] in Hv. injection Hv as <-. reflexivity.
  - cbn [pct_from nth_error] in Hv. cbn [nth_error] in Ha, Hb.
    eapply IH; eassumption.
Qed.

Lemma fillna_nth (d : float) (xs : list float) (k : nat) (v : float) :
  nth_error (fillna d xs) k = Some v ->
  exists x, nth_error xs k = Some x /\ v = (if isna x then d else x).
Proof.
  unfold fillna. rewrite nth_error_map.
  destruct (nth_error xs k) as [x|]; cbn; [|discriminate].
  intros H. injection H as <-. eauto.
Qed.

Lemma fillna_notna (xs : list float) (v : float) :
  In v (fillna zero xs) -> notna v = true.
Proof.
  unfold fillna. rewrite in_map_iff. intros [x [<- _]].
  destruct x; reflexivity.
Qed.

Lemma eqb_zero (x : float) :
  eqb x (of_Z 0) = true <-> exists s, x = S754_zero s.
Proof.
  split.
  - destruct x as [s|s| |s m e]; cbn; intros H;
      try discriminate H; try (destruct s; discriminate H). eauto.
  - intros [s ->]. reflexivity.
Qed.

Lemma with_features_pct_In (rows : list (Reading * float)) (xs ps : list float)
      (e : Enriched) :
  In e (with_features rows xs ps) -> In (kw_pct_change e) ps.
Proof.
  intros H. apply In_nth_error in H. destruct H as [k Hk].
  apply with_features_nth in Hk. destruct Hk as [_ [_ Hp]].
  eapply nth_error_In. exact Hp.
Qed.

(** The change of the first row of a meter, and of a row after another. *)
Lemma pct_first (df : list Reading) (m : Z) (e : Enriched) :
  nth_error (meter_samples m (_engineer_features df)) 0 = Some e ->
  kw_pct_change e = zero.
Proof.
  rewrite meter_view_ordered. intros H.
  apply with_features_nth in H. destruct H as [_ [_ Hp]].
  apply fillna_nth in Hp. destruct Hp as [x [Hx ->]].
  apply pct_change_first in Hx. subst x. reflexivity.
Qed.

Lemma pct_after (df : list Reading) (m : Z) (k : nat) (a b : Enriched) :
  nth_error (meter_samples m (_engineer_features df)) k = Some a ->
  nth_error (meter_samples m (_engineer_features df)) (S k) = Some b ->
  kw_pct_change b
  = (let x := sub (div (power_kw (reading b)) (power_kw (reading a))) one in
     if isna x then zero else x).
Proof.
  intros Ha Hb. rewrite meter_view_ordered in Ha, Hb.
  pose proof (sample_power _ _ _ Ha) as Pa.
  pose proof (sample_power _ _ _ Hb) as Pb.
  apply with_features_nth in Hb. destruct Hb as [_ [_ Hp]].
  apply fillna_nth in Hp. destruct Hp as [x [Hx ->]].
  rewrite pct_change_from in Hx.
  apply (pct_from_next _ _ _ _ _ _ Pa Pb) in Hx. subst x. reflexivity.
Qed.


(** Every meter of the input has a first row in the output. *)
Lemma meter_samples_nonempty (df : list Reading) (r : Reading) :
  In r df -> meter_samples (meter_id r) (_engineer_features df) <> [].
Proof.
  intros Hr H. apply (f_equal (map reading)) in H.
  rewrite meter_samples_readings in H. cbn [map] in H.
  assert (Hin : In r (time_ordered (meter_id r) df))
    by (apply time_ordered_In; split; [exact Hr|reflexivity]).
  rewrite H in Hin. exact Hin.
Qed.

(** C8. Every meter of the input has a first sample in the output: a
    reading of the meter that no reading of the meter is before.  Its
    [kw_pct_change] is 0: the number zero, not a missing value. *)
Theorem first_sample_pct_change (df : list Reading) (m : Z) (e : Enriched) :
  (forall r, In r df -> meter_samples (meter_id r) (_engineer_features df) <> []) /\
  (nth_error (meter_samples m (_engineer_features df)) 0 = Some e ->
   In (reading e) df /\ meter_id (reading e) = m /\
   (forall r, In r df -> meter_id r = m -> not_after (reading e) r = true) /\
   kw_pct_change e = zero /\ notna (kw_pct_change e) = true).
Proof.
  split; [intros r; apply meter_samples_nonempty|]. intros H.
  destruct (meter_sample_In _ _ _ _ H) as [Hin Hm].
  split; [exact Hin|]. split; [exact Hm|].
  split; [apply (meter_first_earliest m df e H)|].
  rewrite (pct_first df m e H). split; reflexivity.
Qed.

Lemma first_sample_pct_change_witness :
  In (reading sample_first) sample_five /\
  meter_id (reading sample_first) = 1 /\
  (forall r, In r sample_five -> meter_id r = 1 ->
             not_after (reading sample_first) r = true) /\
  kw_pct_change sample_first = zero /\ notna (kw_pct_change sample_first) = true.
Proof.
  apply (proj2 (first_sample_pct_change sample_five 1 sample_first)).
  vm_compute. reflexivity.
Defined.




(** ** The reason of a row *)

(** A sample without power has a change of 0 or of -1: no other change
    comes out of the Feature Engineer for it. *)
Lemma zero_power_pct (df : list Reading) (e : Enriched) :
  In e (_engineer_features df) ->
  eqb (power_kw (reading e)) (of_Z 0) = true ->
  kw_pct_change e = zero \/ kw_pct_change e = opp one.
Proof.
  intros He Hz.
  assert (Hm : In e (meter_samples (meter_id (reading e)) (_engineer_features df)))
    by (apply filter_In; split; [exact He|apply Z.eqb_refl]).
  apply In_nth_error in Hm. destruct Hm as [[|k] Hk].
  - left. exact (pct_first df _ e Hk).
  - destruct (nth_error (meter_samples (meter_id (reading e))
                           (_engineer_features df)) k) as [a|] eqn:Ha.
    + rewrite (pct_after df _ k a e Ha Hk).
      apply eqb_zero in Hz. destruct Hz as [s ->].
      destruct (power_kw (reading a)) as [sa|sa| |sa ma ea];
        destruct s; try destruct sa;
        first [left; reflexivity | right; reflexivity].
    + exfalso. apply nth_error_None in Ha.
      assert (Hlt : (S k < List.length (meter_samples (meter_id (reading e))
                                          (_engineer_features df)))%nat)
        by (apply nth_error_Some; rewrite Hk; discriminate).
      lia.
Qed.

(** C7. The reason of a row is the comma-joined list of the names of the
    rules that trigger on it, in the order of the table
    ([voltage_out_of_range], [current_out_of_range], [sudden_spike],
    [sudden_drop], [zero_power_but_active_line]), and null when none
    does.  A row with voltage 300, current 60 and a change of 2.0 has the
    reason ["voltage_out_of_range,current_out_of_range,sudden_spike"],
    exactly in that order: on every row whose power is not zero, and so on
    every such row of a frame that comes out of the Feature Engineer,
    where a row without power has a change of 0 or -1. *)
Theorem reason_in_table_order (df : list Enriched) (t : Tagged) :
  In t (_apply_rules df) ->
  map fst rule_table
  = ["voltage_out_of_range"; "current_out_of_range"; "sudden_spike";
     "sudden_drop"; "zero_power_but_active_line"]%string /\
  anomaly_reason t
  = match triggered_names (enriched t) with
    | [] => None
    | names => Some (String.concat "," names)
    end /\
  (voltage (reading (enriched t)) = of_Z 300 ->
   current (reading (enriched t)) = of_Z 60 ->
   kw_pct_change (enriched t) = decimal 20 1 ->
   eqb (power_kw (reading (enriched t))) (of_Z 0) = false \/
   (exists frame, df = _engineer_features frame) ->
   anomaly_reason t
   = Some "voltage_out_of_range,current_out_of_range,sudden_spike"%string).
Proof.
  rewrite apply_rules_rowwise. intros H. apply in_map_iff in H.
  destruct H as [e [<- He]]. cbn [enriched anomaly_reason].
  split; [reflexivity|].
  unfold reason_of. rewrite row_reasons_table. split; [reflexivity|].
  intros Hv Hc Hp Hsrc.
  assert (Hz : eqb (power_kw (reading e)) (of_Z 0) = false).
  { destruct Hsrc as [Hz|[frame ->]]; [exact Hz|].
    destruct (eqb (power_kw (reading e)) (of_Z 0)) eqn:Ez; [|reflexivity].
    destruct (zero_power_pct frame e He Ez) as [H0|H0];
      rewrite Hp in H0; vm_compute in H0; discriminate H0. }
  unfold triggered_names, rule_table. cbn [filter map fst snd].
  unfold voltage_rule, current_rule, spike_rule, drop_rule, zero_power_rule.
  rewrite Hv, Hc, Hp, Hz. reflexivity.
Qed.

Lemma reason_in_table_order_witness :
  reason_of sample_overload
  = Some "voltage_out_of_range,current_out_of_range,sudden_spike"%string /\
  In sample_tripled_second (_engineer_features sample_tripled) /\
  reason_of sample_tripled_second
  = Some "voltage_out_of_range,current_out_of_range,sudden_spike"%string.
Proof.
  split; [|split].
  - apply (proj2 (proj2 (reason_in_table_order [sample_overload]
                  (mkTagged sample_overload (reason_of sample_overload) true)
                  (or_introl eq_refl))));
      try reflexivity. left. reflexivity.
  - vm_compute. right. left. reflexivity.
  - apply (proj2 (proj2 (reason_in_table_order (_engineer_features sample_tripled)
                  (mkTagged sample_tripled_second
                            (reason_of sample_tripled_second) true)
                  ltac:(vm_compute; right; left; reflexivity))));
      try reflexivity. right. exists sample_tripled. reflexivity.
Defined.

(** ** The scenarios of the specification *)

(** A nominal row: no rule triggers. *)
Example scenario_nominal :
  _apply_rules [row_of (of_Z 190) (of_Z 10) (of_Z 5) zero]
  = [mkTagged (row_of (of_Z 190) (of_Z 10) (of_Z 5) zero) None false].
Proof. reflexivity. Qed.

(** A voltage of 170 triggers the voltage rule alone. *)
Example scenario_low_voltage :
  map (fun t => (anomaly_reason t, anomaly_flag t))
      (_apply_rules [row_of (of_Z 170) (of_Z 10) (of_Z 5) zero])
  = [(Some "voltage_out_of_range"%string, true)].
Proof. reflexivity. Qed.

(** A power that falls from 10 to 0 is a change of -1.0, a sudden drop. *)
Example scenario_drop :
  map kw_pct_change
      (_engineer_features [reading_at 1 0 (of_Z 10); reading_at 1 1 (of_Z 0)])
  = [zero; opp (of_Z 1)] /\
  drop_rule (row_of (of_Z 230) (of_Z 4) (of_Z 0) (opp (of_Z 1))) = true.
Proof. split; vm_compute; reflexivity. Qed.

(** No power on a line with voltage and current triggers the fifth rule
    alone. *)
Example scenario_dead_line :
  map anomaly_reason
      (_apply_rules [row_of (of_Z 200) (decimal 5 1) (of_Z 0) zero])
  = [Some "zero_power_but_active_line"%string].
Proof. reflexivity. Qed.

(** * Further properties of the code *)

(** ** The Value Sanitizer as a filter and a clamp *)

Lemma clean_values_cons (r : Reading) (df : list Reading) :
  _clean_values (r :: df) = _clean_values [r] ++ _clean_values df.
Proof.
  unfold _clean_values, dropna, loc_set. cbn [map filter app].
  match goal with
  | |- context [forallb ?f ?l] => destruct (forallb f l)
  end; reflexivity.
Qed.

Lemma clean_values_one (r : Reading) :
  _clean_values [r] = if core_ok r then [clamp_row r] else [].
Proof.
  destruct r as [t m g v c p f tc].
  unfold _clean_values, dropna, loc_set, core_ok, clamp_row, clamp_factor, notna.
  cbn [map filter forallb]. row_fields.
  destruct (ltb v (of_Z 50)) eqn:Ev; row_fields;
    destruct (ltb c (of_Z 0)) eqn:Ec; row_fields;
    destruct (ltb p (of_Z 0)) eqn:Ep; row_fields;
    destruct (gtb f (decimal 10 1)) eqn:Ef; row_fields;
    try change (ltb (decimal 10 1) (decimal 0 1)) with false; row_fields;
    destruct (ltb f (decimal 0 1)) eqn:Ef'; row_fields;
    cbn [isna negb andb];
    rewrite ?andb_false_r; cbn [andb];
    destruct (isna v), (isna c), (isna p); reflexivity.
Qed.

Lemma clean_values_as_filter (df : list Reading) :
  _clean_values df = map clamp_row (filter core_ok df).
Proof.
  induction df as [|r t IH]; [reflexivity|].
  rewrite clean_values_cons, clean_values_one, IH. cbn [filter].
  destruct (core_ok r); reflexivity.
Qed.

(** X1. [_clean_values] is a filter followed by a clamp: it keeps, in
    input order, exactly the rows whose voltage, current and power are
    present and within bounds, and changes nothing in a kept row but its
    power factor; it never returns more rows than it was given. *)
Theorem clean_values_filter_clamp (df : list Reading) :
  _clean_values df = map clamp_row (filter core_ok df) /\
  (List.length (_clean_values df) <= List.length df)%nat.
Proof.
  rewrite clean_values_as_filter, length_map.
  split; [reflexivity|apply filter_length_le].
Qed.

Lemma clamp_factor_idempotent (f : float) :
  clamp_factor (clamp_factor f) = clamp_factor f.
Proof.
  unfold clamp_factor.
  destruct (gtb f (decimal 10 1)) eqn:E1; [reflexivity|].
  destruct (ltb f (decimal 0 1)) eqn:E2; [reflexivity|].
  rewrite E1, E2. reflexivity.
Qed.

Lemma clamp_row_idempotent (r : Reading) : clamp_row (clamp_row r) = clamp_row r.
Proof.
  destruct r as [t m g v c p f tc]. unfold clamp_row. row_fields.
  rewrite clamp_factor_idempotent. reflexivity.
Qed.

Lemma core_ok_clamp_row (r : Reading) : core_ok (clamp_row r) = core_ok r.
Proof. destruct r; reflexivity. Qed.

(** X2. Sanitising a sanitised frame changes nothing. *)
Theorem clean_values_idempotent (df : list Reading) :
  _clean_values (_clean_values df) = _clean_values df.
Proof.
  rewrite !clean_values_as_filter.
  induction df as [|r t IH]; [reflexivity|].
  cbn [filter]. destruct (core_ok r) eqn:E; [|exact IH].
  cbn [map filter]. rewrite core_ok_clamp_row, E. cbn [map].
  rewrite clamp_row_idempotent, IH. reflexivity.
Qed.

(** ** The Type Normalizer on identifiers and numbers *)

Lemma typed_rows_columns (df : list RawReading) (ts : list datetime) (ids : list Z) :
  List.length ts = List.length df -> List.length ids = List.length df ->
  map timestamp (typed_rows df ts ids) = ts /\
  map meter_id (typed_rows df ts ids) = ids /\
  map region (typed_rows df ts ids) = map raw_region df /\
  map voltage (typed_rows df ts ids)
  = map (fun r => to_numeric_coerce (raw_voltage r)) df /\
  map current (typed_rows df ts ids)
  = map (fun r => to_numeric_coerce (raw_current r)) df /\
  map power_kw (typed_rows df ts ids)
  = map (fun r => to_numeric_coerce (raw_power_kw r)) df /\
  map power_factor (typed_rows df ts ids)
  = map (fun r => to_numeric_coerce (raw_power_factor r)) df /\
  map temperature_c (typed_rows df ts ids)
  = map (fun r => to_numeric_coerce (raw_temperature_c r)) df.
Proof.
  revert ts ids. induction df as [|r t IH]; intros [|x ts] [|i ids] Ht Hi;
    try discriminate; [repeat split|].
  cbn in Ht, Hi. injection Ht as Ht. injection Hi as Hi.
  destruct (IH ts ids Ht Hi) as [H1 [H2 [H3 [H4 [H5 [H6 [H7 H8]]]]]]].
  cbn [typed_rows map timestamp meter_id region voltage current power_kw
       power_factor temperature_c].
  rewrite H1, H2, H3, H4, H5, H6, H7, H8. repeat split.
Qed.

(** X3. When [_clean_types] returns, it returns one record per input
    record, in order; every timestamp cell of the input read as a point in
    time or was empty, all with one offset, and no meter identifier was
    garbled; and each numeric field is the number its cell denotes, or NaN
    for a text that denotes none: a garbled number never raises and never
    drops a row. *)
Theorem clean_types_returns (df : list RawReading) (out : list Reading) :
  _clean_types df = Ok out ->
  let fmt := column_format (map raw_timestamp df) in
  List.length out = List.length df /\
  Forall (fun r => cell_converts fmt (raw_timestamp r) = true /\
                   garbled_id (raw_meter_id r) = false) df /\
  one_offset (map raw_timestamp df) = true /\
  map timestamp out = map (fun r => cell_datetime fmt (raw_timestamp r)) df /\
  map (fun r => IdValue (meter_id r)) out = map raw_meter_id df /\
  map region out = map raw_region df /\
  map voltage out = map (fun r => to_numeric_coerce (raw_voltage r)) df /\
  map current out = map (fun r => to_numeric_coerce (raw_current r)) df /\
  map power_kw out = map (fun r => to_numeric_coerce (raw_power_kw r)) df /\
  map power_factor out
  = map (fun r => to_numeric_coerce (raw_power_factor r)) df /\
  map temperature_c out
  = map (fun r => to_numeric_coerce (raw_temperature_c r)) df.
Proof.
  intros H fmt. unfold _clean_types, astype_int in H.
  destruct (to_datetime (map raw_timestamp df)) as [ts|e] eqn:Et;
    cbn [bind] in H; [|discriminate H].
  destruct (mapM astype_int_cell (map raw_meter_id df)) as [ids|e] eqn:Ei;
    cbn [bind] in H; [|discriminate H].
  injection H as <-.
  apply to_datetime_inv in Et. destruct Et as [Hconv Hts]. fold fmt in Hts.
  apply mapM_inv in Ei.
  assert (Lt : List.length ts = List.length df)
    by (rewrite Hts, !length_map; reflexivity).
  pose proof (Forall2_length Ei) as Li. rewrite length_map in Li.
  destruct (typed_rows_columns df ts ids Lt (eq_sym Li))
    as [H1 [H2 [H3 [H4 [H5 [H6 [H7 H8]]]]]]].
  unfold timestamps_convert in Hconv. apply andb_true_iff in Hconv.
  destruct Hconv as [Hcells Hone].
  assert (Fts : Forall (fun r => cell_converts fmt (raw_timestamp r) = true) df).
  { unfold cells_convert in Hcells. fold fmt in Hcells.
    rewrite forallb_forall in Hcells. apply Forall_forall. intros r Hr.
    apply Hcells, in_map, Hr. }
  assert (Hids : map IdValue ids = map raw_meter_id df
                 /\ Forall (fun r => garbled_id (raw_meter_id r) = false) df).
  { clear - Ei. revert ids Ei. induction df as [|r t IH]; intros ids Ei;
      inversion Ei as [|? ? ? ? Hc Ht]; subst; [split; [reflexivity|constructor]|].
    destruct (IH _ Ht) as [Hm Hf].
    destruct (raw_meter_id r) eqn:E; cbn in Hc; try discriminate Hc;
      injection Hc as <-. cbn [map]. rewrite Hm, E.
    split; [reflexivity|constructor; [rewrite E; reflexivity|exact Hf]]. }
  destruct Hids as [Hids Fids].
  split; [rewrite <- (length_map timestamp), H1; exact Lt|].
  split.
  { rewrite Forall_forall in *. intros r Hr. split; [apply Fts|apply Fids]; exact Hr. }
  split; [exact Hone|].
  split; [rewrite H1, Hts, map_map; reflexivity|].
  split; [rewrite <- (map_map meter_id IdValue), H2; exact Hids|].
  repeat split; assumption.
Qed.

Lemma clean_types_returns_witness :
  _clean_types sample_raw = Ok sample_typed /\
  map power_kw sample_typed = [of_Z 1; nan].
Proof.
  split; [reflexivity|].
  pose proof (clean_types_returns sample_raw sample_typed eq_refl)
    as [_ [_ [_ [_ [_ [_ [_ [_ [H _]]]]]]]]].
  exact H.
Defined.

(** X4. The timestamp column is converted before the meter identifiers.
    When it converts and a meter identifier is garbled, [_clean_types]
    raises the conversion error of a garbled identifier: unlike a number,
    an identifier that does not convert is fatal.  When the timestamp
    column does not convert, the error is the date parser's, whatever the
    identifiers are. *)
Theorem clean_types_bad_id (df : list RawReading) (r : RawReading) :
  In r df -> garbled_id (raw_meter_id r) = true ->
  (timestamps_convert (map raw_timestamp df) = true ->
   exists s, In (IdGarbled s) (map raw_meter_id df) /\
             _clean_types df = Raise (ValueError (InvalidLiteral s))) /\
  (timestamps_convert (map raw_timestamp df) = false ->
   exists e, _clean_types df = Raise e /\
             to_datetime (map raw_timestamp df) = Raise e /\
             forall s, e <> ValueError (InvalidLiteral s)).
Proof.
  intros Hin Hg. split; intros Hts.
  - unfold _clean_types, astype_int.
    rewrite (to_datetime_returns _ Hts). cbn [bind].
    destruct (raw_meter_id r) as [z|s] eqn:E; [discriminate Hg|].
    destruct (mapM_raise astype_int_cell (map raw_meter_id df) (IdGarbled s)
                         (ValueError (InvalidLiteral s)))
      as [c [e' [Hc [Hf He']]]].
    + rewrite <- E. apply in_map. exact Hin.
    + reflexivity.
    + rewrite He'. cbn [bind]. destruct c as [z|s']; [discriminate Hf|].
      injection Hf as <-. exists s'. split; [exact Hc|reflexivity].
  - destruct (to_datetime (map raw_timestamp df)) as [ts|e] eqn:Et.
    + apply to_datetime_inv in Et. destruct Et as [Et _]. congruence.
    + exists e. split; [unfold _clean_types; rewrite Et; reflexivity|].
      split; [reflexivity|].
      apply to_datetime_raise_inv in Et. destruct Et as [_ [->|[v [_ ->]]]];
        intros s; [discriminate|].
      unfold time_error. destruct (column_format _); discriminate.
Qed.

Lemma clean_types_bad_id_witness :
  (exists s, In (IdGarbled s) (map raw_meter_id sample_bad_id) /\
     _clean_types sample_bad_id = Raise (ValueError (InvalidLiteral s))) /\
  (exists e, _clean_types sample_bad_layout = Raise e /\
     to_datetime (map raw_timestamp sample_bad_layout) = Raise e /\
     forall s, e <> ValueError (InvalidLiteral s)).
Proof.
  split.
  - apply (proj1 (clean_types_bad_id sample_bad_id
             (mkRaw TsMissing (IdGarbled "seven") "South" (NumValue (of_Z 230))
                    (NumValue (of_Z 4)) (NumValue (of_Z 1)) (NumValue (decimal 9 1))
                    (NumValue (of_Z 20)))
             (or_intror (or_introl eq_refl)) eq_refl)).
    reflexivity.
  - apply (proj2 (clean_types_bad_id sample_bad_layout
             (mkRaw (day_first_text "01/01/2024 00:30" 1704069000000000000)
                    (IdGarbled "seven") "South" (NumValue (of_Z 230))
                    (NumValue (of_Z 4)) (NumValue (of_Z 1)) (NumValue (decimal 9 1))
                    (NumValue (of_Z 20)))
             (or_intror (or_introl eq_refl)) eq_refl)).
    reflexivity.
Defined.

(** ** The Feature Engineer: order and cardinality *)

Lemma engineer_features_readings (df : list Reading) :
  map reading (_engineer_features df) = sort_values reading_leb df.
Proof.
  rewrite engineer_features_unfold, features_readings, sort_attach_hour, map_map.
  cbn [attach_hour fst]. apply map_id.
Qed.

(** X5. The Feature Engineer returns the records it was given, each
    once, none dropped and none invented, in ascending order of meter
    and, within a meter, of timestamp, the missing timestamps last. *)
Theorem engineer_features_sorted (df : list Reading) :
  Permutation (map reading (_engineer_features df)) df /\
  List.length (_engineer_features df) = List.length df /\
  ordered reading_leb (map reading (_engineer_features df)).
Proof.
  rewrite engineer_features_readings. split; [|split].
  - apply sort_values_Permutation.
  - rewrite <- (length_map reading), engineer_features_readings.
    apply Permutation_length, sort_values_Permutation.
  - apply sort_values_ordered; [apply reading_leb_total|apply reading_leb_trans].
Qed.

(** ** The Feature Engineer: input order *)

Lemma lex_leb_antisym (a b : Z * instant) :
  lex_leb a b = true -> lex_leb b a = true -> a = b.
Proof.
  destruct a as [m1 [t1|]], b as [m2 [t2|]]; unfold lex_leb; cbn;
    rewrite !orb_true_iff, !andb_true_iff, ?Z.ltb_lt, ?Z.eqb_eq, ?Z.leb_le;
    intros H1 H2;
    try (assert (m1 = m2) as -> by lia);
    try (assert (t1 = t2) as -> by lia); try reflexivity;
    intuition (try lia; try congruence).
Qed.

Lemma NoDup_map_injective {A B} (f : A -> B) (l : list A) (a b : A) :
  NoDup (map f l) -> In a l -> In b l -> f a = f b -> a = b.
Proof.
  induction l as [|x t IH]; cbn; [intros _ []|].
  intros Hnd Ha Hb Hf. inversion Hnd as [|? ? Hx Ht]; subst.
  destruct Ha as [->|Ha], Hb as [->|Hb]; try reflexivity.
  - exfalso. apply Hx. rewrite Hf. apply in_map. exact Hb.
  - exfalso. apply Hx. rewrite <- Hf. apply in_map. exact Ha.
  - apply IH; assumption.
Qed.

(** Two ordered frames with the same rows, no two of which tie, are
    equal. *)
Lemma ordered_unique {R} (le : R -> R -> bool) (l1 l2 : list R) :
  (forall a b, In a l1 -> In b l1 -> le a b = true -> le b a = true -> a = b) ->
  ordered le l1 -> ordered le l2 -> Permutation l1 l2 -> l1 = l2.
Proof.
  revert l2. induction l1 as [|a t1 IH]; intros l2 Hanti H1 H2 Hp.
  - apply Permutation_nil in Hp. subst. reflexivity.
  - destruct l2 as [|b t2];
      [apply Permutation_sym, Permutation_nil in Hp; discriminate Hp|].
    inversion H1 as [|? ? Ht1 Ha]; subst. inversion H2 as [|? ? Ht2 Hb]; subst.
    assert (Hab : a = b).
    { assert (Ina : In a (b :: t2))
        by (eapply Permutation_in; [exact Hp|left; reflexivity]).
      assert (Inb : In b (a :: t1))
        by (eapply Permutation_in; [apply Permutation_sym; exact Hp|left; reflexivity]).
      destruct Ina as [->|Ina]; [reflexivity|].
      destruct Inb as [->|Inb]; [reflexivity|].
      rewrite Forall_forall in Ha, Hb.
      apply Hanti; [left; reflexivity|right; exact Inb|apply Ha; exact Inb
                   |apply Hb; exact Ina]. }
    subst b. f_equal. apply IH.
    + intros x y Hx Hy. apply Hanti; right; assumption.
    + exact Ht1.
    + exact Ht2.
    + eapply Permutation_cons_inv. exact Hp.
Qed.

(** X6. When no two records share a meter and a timestamp, the order of
    the records in the input frame does not matter: two frames with the
    same records give the same output. *)
Theorem engineer_features_input_order (df1 df2 : list Reading) :
  Permutation df1 df2 -> NoDup (map sort_key df1) ->
  _engineer_features df1 = _engineer_features df2.
Proof.
  intros Hp Hnd. rewrite !engineer_features_unfold, !sort_attach_hour.
  do 2 f_equal.
  apply (ordered_unique reading_leb).
  - intros a b Ha Hb Hab Hba.
    apply (NoDup_map_injective sort_key (sort_values reading_leb df1)).
    + eapply Permutation_NoDup; [|exact Hnd].
      apply Permutation_map, Permutation_sym, sort_values_Permutation.
    + exact Ha.
    + exact Hb.
    + apply lex_leb_antisym; assumption.
  - apply sort_values_ordered; [apply reading_leb_total|apply reading_leb_trans].
  - apply sort_values_ordered; [apply reading_leb_total|apply reading_leb_trans].
  - rewrite sort_values_Permutation, Hp. symmetry. apply sort_values_Permutation.
Qed.

Lemma engineer_features_input_order_witness :
  _engineer_features sample_shuffled_a = _engineer_features sample_shuffled_b.
Proof.
  apply engineer_features_input_order.
  - unfold sample_shuffled_a, sample_shuffled_b.
    eapply perm_trans; [apply perm_skip, perm_swap|apply perm_swap].
  - repeat constructor; cbn; intuition discriminate.
Defined.

(** ** The hour of the day *)

Lemma hour_minute_table :
  forallb (fun h => forallb (fun m => hour_in_day (hour_minute (Z.of_nat h) (Z.of_nat m)))
                            (seq 0 60))
          (seq 0 24) = true.
Proof. vm_compute. reflexivity. Qed.

Lemma hour_minute_range (h m : Z) :
  0 <= h < 24 -> 0 <= m < 60 -> hour_in_day (hour_minute h m) = true.
Proof.
  intros Hh Hm. pose proof hour_minute_table as T.
  rewrite forallb_forall in T. specialize (T (Z.to_nat h)).
  rewrite forallb_forall in T.
  rewrite <- (Z2Nat.id h), <- (Z2Nat.id m) by lia.
  apply T; apply in_seq; lia.
Qed.

Lemma hour_of_wall_clock (t : Timestamp) :
  hour_of (Some t)
  = hour_minute ((wall_clock t / ns_per_hour) mod 24)
                ((wall_clock t / ns_per_minute) mod 60).
Proof. reflexivity. Qed.

Lemma engineer_features_hour (df : list Reading) (e : Enriched) :
  In e (_engineer_features df) -> hour_of_day e = hour_of (timestamp (reading e)).
Proof.
  intros H. apply In_nth_error in H. destruct H as [k Hk].
  rewrite engineer_features_unfold in Hk. unfold features in Hk.
  apply with_features_nth in Hk. destruct Hk as [Hr _].
  apply nth_error_In in Hr. rewrite sort_attach_hour in Hr.
  apply in_map_iff in Hr. destruct Hr as [r [Er _]].
  unfold attach_hour in Er. injection Er as <- <-. reflexivity.
Qed.

(** X7. In the output of the Feature Engineer the hour of the day of a
    record with a timestamp is a number from 0 inclusive to 24 exclusive,
    computed from the hour and the minute of the wall clock of the
    timestamp alone: the instant moved by its offset from UTC, the instant
    itself for a timestamp without a time zone.  The hour of the day of a
    record without a timestamp is missing. *)
Theorem hour_of_day_range (df : list Reading) (e : Enriched) :
  In e (_engineer_features df) ->
  match timestamp (reading e) with
  | Some t =>
      hour_of_day e
      = hour_minute (((utc t + utcoffset t) / ns_per_hour) mod 24)
                    (((utc t + utcoffset t) / ns_per_minute) mod 60) /\
      hour_in_day (hour_of_day e) = true
  | None => isna (hour_of_day e) = true
  end.
Proof.
  intros H. rewrite (engineer_features_hour df e H).
  destruct (timestamp (reading e)) as [t|]; [|reflexivity].
  rewrite hour_of_wall_clock. split; [reflexivity|].
  apply hour_minute_range; apply Z.mod_pos_bound; reflexivity.
Qed.

Lemma hour_of_day_range_witness :
  (hour_of_day sample_fifth = hour_minute 1 0 /\
   hour_in_day (hour_of_day sample_fifth) = true) /\
  (hour_of_day sample_ahead_row = hour_minute 5 45 /\
   hour_in_day (hour_of_day sample_ahead_row) = true).
Proof.
  split.
  - apply (hour_of_day_range sample_five sample_fifth).
    vm_compute. do 4 right. left. reflexivity.
  - apply (hour_of_day_range sample_ahead sample_ahead_row).
    vm_compute. left. reflexivity.
Defined.

(** ** The percent change under the rules *)

Lemma apply_rules_flag (df : list Enriched) (t : Tagged) :
  In t (_apply_rules df) -> anomaly_flag t = any_rule (enriched t).
Proof.
  rewrite apply_rules_rowwise, in_map_iff. intros [e [<- _]].
  apply flag_any_rule.
Qed.

(** X8. When the power of a meter falls to 0 from a power that is not 0,
    the change of the sample is exactly -1.0, and the rule engine marks
    the sample as a sudden drop and not as a spike. *)
Theorem outage_is_sudden_drop (df : list Reading) (m : Z) (k : nat)
        (a b : Enriched) :
  nth_error (meter_samples m (_engineer_features df)) k = Some a ->
  nth_error (meter_samples m (_engineer_features df)) (S k) = Some b ->
  notna (power_kw (reading a)) = true ->
  eqb (power_kw (reading a)) (of_Z 0) = false ->
  eqb (power_kw (reading b)) (of_Z 0) = true ->
  kw_pct_change b = opp (of_Z 1) /\
  drop_rule b = true /\ spike_rule b = false /\
  (forall t, In t (_apply_rules (_engineer_features df)) -> enriched t = b ->
             anomaly_flag t = true).
Proof.
  intros Ha Hb Na Hnz Hz.
  assert (Hp : kw_pct_change b = opp (of_Z 1)).
  { rewrite (pct_after df m k a b Ha Hb).
    apply eqb_zero in Hz. destruct Hz as [s' ->].
    destruct (power_kw (reading a)) as [s|s| |s mm ee];
      try discriminate Na; try (destruct s; discriminate Hnz);
      destruct s, s'; reflexivity. }
  assert (Hd : drop_rule b = true) by (unfold drop_rule; rewrite Hp; reflexivity).
  split; [exact Hp|]. split; [exact Hd|].
  split; [unfold spike_rule; rewrite Hp; reflexivity|].
  intros t Ht <-. rewrite (apply_rules_flag _ _ Ht).
  unfold any_rule, rule_table. cbn [existsb snd]. rewrite Hd.
  rewrite !orb_true_r. reflexivity.
Qed.

Lemma outage_is_sudden_drop_witness :
  kw_pct_change sample_outage_second = opp (of_Z 1) /\
  drop_rule sample_outage_second = true /\
  spike_rule sample_outage_second = false /\
  (forall t, In t (_apply_rules (_engineer_features sample_outage)) ->
             enriched t = sample_outage_second -> anomaly_flag t = true).
Proof.
  apply (outage_is_sudden_drop sample_outage 1 0
           sample_outage_first sample_outage_second);
    vm_compute; reflexivity.
Defined.

(** X9. When a meter has a power of 0 and its next sample has a power
    that is present and not 0, the change of that sample is an infinity and
    the rule engine flags it, as a sudden spike or as a sudden drop: a
    meter that comes back from 0 always raises an anomaly. *)
Theorem restart_is_flagged (df : list Reading) (m : Z) (k : nat)
        (a b : Enriched) :
  nth_error (meter_samples m (_engineer_features df)) k = Some a ->
  nth_error (meter_samples m (_engineer_features df)) (S k) = Some b ->
  eqb (power_kw (reading a)) (of_Z 0) = true ->
  notna (power_kw (reading b)) = true ->
  eqb (power_kw (reading b)) (of_Z 0) = false ->
  is_inf (kw_pct_change b) = true /\
  spike_rule b || drop_rule b = true /\
  (forall t, In t (_apply_rules (_engineer_features df)) -> enriched t = b ->
             anomaly_flag t = true).
Proof.
  intros Ha Hb Hz Nb Hnz.
  apply eqb_zero in Hz. destruct Hz as [s Hs].
  assert (Hp : exists s', kw_pct_change b = S754_infinity s').
  { rewrite (pct_after df m k a b Ha Hb) by (rewrite Hs; reflexivity).
    rewrite Hs.
    destruct (power_kw (reading b)) as [s'|s'| |s' mm ee];
      try discriminate Nb; try (destruct s'; discriminate Hnz);
      destruct s, s'; cbn; eauto. }
  destruct Hp as [s' Hp].
  assert (Hr : spike_rule b || drop_rule b = true).
  { unfold spike_rule, drop_rule. rewrite Hp. destruct s'; reflexivity. }
  split; [rewrite Hp; reflexivity|]. split; [exact Hr|].
  intros t Ht <-. rewrite (apply_rules_flag _ _ Ht).
  unfold any_rule, rule_table. cbn [existsb snd].
  apply orb_true_iff in Hr. destruct Hr as [-> | ->];
    rewrite ?orb_true_r; reflexivity.
Qed.

Lemma restart_is_flagged_witness :
  is_inf (kw_pct_change sample_restart_second) = true /\
  spike_rule sample_restart_second || drop_rule sample_restart_second = true /\
  (forall t, In t (_apply_rules (_engineer_features sample_restart)) ->
             enriched t = sample_restart_second -> anomaly_flag t = true).
Proof.
  apply (restart_is_flagged sample_restart 1 0
           sample_restart_first sample_restart_second);
    vm_compute; reflexivity.
Defined.

(** X10. The first sample of a meter triggers neither the spike rule nor
    the drop rule, whatever its power is. *)
Theorem first_sample_is_quiet (df : list Reading) (m : Z) (e : Enriched) :
  nth_error (meter_samples m (_engineer_features df)) 0 = Some e ->
  spike_rule e = false /\ drop_rule e = false.
Proof.
  rewrite meter_view_ordered. intros H.
  apply with_features_nth in H. destruct H as [_ [_ Hp]].
  apply fillna_nth in Hp. destruct Hp as [x [Hx Hk]].
  apply pct_change_first in Hx. subst x.
  unfold spike_rule, drop_rule. rewrite Hk. split; reflexivity.
Qed.

Lemma first_sample_is_quiet_witness :
  spike_rule sample_first = false /\ drop_rule sample_first = false.
Proof.
  apply (first_sample_is_quiet sample_five 1 sample_first).
  vm_compute. reflexivity.
Defined.

(** ** The rules on their thresholds *)

Lemma leb_not_ltb (x y : float) : leb x y = true -> ltb y x = false.
Proof.
  unfold leb, ltb, SFleb, SFltb. rewrite (compare_antisym x y).
  destruct (SFcompare x y) as [[| |]|]; cbn; congruence.
Qed.

(** X11. The spike rule and the drop rule never trigger on the same row,
    so a reason names four rules at most. *)
Theorem spike_and_drop_exclusive (row : Enriched) :
  spike_rule row && drop_rule row = false /\
  (List.length (row_reasons row) <= 4)%nat.
Proof.
  assert (H : spike_rule row && drop_rule row = false).
  { unfold spike_rule, drop_rule.
    destruct (kw_pct_change row) as [s|s| |s mm ee]; try reflexivity;
      try (destruct s; reflexivity).
    destruct s; apply andb_false_iff; [left|right]; reflexivity. }
  split; [exact H|].
  unfold row_reasons, append_if.
  destruct (spike_rule row), (drop_rule row); try discriminate H;
    destruct (voltage_rule row), (current_rule row), (zero_power_rule row);
    cbn; lia.
Qed.

(** X12. The thresholds are strict: a row with a voltage from 180 to 250,
    a current from 0 to 50 and a change from -0.8 to 1.5, bounds included,
    and with a power that is not 0 or a current of 0.1 at most, triggers no
    rule. *)
Theorem nominal_row_not_flagged (row : Enriched) :
  leb (of_Z 180) (voltage (reading row)) = true ->
  leb (voltage (reading row)) (of_Z 250) = true ->
  leb (of_Z 0) (current (reading row)) = true ->
  leb (current (reading row)) (of_Z 50) = true ->
  leb (opp (decimal 8 1)) (kw_pct_change row) = true ->
  leb (kw_pct_change row) (decimal 15 1) = true ->
  eqb (power_kw (reading row)) (of_Z 0) = false \/
  leb (current (reading row)) (decimal 1 1) = true ->
  _apply_rules [row] = [mkTagged row None false].
Proof.
  intros V1 V2 C1 C2 P1 P2 Z.
  apply leb_not_ltb in V1, V2, C1, C2, P1, P2.
  assert (Hv : voltage_rule row = false).
  { unfold voltage_rule, gtb. fold ltb. rewrite V1, V2. reflexivity. }
  assert (Hc : current_rule row = false).
  { unfold current_rule, gtb. fold ltb. rewrite C1, C2. reflexivity. }
  assert (Hs : spike_rule row = false).
  { unfold spike_rule, gtb. fold ltb. exact P2. }
  assert (Hd : drop_rule row = false) by exact P1.
  assert (Hz : zero_power_rule row = false).
  { unfold zero_power_rule. destruct Z as [-> | Z]; [reflexivity|].
    apply leb_not_ltb in Z. unfold gtb. fold ltb. rewrite Z. apply andb_false_r. }
  rewrite apply_rules_rowwise. cbn [map].
  unfold reason_of, row_reasons, append_if.
  rewrite Hv, Hc, Hs, Hd, Hz. reflexivity.
Qed.

Lemma nominal_row_not_flagged_witness :
  _apply_rules [sample_on_thresholds] = [mkTagged sample_on_thresholds None false].
Proof.
  apply nominal_row_not_flagged; try reflexivity. left. reflexivity.
Defined.

(** ** The order of binary64 values *)

Ltac compare_cases :=
  repeat match goal with
         | H : context [Z.compare ?a ?b] |- _ =>
             destruct (Z.compare_spec a b); try discriminate H
         | H : context [Pos.compare ?a ?b] |- _ =>
             destruct (Pos.compare_spec a b); try discriminate H
         | |- context [Z.compare ?a ?b] => destruct (Z.compare_spec a b)
         | |- context [Pos.compare ?a ?b] => destruct (Pos.compare_spec a b)
         end.

(** [SFcompare] is transitive. *)
Lemma compare_trans (x y z : float) (c : comparison) :
  SFcompare x y = Some c -> SFcompare y z = Some c -> SFcompare x z = Some c.
Proof.
  destruct x as [sx|sx| |sx mx ex], y as [sy|sy| |sy my ey],
           z as [sz|sz| |sz mz ez]; cbn [SFcompare];
    try discriminate; try (intros _ H; exact H); try (intros H _; exact H);
    try (destruct sx, sy, sz; cbn; congruence).
  fold (Pos.compare mx my) (Pos.compare my mz) (Pos.compare mx mz).
  intros H1 H2. injection H1 as H1. injection H2 as H2. f_equal.
  destruct sx, sy, sz, c; cbn in *; try discriminate;
    compare_cases; subst; cbn in *; try reflexivity; try discriminate; try lia.
Qed.

(** Two values that compare equal compare alike with a third. *)
Lemma compare_eq_l (x y z : float) :
  SFcompare x y = Some Eq -> SFcompare x z = SFcompare y z.
Proof.
  destruct x as [sx|sx| |sx mx ex], y as [sy|sy| |sy my ey],
           z as [sz|sz| |sz mz ez]; cbn [SFcompare];
    try discriminate; try reflexivity;
    try (destruct sx, sy; cbn; congruence);
    try (destruct sx, sy, sz; cbn; congruence).
  fold (Pos.compare mx my) (Pos.compare my mz) (Pos.compare mx mz).
  intros H. injection H as H. f_equal.
  destruct sx, sy, sz; cbn in *; try discriminate;
    compare_cases; subst; cbn in *; try reflexivity; try discriminate; try lia.
Qed.

Lemma ltb_compare (x y : float) : ltb x y = true <-> SFcompare x y = Some Lt.
Proof.
  unfold ltb, SFltb. destruct (SFcompare x y) as [[| |]|]; split; congruence.
Qed.

Lemma ltb_trans (x y z : float) :
  ltb x y = true -> ltb y z = true -> ltb x z = true.
Proof. rewrite !ltb_compare. apply compare_trans. Qed.

Lemma ltb_irrefl (x : float) : ltb x x = false.
Proof.
  unfold ltb, SFltb. pose proof (compare_antisym x x) as H.
  destruct (SFcompare x x) as [[| |]|]; cbn in H; congruence.
Qed.

Lemma ltb_asym (x y : float) : ltb x y = true -> ltb y x = false.
Proof.
  unfold ltb, SFltb. rewrite (compare_antisym x y).
  destruct (SFcompare x y) as [[| |]|]; cbn; congruence.
Qed.

(** What is not above [y] is below what [y] is below. *)
Lemma not_ltb_ltb_trans (x y z : float) :
  notna x = true -> notna y = true ->
  ltb y x = false -> ltb y z = true -> ltb x z = true.
Proof.
  intros Nx Ny Hxy Hyz. rewrite ltb_compare in *.
  pose proof (compare_notna y x Ny Nx) as Hc.
  pose proof (compare_antisym y x) as Ha.
  unfold ltb, SFltb in Hxy.
  destruct (SFcompare y x) as [[| |]|] eqn:E; try congruence; cbn in Ha.
  - rewrite (compare_eq_l x y z Ha). exact Hyz.
  - eapply compare_trans; eassumption.
Qed.

(** ** The latest file *)

(** [max] splits its list at the item it returns: the items before it
    have a strictly smaller key, no item after it has a greater one. *)
Lemma first_max_split {A} (key : A -> float) (rest pre mid : list A) (b : A) :
  Forall (fun x => notna (key x) = true) (pre ++ b :: mid ++ rest) ->
  Forall (fun x => ltb (key x) (key b) = true) pre ->
  Forall (fun x => ltb (key b) (key x) = false) mid ->
  exists pre' post',
    pre ++ b :: mid ++ rest = pre' ++ first_max key b rest :: post' /\
    Forall (fun x => ltb (key x) (key (first_max key b rest)) = true) pre' /\
    Forall (fun x => ltb (key (first_max key b rest)) (key x) = false) post'.
Proof.
  revert pre mid b. induction rest as [|x t IH]; intros pre mid b Hna Hpre Hmid.
  - exists pre, mid. rewrite app_nil_r. repeat split; assumption.
  - cbn [first_max]. unfold gtb. fold (ltb (key b) (key x)).
    assert (Nb : notna (key b) = true).
    { rewrite Forall_forall in Hna. apply Hna, in_or_app. right. left. reflexivity. }
    assert (Nx : notna (key x) = true).
    { rewrite Forall_forall in Hna. apply Hna, in_or_app. right. right.
      apply in_or_app. right. left. reflexivity. }
    destruct (ltb (key b) (key x)) eqn:E.
    + destruct (IH (pre ++ b :: mid) [] x) as [pre' [post' [Heq [H1 H2]]]].
      * rewrite <- app_assoc. cbn [app]. exact Hna.
      * apply Forall_app. split.
        -- revert Hpre. apply Forall_impl. intros y Hy.
           apply (ltb_trans _ (key b)); assumption.
        -- constructor; [exact E|].
           rewrite Forall_forall in *. intros y Hy.
           apply (not_ltb_ltb_trans (key y) (key b) (key x)); auto.
           apply Hna, in_or_app. right. right. apply in_or_app. left. exact Hy.
      * constructor.
      * exists pre', post'. rewrite <- Heq, <- app_assoc. cbn [app].
        repeat split; assumption.
    + destruct (IH pre (mid ++ [x]) b) as [pre' [post' [Heq [H1 H2]]]].
      * rewrite <- app_assoc. cbn [app]. exact Hna.
      * exact Hpre.
      * apply Forall_app. split; [exact Hmid|]. constructor; [exact E|constructor].
      * exists pre', post'. rewrite <- Heq, <- app_assoc. cbn [app].
        repeat split; assumption.
Qed.

(** The running maximum over entries that all have a modification time. *)
Lemma max_from_found (rest : list Path) (best : Path) :
  Forall (fun p => dangling p = false) rest ->
  max_from st_mtime best (mtime_of best) rest
  = Found (first_max mtime_of best rest).
Proof.
  revert best. induction rest as [|x t IH]; intros best H; [reflexivity|].
  inversion H as [|? ? Hx Ht]; subst. cbn [max_from first_max].
  assert (Ex : st_mtime x = Found (mtime_of x)).
  { unfold st_mtime, mtime_of, dangling in *.
    destruct (mtime x); [reflexivity|discriminate Hx]. }
  rewrite Ex. destruct (gtb (mtime_of x) (mtime_of best)); apply IH, Ht.
Qed.

(** The running maximum raises on the first entry without one. *)
Lemma max_from_cases (rest : list Path) (best : Path) (kbest : float) :
  (Forall (fun p => dangling p = false) rest /\
   exists r, max_from st_mtime best kbest rest = Found r) \/
  (exists p, In p rest /\ dangling p = true /\
             max_from st_mtime best kbest rest
             = FileNotFoundError (errno_message p)).
Proof.
  revert best kbest. induction rest as [|x t IH]; intros best kbest.
  - left. split; [constructor|]. exists best. reflexivity.
  - cbn [max_from]. unfold st_mtime.
    destruct (mtime x) as [kx|] eqn:Ex.
    + assert (Dx : dangling x = false) by (unfold dangling; rewrite Ex; reflexivity).
      destruct (gtb kx kbest).
      * destruct (IH x kx) as [[F [r Hr]]|[p [Hp [Dp Hr]]]].
        -- left. split; [constructor; assumption|]. exists r. exact Hr.
        -- right. exists p. split; [right; exact Hp|]. split; assumption.
      * destruct (IH best kbest) as [[F [r Hr]]|[p [Hp [Dp Hr]]]].
        -- left. split; [constructor; assumption|]. exists r. exact Hr.
        -- right. exists p. split; [right; exact Hp|]. split; assumption.
    + right. exists x. split; [left; reflexivity|].
      split; [unfold dangling; rewrite Ex; reflexivity|reflexivity].
Qed.

Lemma latest_of_cases (msg : string) (files : list Path) :
  (files = [] /\ latest_of msg files = FileNotFoundError msg) \/
  (exists p, In p files /\ dangling p = true /\
             latest_of msg files = FileNotFoundError (errno_message p)) \/
  (exists f rest, files = f :: rest /\
                  Forall (fun p => dangling p = false) files /\
                  latest_of msg files = Found (first_max mtime_of f rest)).
Proof.
  destruct files as [|f rest]; [left; split; reflexivity|]. right.
  cbn [latest_of].
  destruct (mtime f) as [k|] eqn:Ef.
  - assert (Df : dangling f = false) by (unfold dangling; rewrite Ef; reflexivity).
    assert (Ek : st_mtime f = Found (mtime_of f))
      by (unfold st_mtime, mtime_of; rewrite Ef; reflexivity).
    rewrite Ek.
    destruct (max_from_cases rest f (mtime_of f)) as [[F _]|[p [Hp [Dp Hr]]]].
    + right. exists f, rest. split; [reflexivity|].
      split; [constructor; assumption|].
      apply max_from_found, F.
    + left. exists p. split; [right; exact Hp|]. split; assumption.
  - left. exists f. split; [left; reflexivity|].
    split; [unfold dangling; rewrite Ef; reflexivity|].
    unfold st_mtime. rewrite Ef. reflexivity.
Qed.

Lemma latest_of_found (msg : string) (files : list Path) (r : Path) :
  latest_of msg files = Found r ->
  Forall (fun p => dangling p = false) files /\
  exists f rest, files = f :: rest /\ r = first_max mtime_of f rest.
Proof.
  intros H. destruct (latest_of_cases msg files)
    as [[_ E]|[[p [_ [_ E]]]|[f [rest [-> [F E]]]]]];
    rewrite E in H; try discriminate H.
  injection H as <-. split; [exact F|]. eauto.
Qed.

Lemma mtime_of_notna (files : list Path) :
  Forall (fun p => forall t, mtime p = Some t -> notna t = true) files ->
  Forall (fun p => dangling p = false) files ->
  Forall (fun p => notna (mtime_of p) = true) files.
Proof.
  rewrite !Forall_forall. intros Hn Hd p Hp.
  specialize (Hn p Hp). specialize (Hd p Hp).
  unfold dangling, mtime_of in *. destruct (mtime p); [|discriminate Hd].
  apply Hn. reflexivity.
Qed.

Lemma older_mtime_of (p r : Path) :
  dangling p = false -> dangling r = false ->
  older p r = ltb (mtime_of p) (mtime_of r).
Proof.
  unfold dangling, older, mtime_of.
  destruct (mtime p), (mtime r); intros; try discriminate; reflexivity.
Qed.

Lemma no_newer_mtime_of (p r : Path) :
  dangling p = false -> dangling r = false ->
  no_newer p r = negb (ltb (mtime_of r) (mtime_of p)).
Proof.
  unfold dangling, no_newer, mtime_of, gtb.
  destruct (mtime p), (mtime r); intros; try discriminate; reflexivity.
Qed.

Lemma latest_of_split (msg : string) (files : list Path) (r : Path) :
  Forall (fun p => forall t, mtime p = Some t -> notna t = true) files ->
  latest_of msg files = Found r ->
  Forall (fun p => dangling p = false) files /\
  exists pre post,
    files = pre ++ r :: post /\
    Forall (fun p => older p r = true) pre /\
    Forall (fun p => no_newer p r = true) post.
Proof.
  intros Hna H. apply latest_of_found in H.
  destruct H as [Hd [f [rest [-> ->]]]]. split; [exact Hd|].
  pose proof (mtime_of_notna _ Hna Hd) as Hn.
  destruct (first_max_split mtime_of rest [] [] f Hn) as [pre [post [Heq [H1 H2]]]];
    [constructor|constructor|].
  cbn [app] in Heq. exists pre, post. split; [exact Heq|].
  assert (Dr : dangling (first_max mtime_of f rest) = false).
  { rewrite Forall_forall in Hd. apply Hd. rewrite Heq.
    apply in_or_app. right. left. reflexivity. }
  rewrite Heq in Hd. apply Forall_app in Hd. destruct Hd as [Dpre Dpost].
  inversion Dpost as [|? ? _ Dpost']; subst.
  split.
  - rewrite Forall_forall in *. intros p Hp.
    rewrite older_mtime_of; [apply H1, Hp|apply Dpre, Hp|exact Dr].
  - rewrite Forall_forall in *. intros p Hp.
    rewrite no_newer_mtime_of; [|apply Dpost', Hp|exact Dr].
    rewrite (H2 p Hp). reflexivity.
Qed.

Lemma older_no_newer (p r : Path) : older p r = true -> no_newer p r = true.
Proof.
  unfold older, no_newer, gtb. destruct (mtime p) as [a|], (mtime r) as [b|];
    try discriminate. intros H. fold (ltb b a). rewrite (ltb_asym _ _ H). reflexivity.
Qed.

Lemma older_not_no_newer (p r : Path) :
  older p r = true -> no_newer r p = true -> False.
Proof.
  unfold older, no_newer, gtb. destruct (mtime p) as [a|], (mtime r) as [b|];
    try discriminate. fold (ltb a b). intros ->. discriminate.
Qed.

Lemma no_newer_refl (r : Path) :
  dangling r = false -> no_newer r r = true.
Proof.
  intros D. rewrite no_newer_mtime_of by assumption.
  rewrite ltb_irrefl. reflexivity.
Qed.

Lemma latest_of_newest (msg : string) (files : list Path) (r : Path) :
  Forall (fun p => forall t, mtime p = Some t -> notna t = true) files ->
  latest_of msg files = Found r ->
  In r files /\ forall p, In p files -> no_newer p r = true.
Proof.
  intros Hna H. destruct (latest_of_split msg files r Hna H)
    as [Hd [pre [post [-> [Hpre Hpost]]]]].
  split; [apply in_or_app; right; left; reflexivity|].
  intros p Hp. rewrite Forall_forall in Hpre, Hpost, Hd.
  pose proof (Hd p Hp) as Dp. apply in_app_or in Hp.
  destruct Hp as [Hp|[<-|Hp]].
  - apply older_no_newer, Hpre, Hp.
  - apply no_newer_refl, Dp.
  - apply Hpost, Hp.
Qed.

Lemma glob_In (name_prefix : string) (dir : list Path) (p : Path) :
  In p (glob name_prefix dir) <->
  In p dir /\ prefix name_prefix (path_name p) = true.
Proof. unfold glob. apply filter_In. Qed.

Lemma glob_notna (name_prefix : string) (dir : list Path) :
  Forall (fun p => forall t, mtime p = Some t -> notna t = true) dir ->
  Forall (fun p => forall t, mtime p = Some t -> notna t = true)
         (glob name_prefix dir).
Proof.
  rewrite !Forall_forall. intros H p Hp. apply H.
  apply glob_In in Hp. apply Hp.
Qed.

Lemma glob_empty (name_prefix : string) (dir : list Path) :
  glob name_prefix dir = [] <->
  forall p, In p dir -> prefix name_prefix (path_name p) = false.
Proof.
  unfold glob. induction dir as [|q t IH]; cbn; [intuition|].
  destruct (prefix name_prefix (path_name q)) eqn:E; split.
  - discriminate.
  - intros H. specialize (H q (or_introl eq_refl)). congruence.
  - intros H p [<-|Hp]; [exact E|]. apply IH; assumption.
  - intros H. apply IH. intros p Hp. apply H. right. exact Hp.
Qed.

(** A function raises its own message on an empty list only, and raises
    at all on an empty list or on a list with an entry that leads to no
    file. *)
Lemma latest_of_raises (msg : string) (files : list Path) :
  (forall p, errno_message p <> msg) ->
  (latest_of msg files = FileNotFoundError msg <-> files = []) /\
  ((exists m, latest_of msg files = FileNotFoundError m) <->
   files = [] \/ exists p, In p files /\ dangling p = true).
Proof.
  intros Hmsg.
  destruct (latest_of_cases msg files)
    as [[-> E]|[[p [Hp [Dp E]]]|[f [rest [-> [F E]]]]]]; rewrite E.
  - split; split; eauto.
  - split; split.
    + intros H. injection H as H. destruct (Hmsg p H).
    + intros ->. destruct Hp.
    + intros _. right. eauto.
    + eauto.
  - split; split; try discriminate.
    + intros [m H]. discriminate H.
    + intros [H|[p [Hp Dp]]]; [discriminate H|].
      rewrite Forall_forall in F. rewrite (F p Hp) in Dp. discriminate Dp.
Qed.

Lemma errno_not_raw (p : Path) : errno_message p <> no_raw_files.
Proof. discriminate. Qed.

Lemma errno_not_processed (p : Path) : errno_message p <> no_processed_files.
Proof. discriminate. Qed.

Lemma errno_not_parquet (p : Path) : errno_message p <> no_parquet_files.
Proof. discriminate. Qed.

(** X13. Each of the three functions that pick a file raises
    [FileNotFoundError] with its own message exactly when the directory
    lists no entry with the name prefix it looks for: [raw_energy_] for
    the transform, [processed_energy_] for the anomaly detection, and
    either [processed_energy_] or [anomaly_tagged_] for the load.  It
    raises [FileNotFoundError] at all exactly when the directory lists no
    such entry or lists one that leads to no file, on which [stat]
    raises. *)
Theorem latest_file_missing (dir : list Path) :
  (_latest_raw_file dir = FileNotFoundError no_raw_files <->
   forall p, In p dir -> prefix "raw_energy_" (path_name p) = false) /\
  ((exists m, _latest_raw_file dir = FileNotFoundError m) <->
   (forall p, In p dir -> prefix "raw_energy_" (path_name p) = false) \/
   exists p, In p dir /\ prefix "raw_energy_" (path_name p) = true /\
             dangling p = true) /\
  (_latest_processed dir = FileNotFoundError no_processed_files <->
   forall p, In p dir -> prefix "processed_energy_" (path_name p) = false) /\
  ((exists m, _latest_processed dir = FileNotFoundError m) <->
   (forall p, In p dir -> prefix "processed_energy_" (path_name p) = false) \/
   exists p, In p dir /\ prefix "processed_energy_" (path_name p) = true /\
             dangling p = true) /\
  (_latest_processed_file dir = FileNotFoundError no_parquet_files <->
   forall p, In p dir ->
     prefix "processed_energy_" (path_name p) = false /\
     prefix "anomaly_tagged_" (path_name p) = false) /\
  ((exists m, _latest_processed_file dir = FileNotFoundError m) <->
   (forall p, In p dir ->
      prefix "processed_energy_" (path_name p) = false /\
      prefix "anomaly_tagged_" (path_name p) = false) \/
   exists p, In p dir /\
             prefix "processed_energy_" (path_name p)
             || prefix "anomaly_tagged_" (path_name p) = true /\
             dangling p = true).
Proof.
  unfold _latest_raw_file, _latest_processed, _latest_processed_file.
  destruct (latest_of_raises no_raw_files (glob "raw_energy_" dir) errno_not_raw)
    as [R1 R2].
  destruct (latest_of_raises no_processed_files (glob "processed_energy_" dir)
                             errno_not_processed) as [P1 P2].
  destruct (latest_of_raises no_parquet_files
              (glob "processed_energy_" dir ++ glob "anomaly_tagged_" dir)
              errno_not_parquet) as [Q1 Q2].
  assert (G : forall pre, (exists p, In p (glob pre dir) /\ dangling p = true) <->
                exists p, In p dir /\ prefix pre (path_name p) = true /\
                          dangling p = true).
  { intros pre. split; intros [p [Hp Dp]]; exists p.
    - apply glob_In in Hp. destruct Hp. repeat split; assumption.
    - split; [apply glob_In; destruct Dp; split; assumption|apply Dp]. }
  assert (E2 : glob "processed_energy_" dir ++ glob "anomaly_tagged_" dir = [] <->
               forall p, In p dir ->
                 prefix "processed_energy_" (path_name p) = false /\
                 prefix "anomaly_tagged_" (path_name p) = false).
  { split.
    - intros H. apply app_eq_nil in H. destruct H as [H1 H2].
      intros p Hp. split; [eapply glob_empty in H1|eapply glob_empty in H2]; eauto.
    - intros H.
      assert (H1 : glob "processed_energy_" dir = [])
        by (apply glob_empty; intros p Hp; apply H; exact Hp).
      assert (H2 : glob "anomaly_tagged_" dir = [])
        by (apply glob_empty; intros p Hp; apply H; exact Hp).
      rewrite H1, H2. reflexivity. }
  split; [rewrite R1; apply glob_empty|].
  split; [rewrite R2, glob_empty, G; reflexivity|].
  split; [rewrite P1; apply glob_empty|].
  split; [rewrite P2, glob_empty, G; reflexivity|].
  split; [rewrite Q1; exact E2|].
  rewrite Q2, E2. apply or_iff_compat_l.
  split; intros [p [Hp Dp]]; exists p.
  - apply in_app_or in Hp.
    destruct Hp as [Hp|Hp]; apply glob_In in Hp; destruct Hp as [Hp Hx];
      (split; [exact Hp|]); (split; [|exact Dp]); rewrite Hx;
      [reflexivity|apply orb_true_r].
  - destruct Dp as [Hx Dp]. split; [|exact Dp].
    apply in_or_app. apply orb_true_iff in Hx.
    destruct Hx as [Hx|Hx]; [left|right]; apply glob_In; split; assumption.
Qed.

Lemma latest_file_missing_witness :
  (exists m, _latest_raw_file sample_dir_dangling = FileNotFoundError m) /\
  _latest_raw_file sample_dir_dangling <> FileNotFoundError no_raw_files /\
  _latest_processed sample_dir_dangling = FileNotFoundError no_processed_files.
Proof.
  destruct (latest_file_missing sample_dir_dangling) as [R1 [R2 [P1 _]]].
  split; [|split].
  - apply R2. right.
    exists (mkPath "raw_energy_latest.csv" None).
    split; [right; left; reflexivity|split; reflexivity].
  - intros H.
    pose proof (proj1 R1 H (mkPath "raw_energy_latest.csv" None)
                      (or_intror (or_introl eq_refl))) as Hp.
    discriminate Hp.
  - apply P1. intros p [<-|[<-|[]]]; reflexivity.
Defined.

(** X14. The file a stage picks is a file of the directory with the
    prefix the stage looks for, and no file with that prefix has a later
    modification time. *)
Theorem latest_file_newest (dir : list Path) (r : Path) :
  Forall (fun p => forall t, mtime p = Some t -> notna t = true) dir ->
  (_latest_raw_file dir = Found r ->
   In r dir /\ prefix "raw_energy_" (path_name r) = true /\
   forall p, In p dir -> prefix "raw_energy_" (path_name p) = true ->
             no_newer p r = true) /\
  (_latest_processed dir = Found r ->
   In r dir /\ prefix "processed_energy_" (path_name r) = true /\
   forall p, In p dir -> prefix "processed_energy_" (path_name p) = true ->
             no_newer p r = true) /\
  (_latest_processed_file dir = Found r ->
   In r dir /\
   prefix "processed_energy_" (path_name r)
   || prefix "anomaly_tagged_" (path_name r) = true /\
   forall p, In p dir ->
             prefix "processed_energy_" (path_name p)
             || prefix "anomaly_tagged_" (path_name p) = true ->
             no_newer p r = true).
Proof.
  intros Hna. unfold _latest_raw_file, _latest_processed, _latest_processed_file.
  split; [|split].
  - intros H. apply latest_of_newest in H; [|apply glob_notna; exact Hna].
    destruct H as [Hin Hmax]. apply glob_In in Hin. destruct Hin as [Hin Hp].
    repeat split; try assumption.
    intros p Hp1 Hp2. apply Hmax, glob_In. split; assumption.
  - intros H. apply latest_of_newest in H; [|apply glob_notna; exact Hna].
    destruct H as [Hin Hmax]. apply glob_In in Hin. destruct Hin as [Hin Hp].
    repeat split; try assumption.
    intros p Hp1 Hp2. apply Hmax, glob_In. split; assumption.
  - intros H. apply latest_of_newest in H;
      [|apply Forall_app; split; apply glob_notna; exact Hna].
    destruct H as [Hin Hmax]. apply in_app_or in Hin.
    split; [destruct Hin as [Hin|Hin]; apply glob_In in Hin; apply Hin|].
    split.
    + destruct Hin as [Hin|Hin]; apply glob_In in Hin; destruct Hin as [_ ->];
        [reflexivity|apply orb_true_r].
    + intros p Hp1 Hp2. apply Hmax, in_or_app. apply orb_true_iff in Hp2.
      destruct Hp2 as [Hp2|Hp2]; [left|right]; apply glob_In; split; assumption.
Qed.

Lemma latest_file_newest_witness :
  In (mkPath "processed_energy_20240101T000000.parquet" (Some (of_Z 1704067200)))
     sample_dir_later /\
  prefix "processed_energy_" "processed_energy_20240101T000000.parquet" = true /\
  forall p, In p sample_dir_later ->
            prefix "processed_energy_" (path_name p) = true ->
            no_newer p (mkPath "processed_energy_20240101T000000.parquet"
                               (Some (of_Z 1704067200))) = true.
Proof.
  apply (proj1 (proj2 (latest_file_newest sample_dir_later
           (mkPath "processed_energy_20240101T000000.parquet"
                   (Some (of_Z 1704067200)))
           ltac:(repeat constructor; intros t H; injection H as <-; reflexivity)))).
  reflexivity.
Defined.

(** X15. Among the files with the latest modification time a stage picks
    the first in its list: every file before the one it picks is strictly
    older.  The load lists the processed files before the tagged files, so
    it loads a tagged file when one is strictly newer than every processed
    file, and a processed file, without the anomaly columns, when a
    processed file is as new as every tagged file. *)
Theorem latest_file_ties (dir : list Path) (r : Path) :
  Forall (fun p => forall t, mtime p = Some t -> notna t = true) dir ->
  (_latest_raw_file dir = Found r ->
   exists before after,
     glob "raw_energy_" dir = before ++ r :: after /\
     Forall (fun p => older p r = true) before) /\
  (_latest_processed dir = Found r ->
   exists before after,
     glob "processed_energy_" dir = before ++ r :: after /\
     Forall (fun p => older p r = true) before) /\
  (_latest_processed_file dir = Found r ->
   ((exists a, In a (glob "anomaly_tagged_" dir) /\
               forall p, In p (glob "processed_energy_" dir) ->
                         older p a = true) ->
    In r (glob "anomaly_tagged_" dir)) /\
   ((exists p, In p (glob "processed_energy_" dir) /\
               forall a, In a (glob "anomaly_tagged_" dir) ->
                         no_newer a p = true) ->
    In r (glob "processed_energy_" dir))).
Proof.
  intros Hna. unfold _latest_raw_file, _latest_processed, _latest_processed_file.
  split; [|split].
  - intros H. apply latest_of_split in H; [|apply glob_notna; exact Hna].
    destruct H as [_ [pre [post [Heq [Hpre _]]]]]. eauto.
  - intros H. apply latest_of_split in H; [|apply glob_notna; exact Hna].
    destruct H as [_ [pre [post [Heq [Hpre _]]]]]. eauto.
  - intros H.
    assert (Hna' : Forall (fun p => forall t, mtime p = Some t -> notna t = true)
                     (glob "processed_energy_" dir ++ glob "anomaly_tagged_" dir))
      by (apply Forall_app; split; apply glob_notna; exact Hna).
    pose proof (latest_of_newest _ _ _ Hna' H) as [Hin Hmax].
    pose proof (latest_of_split _ _ _ Hna' H) as [_ [pre [post [Heq [Hpre _]]]]].
    split.
    + intros [a [Ha Hnew]]. apply in_app_or in Hin.
      destruct Hin as [Hin|Hin]; [|exact Hin]. exfalso.
      specialize (Hnew r Hin).
      specialize (Hmax a (in_or_app _ _ _ (or_intror Ha))).
      exact (older_not_no_newer _ _ Hnew Hmax).
    + intros [p [Hp Hold]].
      apply app_eq_app in Heq. destruct Heq as [l [[HP HA]|[HP HA]]].
      * destruct l as [|x l].
        -- cbn in HA. exfalso.
           rewrite app_nil_r in HP. rewrite HP in Hp.
           rewrite Forall_forall in Hpre. specialize (Hpre p Hp).
           assert (Hr : In r (glob "anomaly_tagged_" dir))
             by (rewrite <- HA; left; reflexivity).
           specialize (Hold r Hr). exact (older_not_no_newer _ _ Hpre Hold).
        -- cbn in HA. injection HA as <- _. rewrite HP.
           apply in_or_app. right. left. reflexivity.
      * exfalso. rewrite Forall_forall in Hpre.
        assert (Hp' : In p pre) by (rewrite HP; apply in_or_app; left; exact Hp).
        specialize (Hpre p Hp').
        assert (Hr : In r (glob "anomaly_tagged_" dir))
          by (rewrite HA; apply in_or_app; right; left; reflexivity).
        specialize (Hold r Hr). exact (older_not_no_newer _ _ Hpre Hold).
Qed.

Lemma latest_file_ties_witness :
  In (mkPath "anomaly_tagged_20240101T000001.parquet" (Some (of_Z 1704067201)))
     (glob "anomaly_tagged_" sample_dir_later) /\
  In (mkPath "processed_energy_20240101T000000.parquet" (Some (of_Z 1704067200)))
     (glob "processed_energy_" sample_dir_tie).
Proof.
  split.
  - apply (proj1 (proj2 (proj2 (latest_file_ties sample_dir_later
             (mkPath "anomaly_tagged_20240101T000001.parquet"
                     (Some (of_Z 1704067201)))
             ltac:(repeat constructor; intros t H; injection H as <-; reflexivity)))
             eq_refl)).
    exists (mkPath "anomaly_tagged_20240101T000001.parquet" (Some (of_Z 1704067201))).
    split; [left; reflexivity|].
    intros p [<-|[<-|[]]]; reflexivity.
  - apply (proj2 (proj2 (proj2 (latest_file_ties sample_dir_tie
             (mkPath "processed_energy_20240101T000000.parquet"
                     (Some (of_Z 1704067200)))
             ltac:(repeat constructor; intros t H; injection H as <-; reflexivity)))
             eq_refl)).
    exists (mkPath "processed_energy_20240101T000000.parquet" (Some (of_Z 1704067200))).
    split; [left; reflexivity|].
    intros a [<-|[]]. reflexivity.
Defined.

(** ** The transform as a whole *)

Lemma clean_types_length (df : list RawReading) (out : list Reading) :
  _clean_types df = Ok out -> List.length out = List.length df.
Proof.
  unfold _clean_types, astype_int. intros H.
  destruct (to_datetime (map raw_timestamp df)) as [ts|e] eqn:Et;
    cbn [bind] in H; [|discriminate H].
  destruct (mapM astype_int_cell (map raw_meter_id df)) as [ids|e] eqn:Ei;
    cbn [bind] in H; [|discriminate H].
  injection H as <-.
  apply to_datetime_inv in Et. destruct Et as [_ Et].
  apply (f_equal (@List.length _)) in Et. rewrite !length_map in Et.
  apply mapM_inv, Forall2_length in Ei. rewrite length_map in Ei.
  destruct (typed_rows_columns df ts ids Et (eq_sym Ei)) as [H1 _].
  rewrite <- (length_map timestamp), H1. exact Et.
Qed.

Lemma clean_values_in_bounds (df : list Reading) (r : Reading) :
  In r (_clean_values df) ->
  notna (voltage r) = true /\ notna (current r) = true /\
  notna (power_kw r) = true /\
  ltb (voltage r) (of_Z 50) = false /\ ltb (current r) (of_Z 0) = false /\
  ltb (power_kw r) (of_Z 0) = false.
Proof.
  intros H. apply clean_values_rows in H.
  destruct H as [r0 [_ [Hv [Hc [Hp [_ [Nv [Nc Np]]]]]]]].
  repeat split; try assumption.
  - rewrite Hv in *. destruct (ltb (voltage r0) (of_Z 50)) eqn:E;
      [discriminate Nv|exact E].
  - rewrite Hc in *. destruct (ltb (current r0) (of_Z 0)) eqn:E;
      [discriminate Nc|exact E].
  - rewrite Hp in *. destruct (ltb (power_kw r0) (of_Z 0)) eqn:E;
      [discriminate Np|exact E].
Qed.

(** X16. The three stages of [transform_data] in a row raise exactly
    when the Type Normalizer raises.  When they return, the frame is no
    longer than the raw frame, it is sorted by meter and timestamp, and
    every record has its voltage, current and power present, a voltage
    not below 50, a current and a power not negative and a change that is
    a number; so on such a record the current rule can only trigger by a
    current above 50. *)
Theorem transform_frame_output (df : list RawReading) :
  (forall e, transform_frame df = Raise e <-> _clean_types df = Raise e) /\
  (forall out, transform_frame df = Ok out ->
     (List.length out <= List.length df)%nat /\
     ordered reading_leb (map reading out) /\
     forall e, In e out ->
       notna (voltage (reading e)) = true /\
       notna (current (reading e)) = true /\
       notna (power_kw (reading e)) = true /\
       ltb (voltage (reading e)) (of_Z 50) = false /\
       ltb (current (reading e)) (of_Z 0) = false /\
       ltb (power_kw (reading e)) (of_Z 0) = false /\
       notna (kw_pct_change e) = true /\
       current_rule e = gtb (current (reading e)) (of_Z 50)).
Proof.
  unfold transform_frame. split.
  - intros e. destruct (_clean_types df) as [d|e']; cbn [bind]; split; congruence.
  - intros out H. destruct (_clean_types df) as [d|e'] eqn:E; cbn [bind] in H;
      [|discriminate H].
    injection H as <-. apply clean_types_length in E.
    split; [|split].
    + rewrite <- (length_map reading), engineer_features_readings.
      rewrite (Permutation_length (sort_values_Permutation reading_leb _)).
      rewrite clean_values_as_filter, length_map, <- E. apply filter_length_le.
    + rewrite engineer_features_readings.
      apply sort_values_ordered; [apply reading_leb_total|apply reading_leb_trans].
    + intros e He.
      assert (Hr : In (reading e) (_clean_values d)).
      { eapply Permutation_in; [apply sort_values_Permutation|].
        rewrite <- engineer_features_readings. apply in_map. exact He. }
      apply clean_values_in_bounds in Hr.
      destruct Hr as [Nv [Nc [Np [Bv [Bc Bp]]]]].
      repeat split; try assumption.
      * rewrite engineer_features_unfold in He. unfold features in He.
        apply with_features_pct_In in He. eapply fillna_notna. exact He.
      * unfold current_rule. rewrite Bc. reflexivity.
Qed.

Lemma transform_frame_output_witness :
  (List.length [sample_transformed] <= List.length sample_raw)%nat /\
  ordered reading_leb (map reading [sample_transformed]) /\
  forall e, In e [sample_transformed] ->
    notna (voltage (reading e)) = true /\
    notna (current (reading e)) = true /\
    notna (power_kw (reading e)) = true /\
    ltb (voltage (reading e)) (of_Z 50) = false /\
    ltb (current (reading e)) (of_Z 0) = false /\
    ltb (power_kw (reading e)) (of_Z 0) = false /\
    notna (kw_pct_change e) = true /\
    current_rule e = gtb (current (reading e)) (of_Z 50).
Proof.
  apply (proj2 (transform_frame_output sample_raw) [sample_transformed]).
  vm_compute. reflexivity.
Defined.

(** ** The order of file names *)

Lemma ascii_compare_lt_trans (a b c : Ascii.ascii) :
  Ascii.compare a b = Lt -> Ascii.compare b c = Lt -> Ascii.compare a c = Lt.
Proof.
  unfold Ascii.compare. rewrite !N.compare_lt_iff. apply N.lt_trans.
Qed.

Lemma string_compare_lt_trans (s1 s2 s3 : string) :
  String.compare s1 s2 = Lt -> String.compare s2 s3 = Lt ->
  String.compare s1 s3 = Lt.
Proof.
  revert s2 s3. induction s1 as [|a s1 IH]; intros [|b s2] [|c s3]; cbn;
    try congruence.
  destruct (Ascii.compare a b) eqn:Eab; try discriminate;
    destruct (Ascii.compare b c) eqn:Ebc; try discriminate.
  - apply Ascii.compare_eq_iff in Eab, Ebc. subst.
    unfold Ascii.compare at 1. rewrite N.compare_refl. apply IH.
  - apply Ascii.compare_eq_iff in Eab. subst. rewrite Ebc. reflexivity.
  - apply Ascii.compare_eq_iff in Ebc. subst. rewrite Eab. reflexivity.
  - rewrite (ascii_compare_lt_trans a b c Eab Ebc). reflexivity.
Qed.

Lemma string_leb_trans (s1 s2 s3 : string) :
  String.leb s1 s2 = true -> String.leb s2 s3 = true -> String.leb s1 s3 = true.
Proof.
  unfold String.leb.
  destruct (String.compare s1 s2) eqn:E12; try discriminate;
    destruct (String.compare s2 s3) eqn:E23; try discriminate; intros _ _.
  - apply String.compare_eq_iff in E12. subst. rewrite E23. reflexivity.
  - apply String.compare_eq_iff in E12. subst. rewrite E23. reflexivity.
  - apply String.compare_eq_iff in E23. subst. rewrite E12. reflexivity.
  - rewrite (string_compare_lt_trans s1 s2 s3 E12 E23). reflexivity.
Qed.

Lemma name_leb_total {C} (a b : string * C) :
  name_leb a b = true \/ name_leb b a = true.
Proof. apply String.leb_total. Qed.

Lemma name_leb_trans {C} (a b c : string * C) :
  name_leb a b = true -> name_leb b c = true -> name_leb a c = true.
Proof. apply string_leb_trans. Qed.

Lemma ordered_last {R} (le : R -> R -> bool) (l : list R) (x : R) :
  ordered le (l ++ [x]) -> Forall (fun y => le y x = true) l.
Proof.
  induction l as [|a t IH]; cbn; intros H; [constructor|].
  inversion H as [|? ? Ht Ha]; subst. constructor.
  - rewrite Forall_forall in Ha. apply Ha, in_or_app. right. left. reflexivity.
  - apply IH. exact Ht.
Qed.

Lemma last_sorted_none {C} (files : list (string * C)) :
  last_sorted files = None <-> files = [].
Proof.
  unfold last_sorted. split.
  - intros H. destruct (rev (sort_values name_leb files)) as [|f r] eqn:E;
      [|discriminate H].
    apply (f_equal (@List.length _)) in E.
    rewrite length_rev in E.
    rewrite (Permutation_length (sort_values_Permutation name_leb files)) in E.
    destruct files; [reflexivity|discriminate E].
  - intros ->. reflexivity.
Qed.

Lemma last_sorted_greatest {C} (files : list (string * C)) (f : string * C) :
  last_sorted files = Some f ->
  In f files /\ forall q, In q files -> String.leb (fst q) (fst f) = true.
Proof.
  unfold last_sorted. intros H.
  destruct (rev (sort_values name_leb files)) as [|f' r] eqn:E; [discriminate H|].
  injection H as ->.
  assert (Hs : sort_values name_leb files = rev r ++ [f]).
  { rewrite <- (rev_involutive (sort_values name_leb files)), E. reflexivity. }
  pose proof (sort_values_ordered name_leb name_leb_total name_leb_trans files) as Ho.
  rewrite Hs in Ho. apply ordered_last in Ho.
  pose proof (sort_values_Permutation name_leb files) as Hp. rewrite Hs in Hp.
  split.
  - eapply Permutation_in; [exact Hp|]. apply in_or_app. right. left. reflexivity.
  - intros q Hq. apply (Permutation_in _ (Permutation_sym Hp)) in Hq.
    apply in_app_or in Hq. destruct Hq as [Hq|[<-|[]]].
    + rewrite Forall_forall in Ho. apply (Ho q Hq).
    + destruct (String.leb_total (fst f) (fst f)); assumption.
Qed.

(** ** The gold frame *)

(** X17. [export_gold] writes nothing exactly when one of its two
    listings is empty.  Otherwise it merges the processed file and the
    tagged file whose names are the last in string order, whatever their
    modification times are. *)
Theorem export_gold_files (processed : list (string * list Enriched))
        (anomalies : list (string * list Tagged)) :
  (export_gold processed anomalies = None <->
   processed = [] \/ anomalies = []) /\
  (forall gold, export_gold processed anomalies = Some gold ->
   exists p a,
     In p processed /\ In a anomalies /\
     (forall q, In q processed -> String.leb (fst q) (fst p) = true) /\
     (forall b, In b anomalies -> String.leb (fst b) (fst a) = true) /\
     gold = merge_left (snd p) (snd a)).
Proof.
  unfold export_gold. split.
  - rewrite <- !last_sorted_none.
    destruct (last_sorted processed), (last_sorted anomalies); split;
      intros H; try discriminate; try reflexivity; auto;
      destruct H as [H|H]; discriminate H.
  - intros gold H.
    destruct (last_sorted processed) as [p|] eqn:Ep; [|discriminate H].
    destruct (last_sorted anomalies) as [a|] eqn:Ea; [|discriminate H].
    injection H as <-.
    apply last_sorted_greatest in Ep, Ea.
    exists p, a. intuition.
Qed.

Lemma export_gold_files_witness :
  exists p a,
    In p sample_processed_files /\ In a sample_tagged_files /\
    (forall q, In q sample_processed_files -> String.leb (fst q) (fst p) = true) /\
    (forall b, In b sample_tagged_files -> String.leb (fst b) (fst a) = true) /\
    merge_left sample_unique (_apply_rules sample_duplicates)
    = merge_left (snd p) (snd a).
Proof.
  apply (proj2 (export_gold_files sample_processed_files sample_tagged_files)).
  reflexivity.
Defined.

Lemma key_eqb_eq (a b : Z * instant) : key_eqb a b = true <-> a = b.
Proof.
  destruct a as [m1 t1], b as [m2 t2]. unfold key_eqb. cbn [fst snd].
  rewrite andb_true_iff, Z.eqb_eq. split.
  - intros [-> H]. destruct t1, t2; try discriminate H;
      [apply Z.eqb_eq in H; subst|]; reflexivity.
  - intros H. injection H as -> ->. split; [reflexivity|].
    destruct t2; [apply Z.eqb_refl|reflexivity].
Qed.

Lemma filter_tagged (p : Enriched -> bool) (df : list Enriched) :
  filter (fun t => p (enriched t)) (_apply_rules df)
  = _apply_rules (filter p df).
Proof.
  rewrite !apply_rules_rowwise.
  induction df as [|e t IH]; [reflexivity|].
  cbn [map filter enriched]. destruct (p e); cbn [map]; rewrite IH; reflexivity.
Qed.

Lemma key_count_positive (df : list Enriched) (l : Enriched) :
  In l df -> filter (fun r => key_eqb (merge_key l) (merge_key r)) df <> [].
Proof.
  intros Hin H.
  assert (Hl : In l (filter (fun r => key_eqb (merge_key l) (merge_key r)) df)).
  { apply filter_In. split; [exact Hin|]. apply key_eqb_eq. reflexivity. }
  rewrite H in Hl. destruct Hl.
Qed.

(** The gold rows of a processed row when the tagged frame is the
    tagging of the processed frame. *)
Lemma merge_own_row (df : list Enriched) (l : Enriched) :
  In l df ->
  match filter (fun t => key_eqb (merge_key l) (merge_key (enriched t)))
               (_apply_rules df) with
  | [] => [mkGold l None None]
  | matches =>
      map (fun t => mkGold l (Some (anomaly_flag t)) (anomaly_reason t)) matches
  end
  = map (fun t => mkGold l (Some (anomaly_flag t)) (anomaly_reason t))
        (_apply_rules (filter (fun r => key_eqb (merge_key l) (merge_key r)) df)).
Proof.
  intros Hin.
  rewrite (filter_tagged (fun r => key_eqb (merge_key l) (merge_key r)) df).
  pose proof (key_count_positive df l Hin) as Hne.
  destruct (filter (fun r => key_eqb (merge_key l) (merge_key r)) df) as [|x t];
    [congruence|reflexivity].
Qed.

Lemma filter_none {A} (p : A -> bool) (l : list A) :
  (forall x, In x l -> p x = false) -> filter p l = [].
Proof.
  induction l as [|x t IH]; cbn; [reflexivity|]. intros H.
  rewrite (H x) by (left; reflexivity). apply IH. intros y Hy. apply H. right. exact Hy.
Qed.

Lemma filter_unique_key (df : list Enriched) (l : Enriched) :
  NoDup (map merge_key df) -> In l df ->
  filter (fun r => key_eqb (merge_key l) (merge_key r)) df = [l].
Proof.
  induction df as [|x t IH]; cbn [map filter]; [intros _ []|].
  intros Hnd Hin. inversion Hnd as [|? ? Hx Ht]; subst.
  destruct Hin as [->|Hin].
  - replace (key_eqb (merge_key l) (merge_key l)) with true
      by (symmetry; apply key_eqb_eq; reflexivity).
    f_equal. apply filter_none. intros r Hr.
    destruct (key_eqb (merge_key l) (merge_key r)) eqn:E; [|reflexivity].
    apply key_eqb_eq in E. exfalso. apply Hx. rewrite E. apply in_map. exact Hr.
  - destruct (key_eqb (merge_key l) (merge_key x)) eqn:E.
    + apply key_eqb_eq in E. exfalso. apply Hx. rewrite <- E. apply in_map. exact Hin.
    + apply IH; assumption.
Qed.

(** X18. When no two rows of the processed frame share a meter and a
    timestamp, merging the frame with its own tagging gives every row once,
    in order, with its own flag and reason. *)
Theorem merge_own_tagging (df : list Enriched) :
  NoDup (map merge_key df) ->
  merge_left df (_apply_rules df) = map gold_of (_apply_rules df).
Proof.
  intros Hnd. unfold merge_left.
  assert (H : forall part, incl part df ->
            flat_map
              (fun l =>
                 match filter (fun t => key_eqb (merge_key l) (merge_key (enriched t)))
                              (_apply_rules df) with
                 | [] => [mkGold l None None]
                 | matches =>
                     map (fun t => mkGold l (Some (anomaly_flag t)) (anomaly_reason t))
                         matches
                 end) part
            = map gold_of (_apply_rules part)).
  { induction part as [|l t IH]; intros Hsub; [reflexivity|].
    cbn [flat_map].
    rewrite (merge_own_row df l) by (apply Hsub; left; reflexivity).
    rewrite filter_unique_key by (try exact Hnd; apply Hsub; left; reflexivity).
    rewrite IH by (intros x Hx; apply Hsub; right; exact Hx).
    rewrite !apply_rules_rowwise. reflexivity. }
  apply H, incl_refl.
Qed.

Lemma merge_own_tagging_witness :
  merge_left sample_unique (_apply_rules sample_unique)
  = map gold_of (_apply_rules sample_unique).
Proof.
  apply (merge_own_tagging sample_unique).
  repeat constructor; cbn; intuition discriminate.
Defined.

(** X19. The merge never drops a processed row: the gold frame has at
    least as many rows as the processed frame.  It can have more: merged
    with its own tagging, a row appears as many times as the frame has
    rows with its meter and timestamp, so a key that occurs n times gives n
    times n rows. *)
Theorem merge_left_row_count (left : list Enriched) (right : list Tagged) :
  (List.length left <= List.length (merge_left left right))%nat /\
  List.length (merge_left left (_apply_rules left))
  = list_sum (map (key_count left) left).
Proof.
  split.
  - unfold merge_left.
    match goal with |- context [flat_map ?f _] => set (F := f) end.
    induction left as [|l t IH]; [apply Nat.le_refl|].
    cbn [flat_map List.length]. rewrite length_app.
    assert (H1 : (1 <= List.length (F l))%nat).
    { subst F. cbv beta.
      destruct (filter (fun t0 => key_eqb (merge_key l) (merge_key (enriched t0))) right);
        cbn [List.length map]; lia. }
    lia.
  - unfold merge_left.
    assert (H : forall part, incl part left ->
              List.length
                (flat_map
                   (fun l =>
                      match filter (fun t => key_eqb (merge_key l)
                                                     (merge_key (enriched t)))
                                   (_apply_rules left) with
                      | [] => [mkGold l None None]
                      | matches =>
                          map (fun t => mkGold l (Some (anomaly_flag t))
                                               (anomaly_reason t)) matches
                      end) part)
              = list_sum (map (key_count left) part)).
    { induction part as [|l t IH]; intros Hsub; [reflexivity|].
      cbn [flat_map].
      change (map (key_count left) (l :: t))
        with (key_count left l :: map (key_count left) t).
      cbn [list_sum]. rewrite length_app.
      rewrite (merge_own_row left l) by (apply Hsub; left; reflexivity).
      rewrite IH by (intros x Hx; apply Hsub; right; exact Hx).
      rewrite length_map, apply_rules_rowwise, length_map. reflexivity. }
    apply H, incl_refl.
Qed.

(** ** The generated timestamps *)

Lemma collect_shifted (start : Z) (h : Z -> Z) (l : list Z) (ts : list Z) :
  collect (fun i => shifted start (h i)) l = Generated ts ->
  ts = map (fun i => start + h i) l.
Proof.
  revert ts. induction l as [|i t IH]; cbn; intros ts H.
  - injection H as <-. reflexivity.
  - unfold shifted in H at 1. destruct (datetime_ok (start + h i)); [|discriminate H].
    destruct (collect (fun i => shifted start (h i)) t) as [bs|e]; [|discriminate H].
    injection H as <-. rewrite (IH bs eq_refl). reflexivity.
Qed.

Lemma collect_in_range (start : Z) (h : Z -> Z) (l : list Z) :
  (forall i, In i l -> datetime_ok (start + h i) = true) ->
  collect (fun i => shifted start (h i)) l
  = Generated (map (fun i => start + h i) l).
Proof.
  induction l as [|i t IH]; cbn; intros H; [reflexivity|].
  unfold shifted at 1. rewrite (H i) by (left; reflexivity).
  rewrite IH by (intros j Hj; apply H; right; exact Hj). reflexivity.
Qed.

Lemma range_In (n i : Z) : In i (range n) <-> 0 <= i < n.
Proof.
  unfold range. rewrite in_map_iff. split.
  - intros [k [<- Hk]]. apply in_seq in Hk. lia.
  - intros H. exists (Z.to_nat i). split; [lia|]. apply in_seq. lia.
Qed.

Lemma range_length (n : Z) : List.length (range n) = Z.to_nat n.
Proof. unfold range. rewrite length_map, length_seq. reflexivity. Qed.

Lemma range_nth (n : Z) (i : nat) (d : Z) :
  (i < Z.to_nat n)%nat -> nth i (range n) d = Z.of_nat i.
Proof.
  intros H. unfold range.
  rewrite (nth_indep _ d (Z.of_nat 0)) by (rewrite length_map, length_seq; exact H).
  rewrite map_nth, seq_nth by exact H. reflexivity.
Qed.

(** X20. [_generate_timestamps] raises [ZeroDivisionError] on an
    interval of 0, whatever the other arguments are.  On a negative
    interval with a number of days that is not negative, or on an interval
    longer than the whole span of days, it returns no timestamp at all
    when the start, [now] less the days, is within the range of
    [datetime], and raises [OverflowError] when it is not. *)
Theorem generate_timestamps_degenerate (now days interval_min : Z) :
  _generate_timestamps now days 0 = GenRaise ZeroDivisionError /\
  ((interval_min < 0 /\ 0 <= days) \/ (0 <= days * 24 * 60 < interval_min) ->
   _generate_timestamps now days interval_min
   = if datetime_ok (now - days * us_per_day) then Generated []
     else GenRaise OverflowError).
Proof.
  split; [reflexivity|].
  intros Hcase. unfold _generate_timestamps, shifted.
  replace (now + - (days * us_per_day)) with (now - days * us_per_day) by lia.
  assert (Hsteps : days * 24 * 60 / interval_min <= 0).
  { destruct Hcase as [[Hi Hd]|Hd].
    - pose proof (Z.div_mod (days * 24 * 60) interval_min ltac:(lia)) as Hq.
      pose proof (Z.mod_neg_bound (days * 24 * 60) interval_min Hi) as Hr.
      nia.
    - rewrite Z.div_small by lia. lia. }
  destruct (interval_min =? 0) eqn:E; [apply Z.eqb_eq in E; lia|].
  destruct (datetime_ok (now - days * us_per_day)); [|reflexivity].
  unfold range. replace (Z.to_nat (days * 24 * 60 / interval_min)) with 0%nat by lia.
  reflexivity.
Qed.

Lemma generate_timestamps_degenerate_witness :
  _generate_timestamps sample_now 7 (-15) = Generated [] /\
  _generate_timestamps sample_now 3000000 (-15) = GenRaise OverflowError.
Proof.
  split.
  - apply (proj2 (generate_timestamps_degenerate sample_now 7 (-15))).
    left. lia.
  - apply (proj2 (generate_timestamps_degenerate sample_now 3000000 (-15))).
    left. lia.
Defined.

(** X21. With a positive interval and a number of days that is not
    negative, [_generate_timestamps] returns [days * 1440 // interval_min]
    timestamps: the first is [now] less the days, each next one is
    [interval_min] minutes later, and all of them are before [now].  It
    returns whenever [now] and the start are within the range of
    [datetime]. *)
Theorem generate_timestamps_grid (now days interval_min : Z) :
  0 < interval_min -> 0 <= days ->
  (datetime_ok now = true -> datetime_ok (now - days * us_per_day) = true ->
   exists ts, _generate_timestamps now days interval_min = Generated ts) /\
  (forall ts, _generate_timestamps now days interval_min = Generated ts ->
     List.length ts = Z.to_nat (days * 24 * 60 / interval_min) /\
     (forall i, (i < List.length ts)%nat ->
        nth i ts 0
        = now - days * us_per_day + Z.of_nat i * interval_min * us_per_minute) /\
     (forall t, In t ts -> now - days * us_per_day <= t < now)).
Proof.
  intros Hi Hd.
  assert (Hbound : forall i, 0 <= i < days * 24 * 60 / interval_min ->
            0 <= i * interval_min * us_per_minute < days * us_per_day).
  { intros i Hrange.
    pose proof (Z.mul_div_le (days * 24 * 60) interval_min Hi) as Hq.
    unfold us_per_day, us_per_minute. nia. }
  unfold _generate_timestamps, shifted.
  replace (now + - (days * us_per_day)) with (now - days * us_per_day) by lia.
  destruct (interval_min =? 0) eqn:E; [apply Z.eqb_eq in E; lia|].
  split.
  - intros Hnow Hstart. rewrite Hstart. eexists. apply collect_in_range.
    intros i Hin. apply range_In in Hin. specialize (Hbound i Hin).
    unfold datetime_ok in *. rewrite andb_true_iff, !Z.leb_le in *. lia.
  - intros ts H.
    destruct (datetime_ok (now - days * us_per_day)); [|discriminate H].
    apply collect_shifted in H. subst ts.
    rewrite length_map, range_length. split; [reflexivity|]. split.
    + intros i Hlt.
      rewrite (nth_indep _ 0
                 ((fun i => now - days * us_per_day + i * interval_min * us_per_minute) 0))
        by (rewrite length_map, range_length; exact Hlt).
      rewrite (map_nth (fun i => now - days * us_per_day
                                 + i * interval_min * us_per_minute)).
      rewrite range_nth by exact Hlt. reflexivity.
    + intros t Ht. apply in_map_iff in Ht. destruct Ht as [i [<- Hin]].
      apply range_In in Hin. specialize (Hbound i Hin). lia.
Qed.

Lemma generate_timestamps_grid_witness :
  exists ts, _generate_timestamps sample_now 7 15 = Generated ts /\
             List.length ts = 672%nat.
Proof.
  destruct (proj1 (generate_timestamps_grid sample_now 7 15
                     ltac:(lia) ltac:(lia)) eq_refl eq_refl) as [ts Hts].
  exists ts. split; [exact Hts|].
  apply (proj2 (generate_timestamps_grid sample_now 7 15 ltac:(lia) ltac:(lia)) ts Hts).
Defined.

(** ** The rolling mean in the frame the transform returns *)

Lemma present_signbit (x : float) :
  notna x = true -> ltb x (of_Z 0) = false -> x <> negative_zero ->
  signbit x = false.
Proof.
  destruct x as [s|s| |s m e]; try discriminate; destruct s;
    try reflexivity; try discriminate.
  intros _ _ H. destruct (H eq_refl).
Qed.

(** X22. In the frame the three stages of [transform_data] return, the
    rolling mean of no record is below zero, provided no power of the
    frame is the negative zero: the powers are present and not negative,
    and the running sum that went below zero by rounding is reported as
    zero.  The rolling mean can be missing, as after a power that is an
    infinity. *)
Theorem transform_rolling_nonneg (df : list RawReading) (out : list Enriched)
        (e : Enriched) :
  transform_frame df = Ok out -> In e out ->
  (forall e', In e' out -> power_kw (reading e') <> negative_zero) ->
  ltb (rolling_kw_1h e) (of_Z 0) = false.
Proof.
  unfold transform_frame. intros H He Hz.
  destruct (_clean_types df) as [d|e'] eqn:E; cbn [bind] in H; [|discriminate H].
  injection H as <-.
  assert (Hm : In e (meter_samples (meter_id (reading e))
                       (_engineer_features (_clean_values d)))).
  { apply filter_In. split; [exact He|apply Z.eqb_refl]. }
  apply In_nth_error in Hm. destruct Hm as [k Hk].
  rewrite meter_view_ordered in Hk.
  set (rows := map attach_hour
                 (time_ordered (meter_id (reading e)) (_clean_values d))) in *.
  apply with_features_nth in Hk. destruct Hk as [_ [Hx _]].
  apply (rolling_mean_not_negative (powers rows) k); [|exact Hx].
  unfold powers, rows. rewrite map_map. cbn [attach_hour fst].
  apply Forall_forall. intros x Hin. apply in_map_iff in Hin.
  destruct Hin as [r [<- Hr]].
  unfold time_ordered in Hr.
  apply (Permutation_in _ (sort_values_Permutation reading_leb _)) in Hr.
  unfold meter_readings in Hr. apply filter_In in Hr. destruct Hr as [Hr _].
  assert (Hout : In r (map reading (_engineer_features (_clean_values d)))).
  { rewrite engineer_features_readings.
    apply (Permutation_in _ (Permutation_sym
                               (sort_values_Permutation reading_leb _))).
    exact Hr. }
  apply in_map_iff in Hout. destruct Hout as [e' [<- He']].
  apply clean_values_in_bounds in Hr. destruct Hr as [_ [_ [Np [_ [_ Bp]]]]].
  apply present_signbit; [exact Np|exact Bp|apply Hz, He'].
Qed.

Lemma transform_rolling_nonneg_witness :
  transform_frame sample_raw = Ok [sample_transformed] /\
  ltb (rolling_kw_1h sample_transformed) (of_Z 0) = false.
Proof.
  split; [vm_compute; reflexivity|].
  apply (transform_rolling_nonneg sample_raw [sample_transformed] sample_transformed).
  - vm_compute. reflexivity.
  - left. reflexivity.
  - intros e' [<-|[]]. discriminate.
Defined.
